(** * tito release engine: a shallow embedding of [src/tito/release.py]

    The Python module drives external tools (cp, git, cvs, fedpkg, koji) and
    talks to an operator.  The embedding keeps the control flow of every
    method it covers and records, in a trace, each observable effect: lines
    printed, command lines handed to the shell, prompts answered, processes
    spawned.  What the outside world answers (exit status and output of a
    command, the operator's reply, the builder's products) is supplied by an
    environment of oracles that may depend on everything that happened so
    far.  The [debug] calls of [tito.common] print only when DEBUG is set and
    decide nothing; they are left out. *)

From Stdlib Require Import String Ascii List Arith Lia.
From stdpp Require Import base decidable option list strings pretty gmap.
Import ListNotations.
Local Open Scope string_scope.
Local Open Scope list_scope.

(* ===================================================================== *)
(** * Python string and path primitives                                    *)
(* ===================================================================== *)

Module PyStr.

Definition slash : ascii := "/"%char.

(** [cand] is the text after the last slash met so far. *)
Fixpoint basename_from (cand p : string) : string :=
  match p with
  | EmptyString => cand
  | String c rest =>
      if Ascii.eqb c slash then basename_from rest rest
      else basename_from cand rest
  end.

(** [os.path.basename]: what follows the last slash. *)
Definition basename (p : string) : string := basename_from p p.

Fixpoint last_char (s : string) : option ascii :=
  match s with
  | EmptyString => None
  | String c EmptyString => Some c
  | String _ rest => last_char rest
  end.

(** [os.path.join] of posixpath, for two components. *)
Definition path_join (a b : string) : string :=
  match b with
  | String c _ =>
      if Ascii.eqb c slash then b
      else match last_char a with
           | None => a +:+ b
           | Some l => if Ascii.eqb l slash then a +:+ b else a +:+ "/" +:+ b
           end
  | EmptyString =>
      match last_char a with
      | None => a +:+ b
      | Some l => if Ascii.eqb l slash then a +:+ b else a +:+ "/" +:+ b
      end
  end.

(** The characters [str.strip()] removes: space, \t, \n, \v, \f, \r. *)
Definition is_whitespace (c : ascii) : bool :=
  let n := nat_of_ascii c in
  Nat.eqb n 32 || (Nat.leb 9 n && Nat.leb n 13).

Fixpoint lstrip (s : string) : string :=
  match s with
  | EmptyString => EmptyString
  | String c rest => if is_whitespace c then lstrip rest else s
  end.

Fixpoint rstrip (s : string) : string :=
  match s with
  | EmptyString => EmptyString
  | String c rest =>
      match rstrip rest with
      | EmptyString => if is_whitespace c then EmptyString else String c EmptyString
      | r => String c r
      end
  end.

Definition strip (s : string) : string := rstrip (lstrip s).

(** [s.split(" ")]: cut at every single space, empty fields kept. *)
Fixpoint split_space (s : string) : list string :=
  match s with
  | EmptyString => [EmptyString]
  | String c rest =>
      if Ascii.eqb c " "%char then EmptyString :: split_space rest
      else match split_space rest with
           | w :: ws => String c w :: ws
           | [] => [String c EmptyString]
           end
  end.

Definition lower_char (c : ascii) : ascii :=
  let n := nat_of_ascii c in
  if Nat.leb 65 n && Nat.leb n 90 then ascii_of_nat (n + 32) else c.

Fixpoint lower (s : string) : string :=
  match s with
  | EmptyString => EmptyString
  | String c rest => String (lower_char c) (lower rest)
  end.

Definition startswith (s pre : string) : bool := String.prefix pre s.

Definition endswith (s suf : string) : bool :=
  let n := String.length s in
  let m := String.length suf in
  Nat.leb m n && String.eqb (String.substring (n - m) m s) suf.

(** [needle in hay] on strings. *)
Fixpoint contains (needle hay : string) : bool :=
  String.prefix needle hay ||
  match hay with
  | EmptyString => false
  | String _ rest => contains needle rest
  end.

(** ["c" * n]. *)
Fixpoint repeat_char (c : ascii) (n : nat) : string :=
  match n with
  | O => EmptyString
  | S k => String c (repeat_char c k)
  end.

(** [sep.join(l)]. *)
Fixpoint join (sep : string) (l : list string) : string :=
  match l with
  | [] => EmptyString
  | [x] => x
  | x :: rest => x +:+ sep +:+ join sep rest
  end.

(** [file.readlines()]: lines with their newline kept. *)
Fixpoint readlines_go (cur : string) (s : string) : list string :=
  match s with
  | EmptyString => match cur with EmptyString => [] | _ => [String.rev cur] end
  | String c rest =>
      if Ascii.eqb c "010"%char then String.rev (String c cur) :: readlines_go EmptyString rest
      else readlines_go (String c cur) rest
  end.

Definition readlines (s : string) : list string := readlines_go EmptyString s.

Definition newline : string := String "010"%char EmptyString.

End PyStr.

(* ===================================================================== *)
(** * Effects: outcome, world, environment, monad                          *)
(* ===================================================================== *)

(** How a piece of the program ends: it returns, it calls [sys.exit], or an
    exception escapes. *)
Inductive Outcome (A : Type) : Type :=
| Ret (a : A)
| Exit (code : nat)
| Raise (what : string).
Arguments Ret {A} a.
Arguments Exit {A} code.
Arguments Raise {A} what.

(** Observable effects, oldest first in a trace. *)
Inductive Event : Type :=
| Print (line : string)
| Stderr (text : string)
| Shell (cwd cmd : string)
| Spawn (argv : list string)
| Prompt (question answer : string)
| BuilderSrpm (dist : string).

Record World : Type := mkWorld {
  cwd : string;
  (** entries of the checkout directories, as [os.listdir] gives them *)
  dirs : gmap string (list string);
  (** scratch files by name, with their content *)
  files : gmap string string;
  trace : list Event
}.

(** What lies outside the program.  Every oracle that stands for a run-time
    interaction sees the trace so far. *)
Record Env : Type := mkEnv {
  (** wait status and captured output of a command line run in a directory *)
  shell : list Event -> string -> string -> nat * string;
  (** the operator's reply to [raw_input] *)
  operator : list Event -> string -> string;
  (** [os.environ] *)
  environ : gmap string string;
  (** the name [tempfile.mkstemp] picks *)
  mkstemp_name : list Event -> string;
  (** [subprocess.call] on an editor: [None] when the program cannot be
      started (OSError), else the content the file is left with *)
  editor_session : list Event -> list string -> string -> option string;
  (** [builder.srpm(dist, reuse_cvs_checkout=True)]: [None] when the builder
      raises, else the [srpm_location] it leaves *)
  builder_srpm : list Event -> string -> option string;
  (** [tito.common.extract_bzs]: the reference lines found in a diff *)
  extract_bzs : string -> list string
}.

Definition M (A : Type) : Type := World -> Outcome A * World.

Definition ret {A} (a : A) : M A := fun w => (Ret a, w).

Definition bind {A B} (m : M A) (f : A -> M B) : M B := fun w =>
  match m w with
  | (Ret a, w') => f a w'
  | (Exit c, w') => (Exit c, w')
  | (Raise e, w') => (Raise e, w')
  end.

Declare Scope py_scope.
Delimit Scope py_scope with py.
Notation "x <- m ;; k" := (bind m (fun x => k))
  (at level 100, m at next level, right associativity) : py_scope.
Notation "m ;; k" := (bind m (fun _ => k))
  (at level 100, right associativity) : py_scope.
Local Open Scope py_scope.

Definition sys_exit {A} (code : nat) : M A := fun w => (Exit code, w).
Definition raise {A} (what : string) : M A := fun w => (Raise what, w).

Definition log (e : Event) : M unit := fun w =>
  (Ret tt, mkWorld (cwd w) (dirs w) (files w) (trace w ++ [e])).

Definition print (line : string) : M unit := log (Print line).
Definition stderr_write (text : string) : M unit := log (Stderr text).

(** The status with which the interpreter leaves: an uncaught exception
    gives 1. *)
Definition exit_status {A} (o : Outcome A) : nat :=
  match o with
  | Ret _ => 0
  | Exit c => c
  | Raise _ => 1
  end.

(** [os.chdir]: OSError when the directory is not there. *)
Definition chdir (d : string) : M unit := fun w =>
  match dirs w !! d with
  | Some _ => (Ret tt, mkWorld d (dirs w) (files w) (trace w))
  | None => (Raise "OSError: chdir", w)
  end.

(** [os.listdir]. *)
Definition listdir (d : string) : M (list string) := fun w =>
  match dirs w !! d with
  | Some l => (Ret l, w)
  | None => (Raise "OSError: listdir", w)
  end.

(** Names that resolve to the directory itself or to its parent. *)
Definition dir_self_names : list string := [""; "."; ".."].

(** Whether [os.path.join(d, name)] exists, for a name without a slash. *)
Definition present (w : World) (d name : string) : bool :=
  match dirs w !! d with
  | Some l => bool_decide (name ∈ dir_self_names) || bool_decide (name ∈ l)
  | None => false
  end.

(** [os.path.exists(os.path.join(d, name))]. *)
Definition path_exists (d name : string) : M bool := fun w =>
  (Ret (present w d name), w).

(** What a successful [cp src d/name] leaves in [d]: the entry [name]. *)
Definition cp_effect (d name : string) : M unit := fun w =>
  match dirs w !! d with
  | Some l =>
      if present w d name then (Ret tt, w)
      else (Ret tt, mkWorld (cwd w) (<[d := l ++ [name]]> (dirs w)) (files w) (trace w))
  | None => (Ret tt, w)
  end.

Section Primitives.
Context (env : Env).

(** [commands.getstatusoutput]. *)
Definition getstatusoutput (cmd : string) : M (nat * string) := fun w =>
  (Ret (shell env (trace w) (cwd w) cmd),
   mkWorld (cwd w) (dirs w) (files w) (trace w ++ [Shell (cwd w) cmd])).

(** Modelled from the spec: [run_command] of [tito.common], which is not
    among the sources.  Sections 4.2 and 7 make a failing external command
    a fatal error that aborts the release, with the captured output sent
    to the standard error channel; on success the output is returned. *)
Definition run_command (cmd : string) : M string :=
  r <- getstatusoutput cmd ;;
  let '(status, output) := r in
  if Nat.ltb 0 status then
    stderr_write ("Error running command: " +:+ cmd +:+ PyStr.newline +:+ output) ;;
    raise "Error running command"
  else ret output.

(** [raw_input]. *)
Definition raw_input (question : string) : M string := fun w =>
  let answer := operator env (trace w) question in
  (Ret answer,
   mkWorld (cwd w) (dirs w) (files w) (trace w ++ [Prompt question answer])).

End Primitives.

(* ===================================================================== *)
(** * The objects                                                          *)
(* ===================================================================== *)

(** The read-only view of the builder the releasers use. *)
Record Builder : Type := mkBuilder {
  spec_file : string;
  rpmbuild_gitcopy : string;
  build_version : string;
  sources : list string;
  (** a ConfigParser: section, then option, then value *)
  config : gmap string (gmap string string);
  user_config : gmap string string;
  only_tags : list string;
  scratch : bool
}.

(** [self] of a releaser.  [git_branches] is set by FedoraGitReleaser,
    [cvs_branches] by CvsReleaser; [dry_run] is [False] after construction
    and set by [release]. *)
Record Self : Type := mkSelf {
  project_name : string;
  cvs_workdir : string;
  cvs_package_workdir : string;
  cvs_copy_extensions : list string;
  dry_run : bool;
  builder : Builder;
  git_branches : list string;
  cvs_branches : list string
}.

Definition set_dry_run (self : Self) (flag : bool) : Self :=
  mkSelf (project_name self) (cvs_workdir self) (cvs_package_workdir self)
         (cvs_copy_extensions self) flag (builder self)
         (git_branches self) (cvs_branches self).

(** ConfigParser, without a DEFAULT section. *)
Definition has_section (cfg : gmap string (gmap string string)) (s : string) : bool :=
  bool_decide (is_Some (cfg !! s)).

Definition config_lookup (cfg : gmap string (gmap string string)) (s o : string)
  : option string :=
  sec ← cfg !! s; sec !! o.

Definition has_option (cfg : gmap string (gmap string string)) (s o : string) : bool :=
  bool_decide (is_Some (config_lookup cfg s o)).

(** [config.get]: NoSectionError or NoOptionError when the value is absent. *)
Definition config_get (cfg : gmap string (gmap string string)) (s o : string)
  : M string :=
  match config_lookup cfg s o with
  | Some v => ret v
  | None => raise "ConfigParser.Error"
  end.

Definition DEFAULT_KOJI_OPTS : string := "build --nowait".
Definition DEFAULT_CVS_BUILD_DIR : string := "cvswork".

(** List of CVS files to protect when syncing git with a CVS module. *)
Definition PROTECTED_BUILD_SYS_FILES : list string :=
  ["branch"; "CVS"; ".cvsignore"; "Makefile"; "sources"; ".git"; ".gitignore"].

(** The replies taken for a yes. *)
Definition affirmative : list string := ["y"; "yes"; "ok"; "sure"].

(* ===================================================================== *)
(** * class Releaser                                                       *)
(* ===================================================================== *)

Module Releaser.
Section WithEnv.
Context (env : Env).

Definition cleanup (self : Self) : M unit :=
  run_command env ("rm -rf " +:+ cvs_package_workdir self) ;; ret tt.

Definition print_dry_run_warning (command_that_would_be_run_otherwise : string)
  : M unit :=
  print "" ;;
  print ("WARNING: Skipping command due to --dry-run: "
           +:+ command_that_would_be_run_otherwise) ;;
  print "".

(** [os.path.isdir]: the directories are the keys of [dirs]. *)
Definition isdir (p : string) : M bool := fun w =>
  (Ret (bool_decide (is_Some (dirs w !! p))), w).

(** The inner loop over [self.cvs_copy_extensions]. *)
Definition wanted_extension (extensions : list string) (filename : string) : bool :=
  fold_left (fun copy_it extension =>
               if PyStr.endswith filename extension then true else copy_it)
            extensions false.

(** The loop over [os.listdir(self.builder.rpmbuild_gitcopy)]. *)
Fixpoint list_files_loop (self : Self) (entries files_to_copy : list string)
  : M (list string) :=
  match entries with
  | [] => ret files_to_copy
  | filename :: rest =>
      let full_filepath :=
        PyStr.path_join (rpmbuild_gitcopy (builder self)) filename in
      is_dir <- isdir full_filepath ;;
      if (is_dir : bool) then list_files_loop self rest files_to_copy
      else if bool_decide (filename ∈ PROTECTED_BUILD_SYS_FILES)
      then list_files_loop self rest files_to_copy
      else if PyStr.endswith filename ".spec"
      then list_files_loop self rest files_to_copy
      else if wanted_extension (cvs_copy_extensions self) filename
      then list_files_loop self rest (files_to_copy ++ [full_filepath])
      else list_files_loop self rest files_to_copy
  end.

Definition _list_files_to_copy (self : Self) : M (list string) :=
  let files_to_copy := [spec_file (builder self)] in
  entries <- listdir (rpmbuild_gitcopy (builder self)) ;;
  list_files_loop self entries files_to_copy.

(** The loop [for copy_me in files_to_copy] of [_sync_files].  Only
    [new_files] is ever appended to. *)
Fixpoint copy_loop (dest_dir : string) (files_to_copy new_files : list string)
  : M (list string) :=
  match files_to_copy with
  | [] => ret new_files
  | copy_me :: rest =>
      let base_filename := PyStr.basename copy_me in
      let dest_path := PyStr.path_join dest_dir base_filename in
      present <- path_exists dest_dir base_filename ;;
      new_files' <-
        (if negb present
         then print ("   adding: " +:+ base_filename) ;;
              ret (new_files ++ [base_filename])
         else print ("   copying: " +:+ base_filename) ;;
              ret new_files) ;;
      run_command env ("cp " +:+ copy_me +:+ " " +:+ dest_path) ;;
      cp_effect dest_dir base_filename ;;
      copy_loop dest_dir rest new_files'
  end.

(** The loop [for filename in os.listdir(dest_dir)] of [_sync_files]. *)
Fixpoint obsolete_loop (filenames_to_copy entries old_files : list string)
  : M (list string) :=
  match entries with
  | [] => ret old_files
  | filename :: rest =>
      if negb (bool_decide (filename ∈ PROTECTED_BUILD_SYS_FILES))
         && negb (bool_decide (filename ∈ filenames_to_copy))
      then print ("   deleting: " +:+ filename) ;;
           obsolete_loop filenames_to_copy rest (old_files ++ [filename])
      else obsolete_loop filenames_to_copy rest old_files
  end.

Definition _sync_files (files_to_copy : list string) (dest_dir : string)
  : M (list string * list string * list string) :=
  chdir dest_dir ;;
  let filenames_to_copy := map PyStr.basename files_to_copy in
  let copied_files : list string := [] in
  new_files <- copy_loop dest_dir files_to_copy [] ;;
  entries <- listdir dest_dir ;;
  old_files <- obsolete_loop filenames_to_copy entries [] ;;
  ret (new_files, copied_files, old_files).

End WithEnv.
End Releaser.

(** Scratch files: [tempfile.mkstemp], [os.write], reading back through the
    descriptor, an editor run by [subprocess.call], [os.unlink]. *)
Section ScratchFiles.
Context (env : Env).

Definition mkstemp : M string := fun w =>
  let name := mkstemp_name env (trace w) in
  (Ret name, mkWorld (cwd w) (dirs w) (<[name := ""]> (files w)) (trace w)).

Definition os_write (name text : string) : M unit := fun w =>
  (Ret tt,
   mkWorld (cwd w) (dirs w) (alter (fun c => c +:+ text) name (files w)) (trace w)).

Definition read_back (name : string) : M string := fun w =>
  (Ret (default "" (files w !! name)), w).

Definition subprocess_call (argv : list string) (name : string) : M unit := fun w =>
  match editor_session env (trace w) argv (default "" (files w !! name)) with
  | Some content =>
      (Ret tt, mkWorld (cwd w) (dirs w) (<[name := content]> (files w))
                       (trace w ++ [Spawn argv]))
  | None =>
      (Raise "OSError: subprocess",
       mkWorld (cwd w) (dirs w) (files w) (trace w ++ [Spawn argv]))
  end.

Definition unlink (name : string) : M unit := fun w =>
  match files w !! name with
  | Some _ => (Ret tt, mkWorld (cwd w) (dirs w) (delete name (files w)) (trace w))
  | None => (Raise "OSError: unlink", w)
  end.

(** [builder.srpm(dist=disttag, reuse_cvs_checkout=True)], giving the
    [srpm_location] the builder is left with. *)
Definition builder_call_srpm (disttag : string) : M string := fun w =>
  let w' := mkWorld (cwd w) (dirs w) (files w) (trace w ++ [BuilderSrpm disttag]) in
  match builder_srpm env (trace w) disttag with
  | Some location => (Ret location, w')
  | None => (Raise "builder.srpm", w')
  end.

End ScratchFiles.

(** A double quote, for the command lines that carry one. *)
Definition dquote : string := String (ascii_of_nat 34) EmptyString.

(** The banner both commit gates print around their first line. *)
Definition banner (text : string) : M unit :=
  print "" ;;
  print (PyStr.repeat_char "#"%char (String.length text)) ;;
  print text ;;
  print (PyStr.repeat_char "#"%char (String.length text)) ;;
  print "".

(* ===================================================================== *)
(** * class FedoraGitReleaser                                              *)
(* ===================================================================== *)

Module FedoraGitReleaser.
Section WithEnv.
Context (env : Env).

Definition cleanup (self : Self) : M unit :=
  run_command env ("rm -rf " +:+ cvs_package_workdir self) ;; ret tt.

(** Submit a Fedora build from current directory. *)
Definition _build (self : Self) : M unit :=
  let build_cmd := "fedpkg build --nowait" in
  if dry_run self then Releaser.print_dry_run_warning build_cmd
  else
    print ("Submitting build: " +:+ build_cmd) ;;
    r <- getstatusoutput env build_cmd ;;
    let '(status, output) := r in
    if Nat.ltb 0 status then
      if PyStr.contains "already been built" output
      then print "Build has been submitted previously, continuing..."
      else
        stderr_write "ERROR: Unable to submit build." ;;
        stderr_write ("  Status code: " +:+ pretty status) ;;
        stderr_write ("  Output: " +:+ output) ;;
        sys_exit 1
    else ret tt.

(** The first half of [_git_user_confirm_commit], up to the commit: the
    diff of the staged changes, its review and the commit itself. *)
Definition commit_gate (self : Self) (project_checkout main_branch : string)
  : M unit :=
  chdir project_checkout ;;
  r <- getstatusoutput env "git diff --cached" ;;
  let '(status, diff_output) := r in
  if bool_decide (PyStr.strip diff_output = "")
  then print ("No changes in main branch, skipping commit for: " +:+ main_branch)
  else
    print diff_output ;;
    print "" ;;
    print "##### Please review the above diff #####" ;;
    answer <- raw_input env "Do you wish to proceed with commit? [y/n] " ;;
    (if negb (bool_decide (PyStr.lower answer ∈ affirmative))
     then print "Fine, you're on your own!" ;;
          cleanup self ;;
          sys_exit 1
     else ret tt) ;;
    print "Proceeding with commit." ;;
    let cmd := "fedpkg commit -m " +:+ dquote +:+ "Update " +:+ project_name self
                 +:+ " to " +:+ build_version (builder self) +:+ dquote in
    print "" ;;
    chdir (cvs_package_workdir self) ;;
    run_command env cmd ;;
    ret tt.

(** The loop [for branch in self.git_branches[1:]]. *)
Fixpoint merge_loop (self : Self) (main_branch : string) (branches : list string)
  : M unit :=
  match branches with
  | [] => ret tt
  | branch :: rest =>
      print ("Merging " +:+ main_branch +:+ " into " +:+ branch) ;;
      run_command env ("fedpkg switch-branch " +:+ branch) ;;
      run_command env ("git merge " +:+ main_branch) ;;
      let cmd := "git push origin " +:+ branch +:+ ":" +:+ branch in
      (if dry_run self then Releaser.print_dry_run_warning cmd
       else print cmd ;; run_command env cmd ;; ret tt) ;;
      _build self ;;
      print "" ;;
      merge_loop self main_branch rest
  end.

(** The second half of [_git_user_confirm_commit]: push, build, fan-out. *)
Definition push_and_build (self : Self) (main_branch : string) : M unit :=
  let cmd := "fedpkg push" in
  (if dry_run self then Releaser.print_dry_run_warning cmd
   else print cmd ;; run_command env cmd ;; ret tt) ;;
  _build self ;;
  merge_loop self main_branch (tail (git_branches self)).

(** Prompt user if they wish to proceed with commit. *)
Definition _git_user_confirm_commit (self : Self) (project_checkout : string)
  : M unit :=
  banner ("Running 'git diff' in: " +:+ project_checkout) ;;
  match git_branches self with
  | [] => raise "IndexError"
  | main_branch :: _ =>
      commit_gate self project_checkout main_branch ;;
      push_and_build self main_branch
  end.

(** Upload any tarballs to the lookaside directory. *)
Definition _git_upload_sources (self : Self) (project_checkout : string) : M unit :=
  match sources (builder self) with
  | [] => ret tt
  | _ =>
      print "Uploading sources to lookaside:" ;;
      chdir project_checkout ;;
      let cmd := "fedpkg new-sources " +:+ PyStr.join " " (sources (builder self)) in
      if dry_run self then Releaser.print_dry_run_warning cmd
      else run_command env cmd ;; ret tt
  end.

Fixpoint git_add_loop (names : list string) : M unit :=
  match names with
  | [] => ret tt
  | add_file :: rest =>
      getstatusoutput env ("git add " +:+ add_file) ;;
      git_add_loop rest
  end.

Fixpoint git_rm_loop (names : list string) : M unit :=
  match names with
  | [] => ret tt
  | cleanup_file :: rest =>
      run_command env ("git rm " +:+ cleanup_file) ;;
      git_rm_loop rest
  end.

(** Copy files from our git into each git build branch and add them. *)
Definition _git_sync_files (self : Self) (project_checkout : string) : M unit :=
  files_to_copy <- Releaser._list_files_to_copy self ;;
  chdir project_checkout ;;
  r <- Releaser._sync_files env files_to_copy project_checkout ;;
  let '(new, copied, old) := r in
  chdir project_checkout ;;
  git_add_loop (new ++ copied) ;;
  git_rm_loop old.

End WithEnv.
End FedoraGitReleaser.

(* ===================================================================== *)
(** * class CvsReleaser                                                    *)
(* ===================================================================== *)

Module CvsReleaser.
Section WithEnv.
Context (env : Env).

Definition cleanup (self : Self) : M unit :=
  run_command env ("rm -rf " +:+ cvs_package_workdir self) ;; ret tt.

(** [os.path.join(self.cvs_workdir, self.project_name, branch)]. *)
Definition branch_dir (self : Self) (branch : string) : string :=
  PyStr.path_join (PyStr.path_join (cvs_workdir self) (project_name self)) branch.

Fixpoint cvs_add_loop (names : list string) : M unit :=
  match names with
  | [] => ret tt
  | add_file :: rest =>
      getstatusoutput env ("cvs add " +:+ add_file) ;;
      cvs_add_loop rest
  end.

Fixpoint cvs_rm_loop (names : list string) : M unit :=
  match names with
  | [] => ret tt
  | cleanup_file :: rest =>
      run_command env ("cvs rm -Rf " +:+ cleanup_file) ;;
      cvs_rm_loop rest
  end.

Fixpoint sync_branches_loop (self : Self) (files_to_copy branches : list string)
  : M unit :=
  match branches with
  | [] => ret tt
  | branch :: rest =>
      print ("Syncing files with CVS branch [" +:+ branch +:+ "]") ;;
      r <- Releaser._sync_files env files_to_copy (branch_dir self branch) ;;
      let '(new, copied, old) := r in
      chdir (branch_dir self branch) ;;
      cvs_add_loop new ;;
      cvs_rm_loop old ;;
      sync_branches_loop self files_to_copy rest
  end.

(** Copy files from git into each CVS branch and add them. *)
Definition cvs_sync_files (self : Self) : M unit :=
  files_to_copy <- Releaser._list_files_to_copy self ;;
  sync_branches_loop self files_to_copy (cvs_branches self).

(** The loop of [cvs_upload_sources]; under dry-run the [return] leaves the
    whole method at the first branch. *)
Fixpoint upload_loop (self : Self) (branches : list string) : M unit :=
  match branches with
  | [] => ret tt
  | branch :: rest =>
      chdir (branch_dir self branch) ;;
      let cmd := "make new-sources FILES=" +:+ dquote
                   +:+ PyStr.join " " (sources (builder self)) +:+ dquote in
      if dry_run self then Releaser.print_dry_run_warning cmd
      else run_command env cmd ;; upload_loop self rest
  end.

Definition cvs_upload_sources (self : Self) : M unit :=
  match sources (builder self) with
  | [] => ret tt
  | _ =>
      print "Uploading sources to dist-cvs lookaside:" ;;
      upload_loop self (cvs_branches self)
  end.

Fixpoint write_lines (name : string) (lines : list string) : M unit :=
  match lines with
  | [] => ret tt
  | line :: rest => os_write name (line +:+ PyStr.newline) ;; write_lines name rest
  end.

Fixpoint print_lines (lines : list string) : M unit :=
  match lines with
  | [] => ret tt
  | line :: rest => print line ;; print_lines rest
  end.

Definition _cvs_user_confirm_commit_msg (self : Self) (diff_output : string)
  : M unit :=
  name <- mkstemp env ;;
  os_write name ("Update " +:+ project_name self +:+ " to "
                   +:+ build_version (builder self) +:+ PyStr.newline) ;;
  write_lines name (extract_bzs env diff_output) ;;
  print "" ;;
  print "##### CVS commit message: #####" ;;
  print "" ;;
  content <- read_back name ;;
  print_lines (PyStr.readlines content) ;;
  print "" ;;
  print "###############################" ;;
  print "" ;;
  answer <- raw_input env "Would you like to edit this commit message? [y/n] " ;;
  (if bool_decide (PyStr.lower answer ∈ affirmative)
   then
     let editor := default "vi" (environ env !! "EDITOR") in
     subprocess_call env [editor; name] name
   else ret tt) ;;
  let cmd := "cvs commit -F " +:+ name in
  (if dry_run self then Releaser.print_dry_run_warning cmd
   else
     print "Proceeding with commit." ;;
     chdir (cvs_package_workdir self) ;;
     run_command env cmd ;;
     ret tt) ;;
  unlink name.

(** Prompt user if they wish to proceed with commit. *)
Definition _cvs_user_confirm_commit (self : Self) : M unit :=
  banner ("Running 'cvs diff -u' in: " +:+ cvs_package_workdir self) ;;
  chdir (cvs_package_workdir self) ;;
  r <- getstatusoutput env "cvs diff -u" ;;
  let '(status, diff_output) := r in
  print diff_output ;;
  print "" ;;
  print "##### Please review the above diff #####" ;;
  answer <- raw_input env "Do you wish to proceed with commit? [y/n] " ;;
  (if negb (bool_decide (PyStr.lower answer ∈ affirmative))
   then print "Fine, you're on your own!" ;;
        cleanup self ;;
        sys_exit 1
   else ret tt) ;;
  _cvs_user_confirm_commit_msg self diff_output.

(** The loop [for branch in self.cvs_branches] of [_cvs_make_tag]. *)
Fixpoint tag_loop (self : Self) (cmd : string) (branches : list string) : M unit :=
  match branches with
  | [] => ret tt
  | branch :: rest =>
      chdir (branch_dir self branch) ;;
      r <- getstatusoutput env cmd ;;
      let '(status, output) := r in
      print output ;;
      (if Nat.ltb 1 status
       then cleanup self ;; sys_exit 1
       else ret tt) ;;
      tag_loop self cmd rest
  end.

(** Create a CVS tag based on what we just committed. *)
Definition _cvs_make_tag (self : Self) : M unit :=
  chdir (cvs_package_workdir self) ;;
  let cmd := "make tag" in
  if dry_run self then Releaser.print_dry_run_warning cmd
  else
    print "Creating CVS tags..." ;;
    tag_loop self cmd (cvs_branches self).

Fixpoint build_loop (self : Self) (cmd : string) (branches : list string) : M unit :=
  match branches with
  | [] => ret tt
  | branch :: rest =>
      chdir (branch_dir self branch) ;;
      output <- run_command env cmd ;;
      print output ;;
      build_loop self cmd rest
  end.

(** Build srpm and submit to build system. *)
Definition _cvs_make_build (self : Self) : M unit :=
  let cmd := "BUILD_FLAGS=--nowait make build" in
  if dry_run self then Releaser.print_dry_run_warning cmd
  else
    chdir (cvs_package_workdir self) ;;
    print "Submitting CVS builds..." ;;
    build_loop self cmd (cvs_branches self).

End WithEnv.
End CvsReleaser.

(* ===================================================================== *)
(** * class KojiReleaser                                                   *)
(* ===================================================================== *)

Module KojiReleaser.
Section WithEnv.
Context (env : Env).

(** Return True if this repo and branch are configured to auto build in
    any Koji tags. *)
Definition _can_build_in_koji (self : Self) : bool :=
  if negb (has_section (config (builder self)) "koji") then false
  else if negb (has_option (config (builder self)) "koji" "autobuild_tags") then false
  else true.

(** The words of a whitelist or blacklist option: [.strip().split(" ")]. *)
Definition listed (cfg : gmap string (gmap string string)) (koji_tag option : string)
  : list string :=
  PyStr.split_space (PyStr.strip (default "" (config_lookup cfg koji_tag option))).

(** Return true if package is whitelisted in tito.props *)
Definition __is_whitelisted (self : Self) (koji_tag : string) : bool :=
  has_option (config (builder self)) koji_tag "whitelist"
  && bool_decide (project_name self ∈ listed (config (builder self)) koji_tag "whitelist").

(** Return true if package is blacklisted in tito.props *)
Definition __is_blacklisted (self : Self) (koji_tag : string) : bool :=
  has_option (config (builder self)) koji_tag "blacklist"
  && bool_decide (project_name self ∈ listed (config (builder self)) koji_tag "blacklist").

(** Submit srpm to brew/koji.  [srpm_location] is the builder attribute of
    that name, as the last [builder.srpm] call left it. *)
Definition _submit_build (self : Self) (executable koji_opts tag srpm_location : string)
  : M unit :=
  let cmd := executable +:+ " " +:+ koji_opts +:+ " " +:+ tag +:+ " " +:+ srpm_location in
  print (PyStr.newline +:+ "Submitting build with: " +:+ cmd) ;;
  if dry_run self then Releaser.print_dry_run_warning cmd
  else
    output <- run_command env cmd ;;
    print output.

(** What the loop does for a tag once the policy lets it through. *)
Definition build_and_submit (self : Self) (koji_opts koji_tag disttag : string)
  : M unit :=
  srpm_location <- builder_call_srpm env disttag ;;
  _submit_build self "koji" koji_opts koji_tag srpm_location.

Definition warn_not_whitelisted (self : Self) (koji_tag : string) : M unit :=
  print ("WARNING: " +:+ project_name self +:+ " not specified in whitelist for "
           +:+ koji_tag) ;;
  print "   Package *NOT* submitted to Koji.".

Definition warn_blacklisted (self : Self) (koji_tag : string) : M unit :=
  print ("WARNING: " +:+ project_name self +:+ " specified in blacklist for "
           +:+ koji_tag) ;;
  print "   Package *NOT* submitted to Koji.".

(** One round of the loop [for koji_tag in koji_tags]. *)
Definition koji_tag_step (self : Self) (koji_opts koji_tag : string) : M unit :=
  if negb (bool_decide (only_tags (builder self) = []))
     && negb (bool_decide (koji_tag ∈ only_tags (builder self)))
  then ret tt
  else
    disttag <- config_get (config (builder self)) koji_tag "disttag" ;;
    if has_option (config (builder self)) koji_tag "whitelist" then
      if negb (__is_whitelisted self koji_tag)
      then warn_not_whitelisted self koji_tag
      else build_and_submit self koji_opts koji_tag disttag
    else if __is_blacklisted self koji_tag
    then warn_blacklisted self koji_tag
    else build_and_submit self koji_opts koji_tag disttag.

Fixpoint koji_tags_loop (self : Self) (koji_opts : string) (koji_tags : list string)
  : M unit :=
  match koji_tags with
  | [] => ret tt
  | koji_tag :: rest =>
      koji_tag_step self koji_opts koji_tag ;;
      koji_tags_loop self koji_opts rest
  end.

(** Lookup autobuild Koji tags from global config, create srpms with
    appropriate disttags, and submit builds to Koji. *)
Definition _koji_release (self : Self) : M unit :=
  autobuild_tags <- config_get (config (builder self)) "koji" "autobuild_tags" ;;
  print "Building release in Koji..." ;;
  let koji_tags := PyStr.split_space (PyStr.strip autobuild_tags) in
  let koji_opts := default DEFAULT_KOJI_OPTS (user_config (builder self) !! "KOJI_OPTIONS") in
  let koji_opts :=
    if scratch (builder self) then PyStr.join " " [koji_opts; "--scratch"]
    else koji_opts in
  koji_tags_loop self koji_opts koji_tags.

Definition release (self : Self) (dry_run : bool) : M unit :=
  let self := set_dry_run self dry_run in
  if _can_build_in_koji self then _koji_release self else ret tt.

End WithEnv.
End KojiReleaser.

(* ===================================================================== *)
(** * Observations on runs                                                 *)
(* ===================================================================== *)

(** Every event a computation adds to the trace satisfies [P], however the
    computation ends. *)
Definition emits {A} (P : Event -> Prop) (m : M A) : Prop :=
  forall w, exists evs, trace (snd (m w)) = trace w ++ evs /\ Forall P evs.

(** The command lines that reached the shell. *)
Fixpoint commands_run (t : list Event) : list string :=
  match t with
  | [] => []
  | Shell _ cmd :: rest => cmd :: commands_run rest
  | _ :: rest => commands_run rest
  end.

(** The line [print_dry_run_warning] prints for a command. *)
Definition dry_run_warning (cmd : string) : Event :=
  Print ("WARNING: Skipping command due to --dry-run: " +:+ cmd).

(** The command lines that send something out of the working tree: a push,
    a build request, a CVS commit. *)
Definition publishes (cmd : string) : bool :=
  PyStr.startswith cmd "fedpkg push"
  || PyStr.startswith cmd "git push"
  || PyStr.startswith cmd "fedpkg build"
  || PyStr.startswith cmd "cvs commit".

Definition keeps_private (e : Event) : Prop :=
  match e with
  | Shell _ cmd => publishes cmd = false
  | _ => True
  end.

(** Either the releaser runs dry, or [P] accepts every command line. *)
Definition gated (P : Event -> Prop) (self : Self) : Prop :=
  dry_run self = true \/ forall d cmd, P (Shell d cmd).

Global Instance Event_eq_dec : EqDecision Event.
Proof. solve_decision. Defined.

Definition any_event (e : Event) : Prop := True.


Definition review_request : string := "##### Please review the above diff #####".

(** What [banner] prints. *)
Definition banner_events (text : string) : list Event :=
  [Print "";
   Print (PyStr.repeat_char "#"%char (String.length text));
   Print text;
   Print (PyStr.repeat_char "#"%char (String.length text));
   Print ""].

Definition proceed_question : string := "Do you wish to proceed with commit? [y/n] ".

(** The command line of the commit in the git variant. *)
Definition fedpkg_commit (self : Self) : string :=
  "fedpkg commit -m " +:+ dquote +:+ "Update " +:+ project_name self
    +:+ " to " +:+ build_version (builder self) +:+ dquote.

(* ===================================================================== *)
(** * Scenarios                                                            *)
(* ===================================================================== *)

(** A world where every command succeeds silently and the operator answers
    with an empty line; the scenarios below override what they need. *)
Definition quiet_env : Env :=
  mkEnv (fun _ _ _ => (0, "")) (fun _ _ => "") ∅ (fun _ => "/tmp/tmpmsg")
        (fun _ _ content => Some content) (fun _ _ => Some "/tmp/pkg.src.rpm")
        (fun _ => []).

Definition world_of (d : string) (entries : list string) : World :=
  mkWorld "/" {[ d := entries ]} ∅ [].

Definition outcome_of {A} (r : Outcome A * World) : Outcome A := fst r.

(** Scenario: a patched package synced into a checkout that already holds
    its spec file, a stale patch and the CVS directory. *)
Definition demo_files : list string := ["/src/pkg.spec"; "/src/pkg.patch"].

Definition stale_checkout : World :=
  world_of "/dest" ["CVS"; "pkg.spec"; "old.patch"].

Definition demo_config : gmap string (gmap string string) :=
  {[ "koji" := {[ "autobuild_tags" := "dist-f15" ]};
     "dist-f15" := {[ "disttag" := ".fc15" ]} ]}.

Definition demo_builder : Builder :=
  mkBuilder "/src/pkg.spec" "/src/gitcopy" "1.0-1" [] demo_config ∅ [] false.

Definition demo_self : Self :=
  mkSelf "pkg" "/work" "/work/pkg" [".spec"; ".patch"] false demo_builder
         ["master"; "f15"] ["F-15"].

(** The project checkout the files are picked from. *)
Definition project_world : World :=
  mkWorld "/"
          {[ "/src/gitcopy" := ["pkg.spec"; "pkg.patch"; "Makefile"; "extra.txt"; ".git"];
             "/src/gitcopy/.git" := [] ]}
          ∅ [].

(** The working tree of a release: the package checkout and one branch. *)
Definition release_world : World :=
  mkWorld "/"
          {[ "/work/pkg" := ["F-15"]; "/work/pkg/F-15" := ["pkg.spec"] ]}
          ∅ [].

(** The diffs show a change; the operator agrees to commit and declines to
    edit the message. *)
Definition agreeable_env : Env :=
  mkEnv (fun _ _ cmd =>
           if PyStr.startswith cmd "git diff" || PyStr.startswith cmd "cvs diff"
           then (0, "+Patch9: fix.patch") else (0, ""))
        (fun _ question =>
           if PyStr.startswith question "Do you wish" then "y" else "n")
        ∅ (fun _ => "/tmp/tmpmsg")
        (fun _ _ content => Some content) (fun _ _ => Some "/tmp/pkg.src.rpm")
        (fun _ => []).

(** As [agreeable_env], but the CVS server turns the commit down. *)
Definition failing_commit_env : Env :=
  mkEnv (fun _ _ cmd =>
           if PyStr.startswith cmd "cvs diff" then (0, "+Patch9: fix.patch")
           else if PyStr.startswith cmd "cvs commit"
           then (256, "cvs commit: Up-to-date check failed for pkg.spec")
           else (0, ""))
        (fun _ question =>
           if PyStr.startswith question "Do you wish" then "y" else "n")
        ∅ (fun _ => "/tmp/tmpmsg")
        (fun _ _ content => Some content) (fun _ _ => Some "/tmp/pkg.src.rpm")
        (fun _ => []).

(** The build service answers every build request with a failure that says
    the package was built before. *)
Definition rebuilt_output : string := "pkg-1.0-1.fc15 has already been built".

Definition rebuilt_env : Env :=
  mkEnv (fun _ _ cmd =>
           if PyStr.contains "build" cmd then (256, rebuilt_output) else (0, ""))
        (fun _ _ => "y") ∅ (fun _ => "/tmp/tmpmsg")
        (fun _ _ content => Some content) (fun _ _ => Some "/tmp/pkg.src.rpm")
        (fun _ => []).

(** [make tag] fails hard. *)
Definition failed_tag_env : Env :=
  mkEnv (fun _ _ cmd =>
           if PyStr.startswith cmd "make tag" then (512, "make: *** [tag] Error 2")
           else (0, ""))
        (fun _ _ => "y") ∅ (fun _ => "/tmp/tmpmsg")
        (fun _ _ content => Some content) (fun _ _ => Some "/tmp/pkg.src.rpm")
        (fun _ => []).


Definition blacklist_config : gmap string (gmap string string) :=
  {[ "koji" := {[ "autobuild_tags" := "dist-f15" ]};
     "dist-f15" := {[ "disttag" := ".fc15"; "blacklist" := "pkg other" ]} ]}.

Definition self_with_config (cfg : gmap string (gmap string string)) : Self :=
  mkSelf "pkg" "/work" "/work/pkg" [".spec"; ".patch"] false
         (mkBuilder "/src/pkg.spec" "/src/gitcopy" "1.0-1" [] cfg ∅ [] false)
         ["master"; "f15"] ["F-15"].


(** The operator asks to edit the message, and the editor cannot be
    started. *)
Definition no_editor_env : Env :=
  mkEnv (fun _ _ _ => (0, "")) (fun _ _ => "y") {[ "EDITOR" := "/opt/missing/ed" ]}
        (fun _ => "/tmp/tmpmsg")
        (fun _ _ _ => None) (fun _ _ => Some "/tmp/pkg.src.rpm")
        (fun _ => []).

(** The demo releaser under [--dry-run]. *)
Definition dry_self : Self := set_dry_run demo_self true.

(** A builder whose configuration has no koji section. *)
Definition plain_self : Self :=
  mkSelf "pkg" "/work" "/work/pkg" [".spec"; ".patch"] false
         (mkBuilder "/src/pkg.spec" "/src/gitcopy" "1.0-1" [] ∅ ∅ [] false)
         ["master"] ["F-15"].

(* ===================================================================== *)
(** * Further methods of the module                                        *)
(* ===================================================================== *)

Module PyText.

(** [s[n:]]. *)
Fixpoint drop (n : nat) (s : string) : string :=
  match n, s with
  | O, _ => s
  | S _, EmptyString => EmptyString
  | S k, String _ rest => drop k rest
  end.

(** [s.split(sep)] for a separator of one character. *)
Fixpoint split_on (sep : ascii) (s : string) : list string :=
  match s with
  | EmptyString => [EmptyString]
  | String c rest =>
      if Ascii.eqb c sep then EmptyString :: split_on sep rest
      else match split_on sep rest with
           | w :: ws => String c w :: ws
           | [] => [String c EmptyString]
           end
  end.

(** [s.find(c) > -1] for a character [c]. *)
Fixpoint has_char (c : ascii) (s : string) : bool :=
  match s with
  | EmptyString => false
  | String x rest => Ascii.eqb x c || has_char c rest
  end.

End PyText.

(** Modelled from the spec: [error_out] of [tito.common], which is not among
    the sources.  Section 6 has every fatal error end the process with a
    non-zero status, and section 7 has the diagnostic go to the standard
    error channel. *)
Definition error_out {A} (message : string) : M A :=
  bind (stderr_write message) (fun _ => sys_exit 1).

(** Whether [os.path.join(d, name)] exists in the tree: it is a directory
    the tree knows, or an entry of [d]. *)
Definition in_tree (w : World) (d name : string) : bool :=
  bool_decide (is_Some (dirs w !! PyStr.path_join d name)) || present w d name.

(** [os.path.exists(os.path.join(d, name))] on a path of the checkout tree. *)
Definition tree_exists (d name : string) : M bool := fun w =>
  (Ret (in_tree w d name), w).

(** The construction-time checks of [class Releaser]. *)
Module ReleaserInit.

Definition GLOBAL_REQUIRED_CONFIG : list string := ["releaser"].

(** One of the two loops of [_check_releaser_config]. *)
Fixpoint require_options (releaser_config : gmap string (gmap string string))
    (target : string) (opts : list string) : M unit :=
  match opts with
  | [] => ret tt
  | opt :: rest =>
      if negb (has_option releaser_config target opt)
      then raise ("Release target '" +:+ target
                    +:+ "' missing required option '" +:+ opt +:+ "'")
      else require_options releaser_config target rest
  end.

(** Verify this release target has all the config options it needs.
    [REQUIRED_CONFIG] is the class attribute of the releaser at hand. *)
Definition _check_releaser_config
    (releaser_config : gmap string (gmap string string))
    (target : string) (REQUIRED_CONFIG : list string) : M unit :=
  require_options releaser_config target GLOBAL_REQUIRED_CONFIG ;;
  require_options releaser_config target REQUIRED_CONFIG.

(** The body of the loop of [_parse_builder_args], for one option and the
    value [releaser_config.get] gives for it. *)
Definition builder_arg_step (args : gmap string string) (entry : string * string)
  : gmap string string :=
  let '(opt, value) := entry in
  if PyStr.startswith opt "builder."
  then <[PyText.drop (String.length "builder.") opt := value]> args
  else args.

(** Any properties found in a releaser target section starting with
    "builder." are assumed to be builder arguments.  [options(target)]
    raises when the section is missing. *)
Definition _parse_builder_args
    (releaser_config : gmap string (gmap string string)) (target : string)
  : M (gmap string string) :=
  match releaser_config !! target with
  | None => raise "ConfigParser.NoSectionError"
  | Some section => ret (fold_left builder_arg_step (map_to_list section) ∅)
  end.

End ReleaserInit.

(** The command line [_sync_files] builds for one source. *)
Definition cp_command (dest_dir copy_me : string) : string :=
  "cp " +:+ copy_me +:+ " "
    +:+ PyStr.path_join dest_dir (PyStr.basename copy_me).

(** The entries of a directory, none when it is not there. *)
Definition listing (w : World) (d : string) : list string :=
  default [] (dirs w !! d).

(** What the scan of the project checkout keeps: a name that is not a
    directory there, is not protected, does not end in [.spec], and ends in
    one of the wanted extensions. *)
Definition picked_for_copy (self : Self) (w : World) (filename : string) : bool :=
  negb (bool_decide
          (is_Some (dirs w !! PyStr.path_join (rpmbuild_gitcopy (builder self))
                                              filename)))
  && negb (bool_decide (filename ∈ PROTECTED_BUILD_SYS_FILES))
  && negb (PyStr.endswith filename ".spec")
  && existsb (PyStr.endswith filename) (cvs_copy_extensions self).

(** The checkout steps of [class CvsReleaser]. *)
Module CvsModule.
Section WithEnv.
Context (env : Env).

(** The loop of [cvs_checkout_module] over the branches: a branch written
    [base/zstream] has its z-stream checked out and is replaced by
    [zstream]; unpacking the split raises unless it gives two parts.  The
    result is [self.cvs_branches] as the loop leaves it. *)
Fixpoint zstream_loop (self : Self) (branches : list string) : M (list string) :=
  match branches with
  | [] => ret []
  | branch :: rest =>
      if PyText.has_char PyStr.slash branch then
        match PyText.split_on PyStr.slash branch with
        | [base; zstream] =>
            run_command env ("make -C "
                               +:+ PyStr.path_join (cvs_package_workdir self) base
                               +:+ " zstreams") ;;
            rest' <- zstream_loop self rest ;;
            ret (zstream :: rest')
        | _ => raise "ValueError"
        end
      else
        rest' <- zstream_loop self rest ;;
        ret (branch :: rest')
  end.

(** [cvs_root] is the attribute the constructor reads from the target's
    [cvsroot] option. *)
Definition cvs_checkout_module (self : Self) (cvs_root : string) : M (list string) :=
  print ("Checking out cvs module [" +:+ project_name self +:+ "]") ;;
  chdir (cvs_workdir self) ;;
  run_command env ("cvs -d " +:+ cvs_root +:+ " co " +:+ project_name self) ;;
  zstream_loop self (cvs_branches self).

Fixpoint verify_branches_loop (self : Self) (branches : list string) : M unit :=
  match branches with
  | [] => ret tt
  | branch :: rest =>
      there <- tree_exists (PyStr.path_join (cvs_workdir self) (project_name self))
                           branch ;;
      if negb there
      then error_out (project_name self +:+ " CVS checkout is missing branch: "
                        +:+ branch)
      else verify_branches_loop self rest
  end.

(** Whether the checkout has the path of a branch. *)
Definition branch_there (self : Self) (w : World) (branch : string) : bool :=
  in_tree w (PyStr.path_join (cvs_workdir self) (project_name self)) branch.

(** Check that CVS checkout contains the branches we expect. *)
Definition cvs_verify_branches_exist (self : Self) : M unit :=
  chdir (cvs_package_workdir self) ;;
  verify_branches_loop self (cvs_branches self).

End WithEnv.
End CvsModule.

(** [KojiReleaser.list_tags]. *)
Module KojiListing.
Section WithEnv.
Context (env : Env).

Fixpoint list_tags_loop (self : Self) (koji_tags : list string) : M unit :=
  match koji_tags with
  | [] => ret tt
  | koji_tag :: rest =>
      if KojiReleaser.__is_whitelisted self koji_tag then
        (if bool_decide (is_Some (environ env !! "DEBUG"))
         then print (koji_tag +:+ " whitelisted")
         else print koji_tag) ;;
        list_tags_loop self rest
      else if KojiReleaser.__is_blacklisted self koji_tag then
        if bool_decide (is_Some (environ env !! "DEBUG"))
        then print (koji_tag +:+ " blacklisted") ;; list_tags_loop self rest
        else list_tags_loop self rest
      else print koji_tag ;; list_tags_loop self rest
  end.

(** Print tags to which we build this package. *)
Definition list_tags (self : Self) : M unit :=
  autobuild_tags <- config_get (config (builder self)) "koji" "autobuild_tags" ;;
  let koji_tags := PyStr.split_space (PyStr.strip autobuild_tags) in
  list_tags_loop self koji_tags.

End WithEnv.
End KojiListing.

(** A tag [list_tags] shows when DEBUG is not set, and the line it prints
    for a tag when DEBUG is set. *)
Definition tag_visible (self : Self) (koji_tag : string) : bool :=
  KojiReleaser.__is_whitelisted self koji_tag
  || negb (KojiReleaser.__is_blacklisted self koji_tag).

Definition tag_annotated (self : Self) (koji_tag : string) : string :=
  if KojiReleaser.__is_whitelisted self koji_tag then koji_tag +:+ " whitelisted"
  else if KojiReleaser.__is_blacklisted self koji_tag then koji_tag +:+ " blacklisted"
  else koji_tag.

(** A tag the release loop lets through: it passes the only-tags filter,
    and then its whitelist if it has one, else its blacklist. *)
Definition tag_allowed (self : Self) (koji_tag : string) : bool :=
  (bool_decide (only_tags (builder self) = [])
   || bool_decide (koji_tag ∈ only_tags (builder self)))
  && (if has_option (config (builder self)) koji_tag "whitelist"
      then KojiReleaser.__is_whitelisted self koji_tag
      else negb (KojiReleaser.__is_blacklisted self koji_tag)).

Definition disttag_of (self : Self) (koji_tag : string) : string :=
  default "" (config_lookup (config (builder self)) koji_tag "disttag").

(** The calls of [builder.srpm], by their disttag. *)
Fixpoint srpm_calls (t : list Event) : list string :=
  match t with
  | [] => []
  | BuilderSrpm dist :: rest => dist :: srpm_calls rest
  | _ :: rest => srpm_calls rest
  end.

(** The command lines that reached the shell, each with the directory it
    was run in. *)
Fixpoint shell_events (t : list Event) : list (string * string) :=
  match t with
  | [] => []
  | Shell d cmd :: rest => (d, cmd) :: shell_events rest
  | _ :: rest => shell_events rest
  end.

Definition no_shell (e : Event) : Prop :=
  match e with Shell _ _ => False | _ => True end.

Definition not_srpm (e : Event) : Prop :=
  match e with BuilderSrpm _ => False | _ => True end.

(** The build command of the CVS variant. *)
Definition cvs_build_command : string := "BUILD_FLAGS=--nowait make build".

(** What the fan-out runs for one secondary branch when every command
    succeeds. *)
Definition fanout_commands (self : Self) (main_branch branch : string) : list string :=
  ["fedpkg switch-branch " +:+ branch; "git merge " +:+ main_branch]
  ++ (if dry_run self then []
      else ["git push origin " +:+ branch +:+ ":" +:+ branch;
            "fedpkg build --nowait"]).

(** A computation that always returns, having handed exactly the command
    lines [cmds] to the shell. *)
Definition runs {A} (m : M A) (cmds : list string) : Prop :=
  forall w, exists a w',
    m w = (Ret a, w')
    /\ commands_run (trace w') = commands_run (trace w) ++ cmds.

(* ===================================================================== *)
(** * Further scenarios                                                    *)
(* ===================================================================== *)

(** The releaser configuration of a yum target with a builder argument. *)
Definition yum_section : gmap string string :=
  {[ "releaser" := "tito.release.YumRepoReleaser";
     "builder" := "tito.builder.MockBuilder";
     "builder.mock" := "epel-6-x86_64";
     "rsync" := "example.org:/srv/repo" ]}.

Definition yum_releaser_config : gmap string (gmap string string) :=
  {[ "yum-f15" := yum_section ]}.

(** A CVS releaser with a z-stream branch, and the tree it works in. *)
Definition zstream_self : Self :=
  mkSelf "pkg" "/work" "/work/pkg" [".spec"; ".patch"] false demo_builder
         ["master"] ["F-15"; "RHEL-6/RHEL-6.1"].

Definition checkout_world : World :=
  mkWorld "/"
          {[ "/work" := ["pkg"]; "/work/pkg" := ["F-15"];
             "/work/pkg/F-15" := ["pkg.spec"] ]}
          ∅ [].

(** The diffs show a change and the operator says no. *)
Definition declining_env : Env :=
  mkEnv (fun _ _ cmd =>
           if PyStr.startswith cmd "git diff" || PyStr.startswith cmd "cvs diff"
           then (256, "+Patch9: fix.patch") else (0, ""))
        (fun _ _ => "N") ∅ (fun _ => "/tmp/tmpmsg")
        (fun _ _ content => Some content) (fun _ _ => Some "/tmp/pkg.src.rpm")
        (fun _ => []).

(** Every build request is turned down, for a reason other than an earlier
    build. *)
Definition failed_build_env : Env :=
  mkEnv (fun _ _ cmd =>
           if PyStr.contains "build" cmd then (256, "Could not connect to the hub")
           else (0, ""))
        (fun _ _ => "y") ∅ (fun _ => "/tmp/tmpmsg")
        (fun _ _ content => Some content) (fun _ _ => Some "/tmp/pkg.src.rpm")
        (fun _ => []).

(** A releaser under dry-run that has a tarball to upload. *)
Definition dry_sources_self : Self :=
  mkSelf "pkg" "/work" "/work/pkg" [".spec"; ".patch"] true
         (mkBuilder "/src/pkg.spec" "/src/gitcopy" "1.0-1" ["/src/pkg-1.0.tar.gz"]
                    demo_config ∅ [] false)
         ["master"; "f15"] ["F-15"; "F-14"].

(* ===================================================================== *)
(** * Shapes of commands and further scenarios                             *)
(* ===================================================================== *)

(** The status [commands.getstatusoutput] reports for a command that ends
    with [exit_code]: the wait status of the process, which carries the
    exit code in its high byte. *)
Definition wait_status (exit_code : nat) : nat := 256 * exit_code.

(** [make tag] ends with exit code 1: the tag is there already. *)
Definition nothing_to_tag_env : Env :=
  mkEnv (fun _ _ cmd =>
           if PyStr.startswith cmd "make tag"
           then (wait_status 1, "ERROR: Tag pkg-1_0-1 has been already created.")
           else (0, ""))
        (fun _ _ => "y") ∅ (fun _ => "/tmp/tmpmsg")
        (fun _ _ content => Some content) (fun _ _ => Some "/tmp/pkg.src.rpm")
        (fun _ => []).

(** A CVS releaser with two branches to tag. *)
Definition two_branch_self : Self :=
  mkSelf "pkg" "/work" "/work/pkg" [".spec"; ".patch"] false demo_builder
         ["master"] ["F-15"; "F-14"].




(** The second question of the CVS gate, and the heading it prints over the
    commit message. *)
Definition edit_question : string :=
  "Would you like to edit this commit message? [y/n] ".



(** The files [_list_files_to_copy] selects: the spec file, then the paths
    of the entries of the project checkout that the scan keeps. *)
Definition selected (self : Self) (w : World) : list string :=
  spec_file (builder self)
    :: map (PyStr.path_join (rpmbuild_gitcopy (builder self)))
           (List.filter (picked_for_copy self w)
                        (listing w (rpmbuild_gitcopy (builder self)))).

(** Scenario: the source list names a [Makefile], and the checkout has one
    of its own. *)
Definition sources_with_makefile : list string := ["/src/pkg.spec"; "/src/Makefile"].

Definition checkout_with_makefile : World :=
  world_of "/dest" ["CVS"; "Makefile"; "pkg.spec"].

(** What is run of a list of steps when each one is run only if those
    before it succeeded: everything up to the first failure, that one
    included. *)
Fixpoint until_failure {A} (failed : A -> bool) (steps : list A) : list A :=
  match steps with
  | [] => []
  | s :: rest => s :: (if failed s then [] else until_failure failed rest)
  end.

(** The steps before the first one that cannot be started. *)
Fixpoint while_possible {A} (possible : A -> bool) (steps : list A) : list A :=
  match steps with
  | [] => []
  | s :: rest => if possible s then s :: while_possible possible rest else []
  end.

(** Scenario: the second of three copies fails. *)
Definition three_sources : list string :=
  ["/src/pkg.spec"; "/src/pkg.patch"; "/src/extra.patch"].

Definition second_copy_fails (cmd : string) : nat :=
  if PyStr.startswith cmd "cp /src/pkg.patch" then 256 else 0.

Definition second_copy_fails_env : Env :=
  mkEnv (fun _ _ cmd => (second_copy_fails cmd, ""))
        (fun _ _ => "") ∅ (fun _ => "/tmp/tmpmsg")
        (fun _ _ content => Some content) (fun _ _ => Some "/tmp/pkg.src.rpm")
        (fun _ => []).

(** Scenario: three branches; the build fails in the second. *)
Definition three_branch_self : Self :=
  mkSelf "pkg" "/work" "/work/pkg" [".spec"; ".patch"] false demo_builder
         ["master"] ["F-15"; "F-14"; "F-13"].

Definition three_branch_world : World :=
  mkWorld "/"
          {[ "/work/pkg" := ["F-15"; "F-14"; "F-13"];
             "/work/pkg/F-15" := ["pkg.spec"];
             "/work/pkg/F-14" := ["pkg.spec"];
             "/work/pkg/F-13" := ["pkg.spec"] ]}
          ∅ [].

Definition build_fails_in_f14 (d : string) : nat :=
  if String.eqb d "/work/pkg/F-14" then 512 else 0.

Definition build_fails_in_f14_env : Env :=
  mkEnv (fun _ d _ => (build_fails_in_f14 d, ""))
        (fun _ _ => "") ∅ (fun _ => "/tmp/tmpmsg")
        (fun _ _ content => Some content) (fun _ _ => Some "/tmp/pkg.src.rpm")
        (fun _ => []).

(** The characters of a plain file name: letters, digits, and [. _ - +]. *)
Definition plain_char (c : ascii) : bool :=
  let n := nat_of_ascii c in
  (Nat.leb 48 n && Nat.leb n 57)
  || (Nat.leb 65 n && Nat.leb n 90)
  || (Nat.leb 97 n && Nat.leb n 122)
  || Nat.eqb n 46 || Nat.eqb n 95 || Nat.eqb n 45 || Nat.eqb n 43.

Fixpoint all_chars (p : ascii -> bool) (s : string) : bool :=
  match s with
  | EmptyString => true
  | String c rest => p c && all_chars p rest
  end.

(** A name that the shell hands on as it is, as one argument, and that a
    tool takes for one file of the current directory: not empty, made of
    plain characters, not starting with a dash, and neither [.] nor [..]. *)
Definition plain_name (s : string) : bool :=
  match s with
  | EmptyString => false
  | String c _ =>
      negb (Ascii.eqb c "-"%char) && all_chars plain_char s
      && negb (String.eqb s ".") && negb (String.eqb s "..")
  end.

(** The shape of what a file sync hands to the shell, for the sources
    [srcs] and the directories [dests] as they were in [w]: from inside one
    of the directories, the copy of a source into it, the [add] of the base
    name of a source, or the [rm] of an entry of the directory that is
    neither protected nor the base name of a source. *)
Definition sync_command (add rm : string) (srcs : list string) (w : World)
    (dests : list string) (e : Event) : Prop :=
  match e with
  | Shell d cmd =>
      d ∈ dests
      /\ ((exists src, src ∈ srcs /\ cmd = cp_command d src)
          \/ (exists src, src ∈ srcs /\ cmd = add +:+ PyStr.basename src)
          \/ (exists f, f ∈ listing w d /\ cmd = rm +:+ f
                        /\ (f ∉ PROTECTED_BUILD_SYS_FILES)
                        /\ (f ∉ map PyStr.basename srcs)))
  | _ => True
  end.

(** A command line that begins with [rm] goes on with one plain name, which
    is not protected. *)
Definition removes_plainly (rm : string) (e : Event) : Prop :=
  match e with
  | Shell _ cmd =>
      PyStr.startswith cmd rm = true ->
      exists f, cmd = rm +:+ f /\ plain_name f = true
                /\ (f ∉ PROTECTED_BUILD_SYS_FILES)
  | _ => True
  end.

(** What a computation adds to the trace when it is run in [w]. *)
Definition emits_at {A} (P : Event -> Prop) (m : M A) (w : World) : Prop :=
  exists evs, trace (snd (m w)) = trace w ++ evs /\ Forall P evs.

(** Scenario: a project with a patch and a [Makefile] of its own, synced
    into a git checkout and into a CVS branch that hold a stale patch. *)
Definition sync_world : World :=
  mkWorld "/"
          {[ "/src/gitcopy" := ["pkg.spec"; "pkg.patch"; "Makefile"];
             "/co" := [".git"; "Makefile"; "pkg.spec"; "old.patch"];
             "/work/pkg/F-15" := ["CVS"; "Makefile"; "pkg.spec"; "old.patch"] ]}
          ∅ [].

(* ===================================================================== *)
(** * The monad                                                            *)
(* ===================================================================== *)

Lemma bind_Ret_inv {A B} (m : M A) (f : A -> M B) w b w' :
  bind m f w = (Ret b, w') ->
  exists a w1, m w = (Ret a, w1) /\ f a w1 = (Ret b, w').
Proof.
  unfold bind. destruct (m w) as [[a | c | e] w1]; intros H.
  - exists a, w1. split; [reflexivity | exact H].
  - discriminate H.
  - discriminate H.
Qed.

Lemma bind_Ret {A B} (m : M A) (f : A -> M B) w a w1 :
  m w = (Ret a, w1) -> bind m f w = f a w1.
Proof. intros H. unfold bind. rewrite H. reflexivity. Qed.

Lemma bind_Exit {A B} (m : M A) (f : A -> M B) w c w1 :
  m w = (Exit c, w1) -> bind m f w = (Exit c, w1).
Proof. intros H. unfold bind. rewrite H. reflexivity. Qed.

Lemma bind_Raise {A B} (m : M A) (f : A -> M B) w e w1 :
  m w = (Raise e, w1) -> bind m f w = (Raise e, w1).
Proof. intros H. unfold bind. rewrite H. reflexivity. Qed.

(** One step of a run. *)
Lemma ret_step {A B} (a : A) (k : A -> M B) w : bind (ret a) k w = k a w.
Proof. reflexivity. Qed.

Lemma print_step {B} line (k : unit -> M B) w :
  bind (print line) k w
  = k tt (mkWorld (cwd w) (dirs w) (files w) (trace w ++ [Print line])).
Proof. reflexivity. Qed.

Lemma raw_input_step {B} env q (k : string -> M B) w :
  bind (raw_input env q) k w
  = k (operator env (trace w) q)
      (mkWorld (cwd w) (dirs w) (files w)
         (trace w ++ [Prompt q (operator env (trace w) q)])).
Proof. reflexivity. Qed.

Lemma getstatusoutput_step {B} env cmd (k : nat * string -> M B) w :
  bind (getstatusoutput env cmd) k w
  = k (shell env (trace w) (cwd w) cmd)
      (mkWorld (cwd w) (dirs w) (files w) (trace w ++ [Shell (cwd w) cmd])).
Proof. reflexivity. Qed.

Lemma chdir_step {B} d (k : unit -> M B) w :
  is_Some (dirs w !! d) ->
  bind (chdir d) k w = k tt (mkWorld d (dirs w) (files w) (trace w)).
Proof.
  intros [l Hl]. unfold bind, chdir. rewrite Hl. reflexivity.
Qed.

Ltac flatten_trace :=
  cbn [cwd dirs files trace]; rewrite <- ?app_assoc; cbn [app].

(** [run_command] returns only when the command succeeded; the world then
    differs by the one [Shell] event. *)
Lemma run_command_Ret_inv env cmd w out w' :
  run_command env cmd w = (Ret out, w') ->
  w' = mkWorld (cwd w) (dirs w) (files w) (trace w ++ [Shell (cwd w) cmd]).
Proof.
  unfold run_command, bind, getstatusoutput.
  destruct (shell env (trace w) (cwd w) cmd) as [status output].
  destruct (Nat.ltb 0 status); simpl; intros H.
  - discriminate H.
  - injection H as _ <-. reflexivity.
Qed.

(* ===================================================================== *)
(** * File synchronisation                                                 *)
(* ===================================================================== *)

Section SyncFacts.
Context (env : Env).

Lemma copy_loop_new_from_sources dest files : forall acc w new w',
  Releaser.copy_loop env dest files acc w = (Ret new, w') ->
  forall f, f ∈ new -> (f ∈ acc) \/ (f ∈ map PyStr.basename files).
Proof.
  induction files as [| copy_me rest IH]; intros acc w new w' H f Hf.
  - injection H as <- _. left. exact Hf.
  - simpl in H.
    apply bind_Ret_inv in H as (here & w1 & H1 & H).
    apply bind_Ret_inv in H as (acc' & w2 & H2 & H).
    apply bind_Ret_inv in H as (out & w3 & _ & H).
    apply bind_Ret_inv in H as (u & w4 & _ & H).
    destruct (IH _ _ _ _ H f Hf) as [Hacc | Hrest].
    + destruct (negb here).
      * apply bind_Ret_inv in H2 as (? & ? & _ & H2). injection H2 as <- _.
        apply elem_of_app in Hacc as [Hacc | Hacc].
        -- left. exact Hacc.
        -- right. apply list_elem_of_singleton in Hacc. subst f.
           simpl. apply elem_of_cons. left. reflexivity.
      * apply bind_Ret_inv in H2 as (? & ? & _ & H2). injection H2 as <- _.
        left. exact Hacc.
    + right. simpl. apply elem_of_cons. right. exact Hrest.
Qed.

Lemma obsolete_loop_sound names entries : forall acc w old w',
  Releaser.obsolete_loop names entries acc w = (Ret old, w') ->
  forall f, f ∈ old ->
    (f ∈ acc) \/ (f ∈ entries /\ (f ∉ PROTECTED_BUILD_SYS_FILES) /\ (f ∉ names)).
Proof.
  induction entries as [| filename rest IH]; intros acc w old w' H f Hf.
  - injection H as <- _. left. exact Hf.
  - simpl in H.
    destruct (bool_decide (filename ∈ PROTECTED_BUILD_SYS_FILES)) eqn:Hp;
    destruct (bool_decide (filename ∈ names)) eqn:Hn; simpl in H.
    4: {
      apply bind_Ret_inv in H as (? & ? & _ & H).
      destruct (IH _ _ _ _ H f Hf) as [Hacc | (Hin & Hnp & Hnn)].
      - apply elem_of_app in Hacc as [Hacc | Hacc].
        + left. exact Hacc.
        + right. apply list_elem_of_singleton in Hacc. subst f.
          apply bool_decide_eq_false in Hp. apply bool_decide_eq_false in Hn.
          split; [apply elem_of_cons; left; reflexivity | split; assumption].
      - right. split; [apply elem_of_cons; right; exact Hin | split; assumption]. }
    all: destruct (IH _ _ _ _ H f Hf) as [Hacc | (Hin & Hnp & Hnn)];
      [left; exact Hacc
      | right; split; [apply elem_of_cons; right; exact Hin | split; assumption]].
Qed.

(** What [_sync_files] hands back: the "copied" list is the empty list it
    was initialised with, "new" holds base names of sources only, "old" holds
    neither protected names nor base names of sources. *)
Lemma sync_files_result files dest w new copied old w' :
  Releaser._sync_files env files dest w = (Ret (new, copied, old), w') ->
  copied = []
  /\ (forall f, f ∈ new -> f ∈ map PyStr.basename files)
  /\ (forall f, f ∈ old ->
        (f ∉ PROTECTED_BUILD_SYS_FILES) /\ (f ∉ map PyStr.basename files)).
Proof.
  unfold Releaser._sync_files. intros H.
  apply bind_Ret_inv in H as (? & w1 & _ & H).
  apply bind_Ret_inv in H as (new0 & w2 & Hnew & H).
  apply bind_Ret_inv in H as (entries & w3 & _ & H).
  apply bind_Ret_inv in H as (old0 & w4 & Hold & H).
  injection H as <- <- <- _.
  split; [reflexivity | split].
  - intros f Hf.
    destruct (copy_loop_new_from_sources _ _ _ _ _ _ Hnew f Hf) as [Hnil | Hsrc].
    + apply elem_of_nil in Hnil. contradiction.
    + exact Hsrc.
  - intros f Hf.
    destruct (obsolete_loop_sound _ _ _ _ _ _ Hold f Hf) as [Hnil | (_ & Hp & Hn)].
    + apply elem_of_nil in Hnil. contradiction.
    + split; assumption.
Qed.

Lemma present_same_dirs w w' d name :
  dirs w' = dirs w -> present w' d name = present w d name.
Proof. unfold present. intros ->. reflexivity. Qed.

Lemma chdir_Ret_inv d w u w' :
  chdir d w = (Ret u, w') -> dirs w' = dirs w /\ is_Some (dirs w !! d).
Proof.
  unfold chdir. destruct (dirs w !! d) as [l |] eqn:Hd; intros H.
  - injection H as _ <-. split; [reflexivity | exists l; reflexivity].
  - discriminate H.
Qed.

Lemma cp_effect_spec d name w u w' :
  is_Some (dirs w !! d) ->
  cp_effect d name w = (Ret u, w') ->
  is_Some (dirs w' !! d)
  /\ (forall n, present w d n = true -> present w' d n = true)
  /\ present w' d name = true
  /\ (present w d name = true -> w' = w).
Proof.
  intros [l Hl]. unfold cp_effect. rewrite Hl.
  destruct (present w d name) eqn:Hp; intros H; injection H as _ <-.
  - repeat split; try assumption; try (intros; assumption). exists l. exact Hl.
  - split; [| split; [| split]].
    + simpl. rewrite lookup_insert_eq. eexists. reflexivity.
    + intros n. unfold present. simpl. rewrite Hl, lookup_insert_eq.
      intros Hn. apply orb_true_iff in Hn as [Hn | Hn].
      * rewrite Hn. reflexivity.
      * apply orb_true_iff. right. apply bool_decide_eq_true.
        apply bool_decide_eq_true in Hn. apply elem_of_app. left. exact Hn.
    + unfold present. simpl. rewrite lookup_insert_eq.
      apply orb_true_iff. right. apply bool_decide_eq_true.
      apply elem_of_app. right. apply list_elem_of_singleton. reflexivity.
    + intros Habs. discriminate Habs.
Qed.

(** After the copy loop every source's base name is at the destination, and
    nothing that was there has gone. *)
Lemma copy_loop_present dest files : forall acc w new w',
  is_Some (dirs w !! dest) ->
  Releaser.copy_loop env dest files acc w = (Ret new, w') ->
  is_Some (dirs w' !! dest)
  /\ (forall n, present w dest n = true -> present w' dest n = true)
  /\ (forall f, f ∈ files -> present w' dest (PyStr.basename f) = true).
Proof.
  induction files as [| copy_me rest IH]; intros acc w new w' Hd H.
  - injection H as _ <-. repeat split; try assumption.
    + intros n Hn. exact Hn.
    + intros f Hf. apply elem_of_nil in Hf. contradiction.
  - simpl in H.
    apply bind_Ret_inv in H as (here & w1 & H1 & H).
    injection H1 as _ <-.
    apply bind_Ret_inv in H as (acc' & w2 & H2 & H).
    assert (Hw2 : dirs w2 = dirs w).
    { destruct (negb here);
        apply bind_Ret_inv in H2 as (? & ? & Hpr & H2);
        injection Hpr as _ <-; injection H2 as _ <-; reflexivity. }
    apply bind_Ret_inv in H as (out & w3 & H3 & H).
    apply run_command_Ret_inv in H3.
    assert (Hw3 : dirs w3 = dirs w) by (subst w3; exact Hw2).
    apply bind_Ret_inv in H as (u & w4 & H4 & H).
    assert (Hd3 : is_Some (dirs w3 !! dest)) by (rewrite Hw3; exact Hd).
    destruct (cp_effect_spec _ _ _ _ _ Hd3 H4) as (Hd4 & Hkeep & Hnow & _).
    destruct (IH _ _ _ _ Hd4 H) as (Hd' & Hkeep' & Hall).
    split; [exact Hd' | split].
    + intros n Hn. apply Hkeep', Hkeep.
      rewrite (present_same_dirs w w3 dest n Hw3). exact Hn.
    + intros f Hf. apply elem_of_cons in Hf as [-> | Hf].
      * apply Hkeep'. exact Hnow.
      * apply Hall. exact Hf.
Qed.


Lemma obsolete_loop_dirs names entries : forall acc w o w',
  Releaser.obsolete_loop names entries acc w = (o, w') -> dirs w' = dirs w.
Proof.
  induction entries as [| filename rest IH]; intros acc w o w' H.
  - injection H as _ <-. reflexivity.
  - simpl in H.
    destruct (negb (bool_decide (filename ∈ PROTECTED_BUILD_SYS_FILES))
              && negb (bool_decide (filename ∈ names))).
    + unfold bind at 1 in H. simpl in H. apply IH in H. exact H.
    + apply IH in H. exact H.
Qed.

(** A sync that returns leaves every source's base name at the
    destination. *)
Lemma sync_files_leaves_sources files dest w r w' :
  Releaser._sync_files env files dest w = (Ret r, w') ->
  forall f, f ∈ files -> present w' dest (PyStr.basename f) = true.
Proof.
  unfold Releaser._sync_files. intros H.
  apply bind_Ret_inv in H as (? & w1 & Hcd & H).
  apply chdir_Ret_inv in Hcd as (Hw1 & Hd).
  apply bind_Ret_inv in H as (new0 & w2 & Hnew & H).
  apply bind_Ret_inv in H as (entries & w3 & Hls & H).
  apply bind_Ret_inv in H as (old0 & w4 & Hold & H).
  injection H as _ <-.
  assert (Hd1 : is_Some (dirs w1 !! dest)) by (rewrite Hw1; exact Hd).
  destruct (copy_loop_present _ _ _ _ _ _ Hd1 Hnew) as (_ & _ & Hall).
  assert (w3 = w2) as ->.
  { unfold listdir in Hls. destruct (dirs w2 !! dest); [| discriminate Hls].
    injection Hls as _ <-. reflexivity. }
  apply obsolete_loop_dirs in Hold.
  intros f Hf. rewrite (present_same_dirs w2 w4 _ _ Hold). apply Hall. exact Hf.
Qed.

Lemma obsolete_loop_returns names entries : forall acc w,
  exists old w', Releaser.obsolete_loop names entries acc w = (Ret old, w').
Proof.
  induction entries as [| filename rest IH]; intros acc w; simpl.
  - eexists _, _. reflexivity.
  - destruct (negb (bool_decide (filename ∈ PROTECTED_BUILD_SYS_FILES))
              && negb (bool_decide (filename ∈ names))).
    + unfold bind at 1, print, log. apply IH.
    + apply IH.
Qed.

Lemma copy_loop_returns dest files :
  (forall t d c, fst (shell env t d c) = 0) ->
  forall acc w, exists new w',
    Releaser.copy_loop env dest files acc w = (Ret new, w').
Proof.
  intros Hok. induction files as [| copy_me rest IH]; intros acc w; simpl.
  - eexists _, _. reflexivity.
  - unfold bind at 1, path_exists.
    assert (Hcp : forall (k : unit -> M (list string)) w0,
               (forall w1, exists new w', k tt w1 = (Ret new, w')) ->
               exists new w',
                 bind (run_command env
                         ("cp " +:+ copy_me +:+ " "
                            +:+ PyStr.path_join dest (PyStr.basename copy_me)))
                      (fun _ => bind (cp_effect dest (PyStr.basename copy_me)) k) w0
                 = (Ret new, w')).
    { intros k w0 Hk. unfold run_command, bind at 1 2, getstatusoutput.
      specialize (Hok (trace w0) (cwd w0)
                      ("cp " +:+ copy_me +:+ " "
                         +:+ PyStr.path_join dest (PyStr.basename copy_me))).
      destruct (shell env _ _ _) as [status output]. simpl in Hok. subst status.
      simpl. unfold bind, cp_effect. simpl.
      destruct (dirs w0 !! dest); [destruct (present _ dest _) |]; apply Hk. }
    destruct (negb (present w dest (PyStr.basename copy_me)));
      unfold bind at 1 2, print, log, ret; apply Hcp; intros w1; apply IH.
Qed.

(** When the destination is there and every command succeeds, the sync
    returns. *)
Lemma sync_files_returns srcs dest w :
  is_Some (dirs w !! dest) ->
  (forall t d c, fst (shell env t d c) = 0) ->
  exists r w', Releaser._sync_files env srcs dest w = (Ret r, w').
Proof.
  intros Hd Hok. unfold Releaser._sync_files.
  set (w1 := mkWorld dest (dirs w) (files w) (trace w)).
  rewrite (bind_Ret _ _ w tt w1)
    by (unfold chdir, w1; destruct Hd as [l ->]; reflexivity).
  destruct (copy_loop_returns dest srcs Hok [] w1) as (new & w2 & Hnew).
  rewrite (bind_Ret _ _ _ _ _ Hnew).
  destruct (copy_loop_present dest srcs [] w1 new w2 Hd Hnew) as ([l Hl] & _ & _).
  rewrite (bind_Ret _ _ w2 l w2) by (unfold listdir; rewrite Hl; reflexivity).
  destruct (obsolete_loop_returns (map PyStr.basename srcs) l [] w2)
    as (old & w3 & Hold).
  rewrite (bind_Ret _ _ _ _ _ Hold). eexists _, _. reflexivity.
Qed.

(** The scan of the project checkout: the spec file comes first, and
    whatever follows was picked among the unprotected entries. *)
Lemma list_files_loop_picks self entries : forall acc w files w',
  Releaser.list_files_loop self entries acc w = (Ret files, w') ->
  exists picked,
    files = acc ++ map (PyStr.path_join (rpmbuild_gitcopy (builder self))) picked
    /\ forall f, f ∈ picked -> f ∈ entries /\ (f ∉ PROTECTED_BUILD_SYS_FILES).
Proof.
  induction entries as [| filename rest IH]; intros acc w files w' H.
  - injection H as <- _. exists []. split.
    + simpl. rewrite app_nil_r. reflexivity.
    + intros f Hf. apply elem_of_nil in Hf. contradiction.
  - simpl in H. unfold bind at 1, Releaser.isdir at 1 in H. simpl in H.
    assert (Hskip : forall files0,
      Releaser.list_files_loop self rest acc w = (Ret files0, w') ->
      exists picked,
        files0 = acc ++ map (PyStr.path_join (rpmbuild_gitcopy (builder self))) picked
        /\ forall f, f ∈ picked ->
             f ∈ filename :: rest /\ (f ∉ PROTECTED_BUILD_SYS_FILES)).
    { intros files0 H0. destruct (IH _ _ _ _ H0) as (picked & Heq & Hp).
      exists picked. split; [exact Heq |].
      intros f Hf. destruct (Hp f Hf) as [Hin Hnp].
      split; [apply elem_of_cons; right; exact Hin | exact Hnp]. }
    destruct (bool_decide (is_Some (dirs w !! _))); [apply Hskip; exact H |].
    destruct (bool_decide (filename ∈ PROTECTED_BUILD_SYS_FILES)) eqn:Hprot;
      [apply Hskip; exact H |].
    destruct (PyStr.endswith filename ".spec"); [apply Hskip; exact H |].
    destruct (Releaser.wanted_extension _ filename); [| apply Hskip; exact H].
    destruct (IH _ _ _ _ H) as (picked & Heq & Hp).
    exists (filename :: picked). split.
    + rewrite Heq. simpl. rewrite <- app_assoc. reflexivity.
    + intros f Hf. apply elem_of_cons in Hf as [-> | Hf].
      * split; [apply elem_of_cons; left; reflexivity |].
        apply bool_decide_eq_false in Hprot. exact Hprot.
      * destruct (Hp f Hf) as [Hin Hnp].
        split; [apply elem_of_cons; right; exact Hin | exact Hnp].
Qed.

End SyncFacts.

(** C1, at the input where it fails.  [pkg.spec] is a source and is already
    in the checkout: [_sync_files] copies it over, yet reports it neither as
    new nor as copied, so "new" and "copied" together miss a source's base
    name. *)
Theorem sync_files_forgets_copied_files :
  exists new copied old,
    outcome_of (Releaser._sync_files quiet_env demo_files "/dest" stale_checkout)
      = Ret (new, copied, old)
    /\ "pkg.spec" ∈ map PyStr.basename demo_files
    /\ "cp /src/pkg.spec /dest/pkg.spec"
         ∈ commands_run
             (trace (snd (Releaser._sync_files quiet_env demo_files "/dest"
                            stale_checkout)))
    /\ ("pkg.spec" ∉ new ++ copied).
Proof.
  exists ["pkg.patch"], [], ["old.patch"].
  split; [vm_compute; reflexivity | split; [| split]].
  - vm_compute. apply elem_of_cons. left. reflexivity.
  - vm_compute. apply elem_of_cons. left. reflexivity.
  - simpl. intros Hin. apply list_elem_of_singleton in Hin. discriminate Hin.
Qed.



(* ===================================================================== *)
(** * What a computation adds to the trace                                 *)
(* ===================================================================== *)

Section Emits.
Context (P : Event -> Prop).

Lemma emits_silent {A} (m : M A) :
  (forall w, trace (snd (m w)) = trace w) -> emits P m.
Proof.
  intros H w. exists []. rewrite H, app_nil_r. split; [reflexivity | constructor].
Qed.

Lemma emits_ret {A} (a : A) : emits P (ret a).
Proof. apply emits_silent. reflexivity. Qed.

Lemma emits_sys_exit {A} c : emits P (@sys_exit A c).
Proof. apply emits_silent. reflexivity. Qed.

Lemma emits_raise {A} e : emits P (@raise A e).
Proof. apply emits_silent. reflexivity. Qed.

Lemma emits_bind {A B} (m : M A) (f : A -> M B) :
  emits P m -> (forall a, emits P (f a)) -> emits P (bind m f).
Proof.
  intros Hm Hf w. destruct (Hm w) as (evs1 & Ht1 & HP1).
  unfold bind. destruct (m w) as [[a | c | e] w1]; simpl in Ht1.
  - destruct (Hf a w1) as (evs2 & Ht2 & HP2).
    exists (evs1 ++ evs2). split.
    + rewrite Ht2, Ht1, app_assoc. reflexivity.
    + apply Forall_app. split; assumption.
  - exists evs1. split; assumption.
  - exists evs1. split; assumption.
Qed.

Lemma emits_log e : P e -> emits P (log e).
Proof.
  intros He w. exists [e]. split; [reflexivity |].
  constructor; [exact He | constructor].
Qed.

Lemma emits_chdir d : emits P (chdir d).
Proof.
  apply emits_silent. intros w. unfold chdir. destruct (dirs w !! d); reflexivity.
Qed.

Lemma emits_listdir d : emits P (listdir d).
Proof.
  apply emits_silent. intros w. unfold listdir. destruct (dirs w !! d); reflexivity.
Qed.

Lemma emits_path_exists d n : emits P (path_exists d n).
Proof. apply emits_silent. reflexivity. Qed.

Lemma emits_cp_effect d n : emits P (cp_effect d n).
Proof.
  apply emits_silent. intros w. unfold cp_effect.
  destruct (dirs w !! d); [destruct (present w d n) |]; reflexivity.
Qed.

Lemma emits_getstatusoutput env cmd :
  (forall d, P (Shell d cmd)) -> emits P (getstatusoutput env cmd).
Proof.
  intros Hc w. exists [Shell (cwd w) cmd]. split; [reflexivity |].
  constructor; [apply Hc | constructor].
Qed.

Lemma emits_run_command env cmd :
  (forall d, P (Shell d cmd)) -> (forall t, P (Stderr t)) ->
  emits P (run_command env cmd).
Proof.
  intros Hc He. unfold run_command.
  apply emits_bind; [apply emits_getstatusoutput; exact Hc |].
  intros [status output]. destruct (Nat.ltb 0 status).
  - apply emits_bind; [apply emits_log, He | intros _; apply emits_raise].
  - apply emits_ret.
Qed.

Lemma emits_raw_input env q :
  (forall a, P (Prompt q a)) -> emits P (raw_input env q).
Proof.
  intros Hq w. exists [Prompt q (operator env (trace w) q)].
  split; [reflexivity |]. constructor; [apply Hq | constructor].
Qed.

Lemma emits_mkstemp env : emits P (mkstemp env).
Proof. apply emits_silent. reflexivity. Qed.

Lemma emits_os_write n t : emits P (os_write n t).
Proof. apply emits_silent. reflexivity. Qed.

Lemma emits_read_back n : emits P (read_back n).
Proof. apply emits_silent. reflexivity. Qed.

Lemma emits_unlink n : emits P (unlink n).
Proof.
  apply emits_silent. intros w. unfold unlink. destruct (files w !! n); reflexivity.
Qed.

Lemma emits_subprocess_call env argv n :
  P (Spawn argv) -> emits P (subprocess_call env argv n).
Proof.
  intros Hs w. exists [Spawn argv]. split.
  - unfold subprocess_call. destruct (editor_session env _ _ _); reflexivity.
  - constructor; [exact Hs | constructor].
Qed.

Lemma emits_builder_call_srpm env d :
  P (BuilderSrpm d) -> emits P (builder_call_srpm env d).
Proof.
  intros Hs w. exists [BuilderSrpm d]. split.
  - unfold builder_call_srpm. destruct (builder_srpm env _ _); reflexivity.
  - constructor; [exact Hs | constructor].
Qed.

Lemma emits_config_get cfg s o : emits P (config_get cfg s o).
Proof.
  unfold config_get. destruct (config_lookup cfg s o);
    [apply emits_ret | apply emits_raise].
Qed.

End Emits.

(** An event of the run so far is still there after what follows. *)
Lemma occurs_later {A B} (m : M A) (f : A -> M B) (e : Event) w :
  (forall a, emits (fun _ => True) (f a)) ->
  e ∈ trace (snd (m w)) -> e ∈ trace (snd (bind m f w)).
Proof.
  intros Hf He. unfold bind. destruct (m w) as [[a | c | x] w1]; simpl in He |- *.
  - destruct (Hf a w1) as (evs & -> & _). apply elem_of_app. left. exact He.
  - exact He.
  - exact He.
Qed.

(* ===================================================================== *)
(** * KojiReleaser                                                         *)
(* ===================================================================== *)

(** C10.  Without a koji section, or without its autobuild_tags option, the
    release of the build-service releaser returns at once: the world is left
    as it was, so nothing was submitted and nothing was raised. *)
Theorem koji_release_without_autobuild_tags (env : Env) self flag w :
  has_section (config (builder self)) "koji" = false
  \/ has_option (config (builder self)) "koji" "autobuild_tags" = false ->
  KojiReleaser.release env self flag w = (Ret tt, w).
Proof.
  intros H. unfold KojiReleaser.release, KojiReleaser._can_build_in_koji.
  destruct self as [pn wd pwd ext dr b gb cb]. simpl in *.
  destruct H as [H | H]; rewrite H; simpl.
  - reflexivity.
  - destruct (has_section (config b) "koji"); reflexivity.
Qed.

Lemma koji_release_without_autobuild_tags_witness :
  KojiReleaser.release quiet_env plain_self false release_world
    = (Ret tt, release_world).
Proof.
  apply (koji_release_without_autobuild_tags quiet_env plain_self false release_world).
  left. vm_compute. reflexivity.
Defined.

(* ===================================================================== *)
(** * Build submission                                                     *)
(* ===================================================================== *)

(** C2, as the code has it.  Outside dry-run, with a build command that
    exits non-zero: [FedoraGitReleaser._build] goes on when the output says
    the package has already been built, and otherwise leaves with
    [sys.exit(1)], so that nothing placed after it runs;
    [KojiReleaser._submit_build] does not look at the output, any non-zero
    exit raises and nothing placed after it runs. *)
Theorem build_submission_failures (env : Env) self w status output :
  dry_run self = false ->
  0 < status ->
  (shell env (trace w ++ [Print "Submitting build: fedpkg build --nowait"])
         (cwd w) "fedpkg build --nowait" = (status, output) ->
   (PyStr.contains "already been built" output = true ->
    exists w', FedoraGitReleaser._build env self w = (Ret tt, w'))
   /\ (PyStr.contains "already been built" output = false ->
       exists w',
         FedoraGitReleaser._build env self w = (Exit 1, w')
         /\ commands_run (trace w') = commands_run (trace w) ++ ["fedpkg build --nowait"]
         /\ forall B (k : unit -> M B),
              bind (FedoraGitReleaser._build env self) k w = (Exit 1, w')))
  /\ (forall executable koji_opts tag srpm_location,
        let cmd := executable +:+ " " +:+ koji_opts +:+ " " +:+ tag
                     +:+ " " +:+ srpm_location in
        shell env (trace w ++ [Print (PyStr.newline +:+ "Submitting build with: " +:+ cmd)])
              (cwd w) cmd = (status, output) ->
        exists w',
          KojiReleaser._submit_build env self executable koji_opts tag srpm_location w
            = (Raise "Error running command", w')
          /\ commands_run (trace w') = commands_run (trace w) ++ [cmd]
          /\ forall B (k : unit -> M B),
               bind (KojiReleaser._submit_build env self executable koji_opts tag
                       srpm_location) k w
                 = (Raise "Error running command", w')).
Proof.
  intros Hlive Hpos.
  assert (Hlt : Nat.ltb 0 status = true) by (apply Nat.ltb_lt; exact Hpos).
  assert (Hcmds : forall t c d l,
             commands_run (t ++ [Print l; Shell d c]) = commands_run t ++ [c]).
  { intros t c d l. induction t as [| e t IH]; simpl.
    - reflexivity.
    - destruct e; simpl; rewrite ?IH; reflexivity. }
  assert (Hskip : forall t x, commands_run (t ++ [Stderr x]) = commands_run t).
  { intros t x. induction t as [| e t IH]; simpl.
    - reflexivity.
    - destruct e; simpl; rewrite ?IH; reflexivity. }
  split.
  - intros Hsh. split.
    + intros Hmark. eexists.
      unfold FedoraGitReleaser._build. rewrite Hlive.
      unfold bind, print, log, getstatusoutput. simpl.
      change ("Submitting build: " +:+ "fedpkg build --nowait")
        with "Submitting build: fedpkg build --nowait".
      rewrite Hsh, Hlt, Hmark. reflexivity.
    + intros Hmark.
      assert (Hrun : exists w',
                 FedoraGitReleaser._build env self w = (Exit 1, w')
                 /\ commands_run (trace w')
                    = commands_run (trace w) ++ ["fedpkg build --nowait"]).
      { eexists. split.
        - unfold FedoraGitReleaser._build. rewrite Hlive.
          unfold bind, print, stderr_write, log, getstatusoutput, sys_exit. simpl.
          change ("Submitting build: " +:+ "fedpkg build --nowait")
            with "Submitting build: fedpkg build --nowait".
          rewrite Hsh, Hlt, Hmark. reflexivity.
        - simpl. rewrite !Hskip, <- app_assoc. simpl. apply Hcmds. }
      destruct Hrun as (w' & Hrun & Hc). exists w'.
      split; [exact Hrun | split; [exact Hc |]].
      intros B k. apply bind_Exit. exact Hrun.
  - intros executable koji_opts tag srpm_location cmd Hsh.
    assert (Hrun : exists w',
               KojiReleaser._submit_build env self executable koji_opts tag
                 srpm_location w = (Raise "Error running command", w')
               /\ commands_run (trace w') = commands_run (trace w) ++ [cmd]).
    { eexists. split.
      - unfold KojiReleaser._submit_build. rewrite Hlive.
        unfold run_command, bind, print, stderr_write, log, getstatusoutput, raise.
        simpl. fold cmd. rewrite Hsh, Hlt. reflexivity.
      - simpl. rewrite Hskip, <- app_assoc. simpl. apply Hcmds. }
    destruct Hrun as (w' & Hrun & Hc). exists w'.
    split; [exact Hrun | split; [exact Hc |]].
    intros B k. apply bind_Raise. exact Hrun.
Qed.

Lemma build_submission_failures_witness :
  (exists w',
     FedoraGitReleaser._build rebuilt_env demo_self release_world = (Ret tt, w'))
  /\ (exists w',
        KojiReleaser._submit_build rebuilt_env demo_self "koji" "build --nowait"
          "dist-f15" "/tmp/pkg.src.rpm" release_world
        = (Raise "Error running command", w')).
Proof.
  destruct (build_submission_failures rebuilt_env demo_self release_world
              256 rebuilt_output eq_refl) as [Hgit Hkoji].
  - apply Nat.lt_0_succ.
  - split.
    + apply Hgit; vm_compute; reflexivity.
    + destruct (Hkoji "koji" "build --nowait" "dist-f15" "/tmp/pkg.src.rpm")
        as (w' & Hrun & _).
      * vm_compute. reflexivity.
      * exists w'. exact Hrun.
Defined.

(** C2 as stated fails for the build-service releaser: the build command
    exits non-zero, its output carries the phrase, and the submission raises
    instead of going on. *)
Lemma koji_resubmission_is_fatal :
  shell rebuilt_env
        [Print (PyStr.newline
                  +:+ "Submitting build with: koji build --nowait dist-f15 /tmp/pkg.src.rpm")]
        "/" "koji build --nowait dist-f15 /tmp/pkg.src.rpm"
    = (256, rebuilt_output)
  /\ PyStr.contains "already been built" rebuilt_output = true
  /\ outcome_of (KojiReleaser._submit_build rebuilt_env demo_self "koji"
                   "build --nowait" "dist-f15" "/tmp/pkg.src.rpm" release_world)
     = Raise "Error running command"
  /\ outcome_of (bind (KojiReleaser._submit_build rebuilt_env demo_self "koji"
                         "build --nowait" "dist-f15" "/tmp/pkg.src.rpm")
                      (fun _ => print "next tag") release_world)
     = Raise "Error running command".
Proof. repeat split; vm_compute; reflexivity. Qed.

(* ===================================================================== *)
(** * CvsReleaser: tags                                                    *)
(* ===================================================================== *)

Lemma commands_run_app t1 t2 :
  commands_run (t1 ++ t2) = commands_run t1 ++ commands_run t2.
Proof.
  induction t1 as [| e t1 IH]; simpl.
  - reflexivity.
  - destruct e; simpl; rewrite ?IH; reflexivity.
Qed.

(** One round of the loop that tags each branch, once [make tag] has run in
    the branch directory: a status of at most 1 lets the loop go on with the
    remaining branches; a status above 1 runs the cleanup command and ends
    the run with exit status 1, no further command being issued. *)
Lemma tag_loop_status_threshold (env : Env) self cmd branch rest w status output :
  is_Some (dirs w !! CvsReleaser.branch_dir self branch) ->
  shell env (trace w) (CvsReleaser.branch_dir self branch) cmd = (status, output) ->
  let here := CvsReleaser.branch_dir self branch in
  let w1 := mkWorld here (dirs w) (files w)
                    (trace w ++ [Shell here cmd; Print output]) in
  (status <= 1 ->
   CvsReleaser.tag_loop env self cmd (branch :: rest) w
     = CvsReleaser.tag_loop env self cmd rest w1)
  /\ (1 < status ->
      exists o w' tail,
        CvsReleaser.tag_loop env self cmd (branch :: rest) w = (o, w')
        /\ exit_status o = 1
        /\ trace w'
           = trace w1 ++ Shell here ("rm -rf " +:+ cvs_package_workdir self) :: tail
        /\ commands_run tail = []).
Proof.
  intros [l Hl] Hsh here w1.
  assert (Hstep : forall k : nat * string -> M unit,
             bind (chdir here)
                  (fun _ => bind (getstatusoutput env cmd) k) w
             = k (status, output)
                 (mkWorld here (dirs w) (files w) (trace w ++ [Shell here cmd]))).
  { intros k.
    rewrite (bind_Ret _ _ w tt (mkWorld here (dirs w) (files w) (trace w)))
      by (unfold chdir; fold here in Hl; rewrite Hl; reflexivity).
    apply bind_Ret. unfold getstatusoutput. simpl.
    fold here in Hsh. rewrite Hsh. reflexivity. }
  assert (Hw1 : forall k : unit -> M unit,
             bind (print output) k
                  (mkWorld here (dirs w) (files w) (trace w ++ [Shell here cmd]))
             = k tt w1).
  { intros k. unfold bind, print, log, w1. simpl.
    rewrite <- app_assoc. reflexivity. }
  split.
  - intros Hle. simpl CvsReleaser.tag_loop at 1. fold here.
    rewrite Hstep, Hw1.
    assert (Hlt : Nat.ltb 1 status = false) by (apply Nat.ltb_ge; exact Hle).
    rewrite Hlt. reflexivity.
  - intros Hgt. simpl CvsReleaser.tag_loop at 1. fold here.
    rewrite Hstep, Hw1.
    assert (Hlt : Nat.ltb 1 status = true) by (apply Nat.ltb_lt; exact Hgt).
    rewrite Hlt.
    unfold CvsReleaser.cleanup, run_command, getstatusoutput, bind, sys_exit,
      stderr_write, log, raise, ret.
    simpl.
    destruct (shell env (trace w ++ [Shell here cmd; Print output]) here
                    ("rm -rf " +:+ cvs_package_workdir self)) as [s2 o2].
    destruct (Nat.ltb 0 s2); simpl.
    + eexists _, _, _. split; [reflexivity |]. simpl.
      split; [reflexivity | split].
      * rewrite <- app_assoc. simpl. reflexivity.
      * reflexivity.
    + eexists _, _, []. split; [reflexivity |]. simpl.
      split; [reflexivity | split; reflexivity].
Qed.

(* ===================================================================== *)
(** * Traces of the commit gates                                           *)
(* ===================================================================== *)

Ltac emits_tac :=
  repeat first
    [ apply emits_ret | apply emits_sys_exit | apply emits_raise
    | apply emits_chdir | apply emits_listdir | apply emits_path_exists
    | apply emits_cp_effect | apply emits_mkstemp | apply emits_os_write
    | apply emits_read_back | apply emits_unlink | apply emits_config_get
    | apply emits_log
    | apply emits_raw_input; intros ?
    | apply emits_subprocess_call
    | apply emits_builder_call_srpm
    | apply emits_getstatusoutput; intros ?
    | apply emits_run_command; intros ?
    | apply emits_bind; [| intros ?]
    | match goal with
      | |- emits _ (if ?b then _ else _) => destruct b eqn:?
      | |- emits _ (let '(_, _) := ?r in _) => destruct r
      end ].

Section GateTraces.
Context (env : Env) (P : Event -> Prop).
Hypothesis P_print : forall l, P (Print l).
Hypothesis P_stderr : forall t, P (Stderr t).
Hypothesis P_prompt : forall q a, P (Prompt q a).
Hypothesis P_spawn : forall argv, P (Spawn argv).
Hypothesis P_private : forall d cmd, publishes cmd = false -> P (Shell d cmd).

Lemma gated_live self d cmd :
  gated P self -> dry_run self = false -> P (Shell d cmd).
Proof.
  intros [Hdry | Hall] Hlive.
  - rewrite Hdry in Hlive. discriminate Hlive.
  - apply Hall.
Qed.

Lemma emits_print_dry_run_warning cmd : emits P (Releaser.print_dry_run_warning cmd).
Proof. unfold Releaser.print_dry_run_warning. emits_tac; apply P_print. Qed.

Lemma emits_banner text : emits P (banner text).
Proof. unfold banner. emits_tac; apply P_print. Qed.

Lemma emits_git_cleanup self : emits P (FedoraGitReleaser.cleanup env self).
Proof.
  unfold FedoraGitReleaser.cleanup. emits_tac.
  - apply P_private. reflexivity.
  - apply P_stderr.
Qed.

Lemma emits_cvs_cleanup self : emits P (CvsReleaser.cleanup env self).
Proof.
  unfold CvsReleaser.cleanup. emits_tac.
  - apply P_private. reflexivity.
  - apply P_stderr.
Qed.

Lemma emits_git_build self : gated P self -> emits P (FedoraGitReleaser._build env self).
Proof.
  intros Hg. unfold FedoraGitReleaser._build.
  destruct (dry_run self) eqn:Hdry.
  - apply emits_print_dry_run_warning.
  - emits_tac; try apply P_print; try apply P_stderr.
    apply (gated_live self _ _ Hg Hdry).
Qed.

Lemma emits_commit_gate self co main :
  emits P (FedoraGitReleaser.commit_gate env self co main).
Proof.
  unfold FedoraGitReleaser.commit_gate.
  apply emits_bind; [apply emits_chdir | intros _].
  apply emits_bind; [apply emits_getstatusoutput; intros d; apply P_private; reflexivity |].
  intros [status diff_output].
  destruct (bool_decide (PyStr.strip diff_output = "")).
  - apply emits_log, P_print.
  - repeat (apply emits_bind; [apply emits_log, P_print | intros _]).
    apply emits_bind; [apply emits_raw_input; intros a; apply P_prompt | intros answer].
    apply emits_bind.
    { destruct (negb _).
      - apply emits_bind; [apply emits_log, P_print | intros _].
        apply emits_bind; [apply emits_git_cleanup | intros _].
        apply emits_sys_exit.
      - apply emits_ret. }
    intros _.
    repeat (apply emits_bind; [apply emits_log, P_print | intros _]).
    apply emits_bind; [apply emits_chdir | intros _].
    apply emits_bind; [| intros _; apply emits_ret].
    apply emits_run_command; [intros d; apply P_private; reflexivity | apply P_stderr].
Qed.

Lemma emits_merge_loop self main branches :
  gated P self -> emits P (FedoraGitReleaser.merge_loop env self main branches).
Proof.
  intros Hg. induction branches as [| branch rest IH]; simpl.
  - apply emits_ret.
  - apply emits_bind; [apply emits_log, P_print | intros _].
    apply emits_bind;
      [apply emits_run_command; [intros d; apply P_private; reflexivity | apply P_stderr]
      | intros _].
    apply emits_bind;
      [apply emits_run_command; [intros d; apply P_private; reflexivity | apply P_stderr]
      | intros _].
    apply emits_bind.
    { destruct (dry_run self) eqn:Hdry.
      - apply emits_print_dry_run_warning.
      - apply emits_bind; [apply emits_log, P_print | intros _].
        apply emits_bind; [| intros _; apply emits_ret].
        apply emits_run_command;
          [intros d; apply (gated_live self _ _ Hg Hdry) | apply P_stderr]. }
    intros _.
    apply emits_bind; [apply emits_git_build; exact Hg | intros _].
    apply emits_bind; [apply emits_log, P_print | intros _].
    exact IH.
Qed.

Lemma emits_push_and_build self main :
  gated P self -> emits P (FedoraGitReleaser.push_and_build env self main).
Proof.
  intros Hg. unfold FedoraGitReleaser.push_and_build.
  apply emits_bind.
  { destruct (dry_run self) eqn:Hdry.
    - apply emits_print_dry_run_warning.
    - apply emits_bind; [apply emits_log, P_print | intros _].
      apply emits_bind; [| intros _; apply emits_ret].
      apply emits_run_command;
        [intros d; apply (gated_live self _ _ Hg Hdry) | apply P_stderr]. }
  intros _.
  apply emits_bind; [apply emits_git_build; exact Hg | intros _].
  apply emits_merge_loop. exact Hg.
Qed.

Lemma emits_git_user_confirm_commit self co :
  gated P self -> emits P (FedoraGitReleaser._git_user_confirm_commit env self co).
Proof.
  intros Hg. unfold FedoraGitReleaser._git_user_confirm_commit.
  apply emits_bind; [apply emits_banner | intros _].
  destruct (git_branches self) as [| main others].
  - apply emits_raise.
  - apply emits_bind; [apply emits_commit_gate | intros _].
    apply emits_push_and_build. exact Hg.
Qed.

Lemma emits_write_lines name lines : emits P (CvsReleaser.write_lines name lines).
Proof.
  induction lines as [| line rest IH]; simpl.
  - apply emits_ret.
  - apply emits_bind; [apply emits_os_write | intros _; exact IH].
Qed.

Lemma emits_print_lines lines : emits P (CvsReleaser.print_lines lines).
Proof.
  induction lines as [| line rest IH]; simpl.
  - apply emits_ret.
  - apply emits_bind; [apply emits_log, P_print | intros _; exact IH].
Qed.

Lemma emits_cvs_user_confirm_commit_msg self diff_output :
  gated P self ->
  emits P (CvsReleaser._cvs_user_confirm_commit_msg env self diff_output).
Proof.
  intros Hg. unfold CvsReleaser._cvs_user_confirm_commit_msg.
  apply emits_bind; [apply emits_mkstemp | intros name].
  apply emits_bind; [apply emits_os_write | intros _].
  apply emits_bind; [apply emits_write_lines | intros _].
  repeat (apply emits_bind; [apply emits_log, P_print | intros _]).
  apply emits_bind; [apply emits_read_back | intros content].
  apply emits_bind; [apply emits_print_lines | intros _].
  repeat (apply emits_bind; [apply emits_log, P_print | intros _]).
  apply emits_bind; [apply emits_raw_input; intros a; apply P_prompt | intros answer].
  apply emits_bind.
  { destruct (bool_decide _).
    - apply emits_subprocess_call, P_spawn.
    - apply emits_ret. }
  intros _.
  apply emits_bind; [| intros _; apply emits_unlink].
  destruct (dry_run self) eqn:Hdry.
  - apply emits_print_dry_run_warning.
  - apply emits_bind; [apply emits_log, P_print | intros _].
    apply emits_bind; [apply emits_chdir | intros _].
    apply emits_bind; [| intros _; apply emits_ret].
    apply emits_run_command;
      [intros d; apply (gated_live self _ _ Hg Hdry) | apply P_stderr].
Qed.

Lemma emits_cvs_user_confirm_commit self :
  gated P self -> emits P (CvsReleaser._cvs_user_confirm_commit env self).
Proof.
  intros Hg. unfold CvsReleaser._cvs_user_confirm_commit.
  apply emits_bind; [apply emits_banner | intros _].
  apply emits_bind; [apply emits_chdir | intros _].
  apply emits_bind; [apply emits_getstatusoutput; intros d; apply P_private; reflexivity |].
  intros [status diff_output].
  repeat (apply emits_bind; [apply emits_log, P_print | intros _]).
  apply emits_bind; [apply emits_raw_input; intros a; apply P_prompt | intros answer].
  apply emits_bind.
  { destruct (negb _).
    - apply emits_bind; [apply emits_log, P_print | intros _].
      apply emits_bind; [apply emits_cvs_cleanup | intros _].
      apply emits_sys_exit.
    - apply emits_ret. }
  intros _. apply emits_cvs_user_confirm_commit_msg. exact Hg.
Qed.

End GateTraces.

Lemma emits_elem {A} P (m : M A) e w :
  emits P m -> e ∈ trace w -> e ∈ trace (snd (m w)).
Proof.
  intros Hm He. destruct (Hm w) as (evs & -> & _). apply elem_of_app. left. exact He.
Qed.

Lemma banner_run text w :
  banner text w
  = (Ret tt, mkWorld (cwd w) (dirs w) (files w) (trace w ++ banner_events text)).
Proof.
  unfold banner, bind, print, log, banner_events. simpl.
  rewrite <- !app_assoc. reflexivity.
Qed.

Lemma run_command_logs env cmd w :
  Shell (cwd w) cmd ∈ trace (snd (run_command env cmd w)).
Proof.
  unfold run_command, bind, getstatusoutput. simpl.
  destruct (shell env (trace w) (cwd w) cmd) as [status output].
  destruct (Nat.ltb 0 status); simpl.
  - apply elem_of_app. left. apply elem_of_app. right.
    apply list_elem_of_singleton. reflexivity.
  - apply elem_of_app. right. apply list_elem_of_singleton. reflexivity.
Qed.


(** The git gate on a diff that is not blank: the diff is shown, the
    operator is asked, and on a yes the commit command reaches the shell,
    whether or not the releaser runs dry. *)
Lemma commit_gate_review env self co main w status diff :
  is_Some (dirs w !! co) ->
  shell env (trace w) co "git diff --cached" = (status, diff) ->
  PyStr.strip diff <> "" ->
  let t := trace (snd (FedoraGitReleaser.commit_gate env self co main w)) in
  let answer :=
    operator env (trace w ++ [Shell co "git diff --cached"; Print diff; Print "";
                              Print review_request]) proceed_question in
  Print diff ∈ t
  /\ Prompt proceed_question answer ∈ t
  /\ (PyStr.lower answer ∈ affirmative ->
      is_Some (dirs w !! cvs_package_workdir self) ->
      Shell (cvs_package_workdir self) (fedpkg_commit self) ∈ t).
Proof.
  intros Hco Hsh Hdiff t answer. subst t.
  unfold FedoraGitReleaser.commit_gate.
  rewrite (chdir_step _ _ _ Hco), getstatusoutput_step.
  cbn [cwd dirs files trace]. rewrite Hsh.
  rewrite (bool_decide_eq_false_2 _ Hdiff).
  rewrite !print_step, raw_input_step. flatten_trace.
  change (operator env _ "Do you wish to proceed with commit? [y/n] ") with answer.
  assert (Hmono : forall b : bool,
    emits any_event
      (bind (if b
             then bind (print "Fine, you're on your own!")
                    (fun _ => bind (FedoraGitReleaser.cleanup env self)
                                (fun _ => sys_exit 1))
             else ret tt)
         (fun _ => bind (print "Proceeding with commit.")
            (fun _ => bind (print "")
               (fun _ => bind (chdir (cvs_package_workdir self))
                  (fun _ => bind (run_command env (fedpkg_commit self))
                     (fun _ => ret tt))))))).
  { intros b. apply emits_bind.
    - destruct b; [| apply emits_ret].
      apply emits_bind; [apply emits_log; exact I | intros _].
      apply emits_bind; [| intros _; apply emits_sys_exit].
      apply emits_git_cleanup; intros; exact I.
    - intros _. emits_tac; exact I. }
  split; [| split].
  - apply (emits_elem any_event); [apply Hmono |].
    cbn [trace]. apply elem_of_app. right.
    apply elem_of_cons. right. apply elem_of_cons. left. reflexivity.
  - apply (emits_elem any_event); [apply Hmono |].
    cbn [trace]. apply elem_of_app. right.
    do 4 (apply elem_of_cons; right). apply elem_of_cons. left. reflexivity.
  - intros Hyes Hpkg.
    rewrite (bool_decide_eq_true_2 _ Hyes). cbn [negb].
    rewrite ret_step, !print_step.
    rewrite chdir_step by (cbn [dirs]; exact Hpkg).
    apply occurs_later; [intros _; apply emits_ret |].
    apply (run_command_logs env (fedpkg_commit self)
             (mkWorld (cvs_package_workdir self) _ _ _)).
Qed.

Lemma warning_step {B} cmd (k : unit -> M B) w :
  bind (Releaser.print_dry_run_warning cmd) k w
  = k tt (mkWorld (cwd w) (dirs w) (files w)
            (trace w ++ [Print ""; dry_run_warning cmd; Print ""])).
Proof.
  unfold Releaser.print_dry_run_warning, bind, print, log, dry_run_warning.
  flatten_trace. reflexivity.
Qed.

(** The git gate inside [_git_user_confirm_commit], on a diff that is not
    blank. *)
Lemma git_confirm_commit_review env self co main others w status diff :
  git_branches self = main :: others ->
  is_Some (dirs w !! co) ->
  shell env (trace w ++ banner_events ("Running 'git diff' in: " +:+ co))
        co "git diff --cached" = (status, diff) ->
  PyStr.strip diff <> "" ->
  let t := trace (snd (FedoraGitReleaser._git_user_confirm_commit env self co w)) in
  let answer :=
    operator env
      (trace w ++ banner_events ("Running 'git diff' in: " +:+ co)
         ++ [Shell co "git diff --cached"; Print diff; Print ""; Print review_request])
      proceed_question in
  Print diff ∈ t
  /\ Prompt proceed_question answer ∈ t
  /\ (PyStr.lower answer ∈ affirmative ->
      is_Some (dirs w !! cvs_package_workdir self) ->
      Shell (cvs_package_workdir self) (fedpkg_commit self) ∈ t).
Proof.
  intros Hbr Hco Hsh Hdiff t answer. subst t.
  unfold FedoraGitReleaser._git_user_confirm_commit.
  rewrite (bind_Ret _ _ w tt _ (banner_run _ w)). rewrite Hbr.
  set (wb := mkWorld (cwd w) (dirs w) (files w)
               (trace w ++ banner_events ("Running 'git diff' in: " +:+ co))).
  destruct (commit_gate_review env self co main wb status diff Hco Hsh Hdiff)
    as (Hshow & Hask & Hcommit).
  assert (Hmono : forall a : unit,
             emits any_event (FedoraGitReleaser.push_and_build env self main)).
  { intros _. apply emits_push_and_build; try (intros; exact I).
    right. intros; exact I. }
  unfold wb in Hask, Hcommit. cbn [trace] in Hask, Hcommit.
  rewrite <- app_assoc in Hask, Hcommit.
  split; [| split].
  - apply occurs_later; [exact Hmono | exact Hshow].
  - apply occurs_later; [exact Hmono | exact Hask].
  - intros Hyes Hpkg. apply occurs_later; [exact Hmono |].
    apply Hcommit; assumption.
Qed.

(** The CVS gate: whatever the diff, it is shown and the operator is
    asked. *)
Lemma cvs_confirm_commit_review env self w status diff :
  is_Some (dirs w !! cvs_package_workdir self) ->
  shell env (trace w ++ banner_events ("Running 'cvs diff -u' in: "
                                         +:+ cvs_package_workdir self))
        (cvs_package_workdir self) "cvs diff -u" = (status, diff) ->
  let t := trace (snd (CvsReleaser._cvs_user_confirm_commit env self w)) in
  let answer :=
    operator env
      (trace w ++ banner_events ("Running 'cvs diff -u' in: " +:+ cvs_package_workdir self)
         ++ [Shell (cvs_package_workdir self) "cvs diff -u"; Print diff; Print "";
             Print review_request])
      proceed_question in
  Print diff ∈ t /\ Prompt proceed_question answer ∈ t.
Proof.
  intros Hpkg Hsh t answer. subst t.
  unfold CvsReleaser._cvs_user_confirm_commit.
  rewrite (bind_Ret _ _ w tt _ (banner_run _ w)).
  rewrite chdir_step by (cbn [dirs]; exact Hpkg).
  rewrite getstatusoutput_step. cbn [cwd dirs files trace]. rewrite Hsh.
  rewrite !print_step, raw_input_step. flatten_trace.
  change (operator env _ "Do you wish to proceed with commit? [y/n] ") with answer.
  assert (Hmono : forall b : bool,
    emits any_event
      (bind (if b
             then bind (print "Fine, you're on your own!")
                    (fun _ => bind (CvsReleaser.cleanup env self)
                                (fun _ => sys_exit 1))
             else ret tt)
         (fun _ => CvsReleaser._cvs_user_confirm_commit_msg env self diff))).
  { intros b. apply emits_bind.
    - destruct b; [| apply emits_ret].
      apply emits_bind; [apply emits_log; exact I | intros _].
      apply emits_bind; [| intros _; apply emits_sys_exit].
      apply emits_cvs_cleanup; intros; exact I.
    - intros _. apply emits_cvs_user_confirm_commit_msg; try (intros; exact I).
      right. intros; exact I. }
  split.
  - apply (emits_elem any_event); [apply Hmono |].
    cbn [trace]. apply elem_of_app. right. apply elem_of_app. right.
    apply elem_of_cons. right. apply elem_of_cons. left. reflexivity.
  - apply (emits_elem any_event); [apply Hmono |].
    cbn [trace]. apply elem_of_app. right. apply elem_of_app. right.
    do 4 (apply elem_of_cons; right). apply elem_of_cons. left. reflexivity.
Qed.


(* ===================================================================== *)
(** * The commit message step                                              *)
(* ===================================================================== *)

(** When the commit message step returns, its last two moves were the
    commit (or the warning that stands for it) and the removal of the
    scratch file that [mkstemp] named at the start. *)
Lemma commit_msg_Ret_inv env self diff_output w w' :
  CvsReleaser._cvs_user_confirm_commit_msg env self diff_output w = (Ret tt, w') ->
  exists w0,
    bind (if dry_run self
          then Releaser.print_dry_run_warning
                 ("cvs commit -F " +:+ mkstemp_name env (trace w))
          else bind (print "Proceeding with commit.")
                 (fun _ => bind (chdir (cvs_package_workdir self))
                    (fun _ => bind (run_command env
                                      ("cvs commit -F " +:+ mkstemp_name env (trace w)))
                       (fun _ => ret tt))))
         (fun _ => unlink (mkstemp_name env (trace w))) w0
    = (Ret tt, w').
Proof.
  unfold CvsReleaser._cvs_user_confirm_commit_msg. intros H.
  apply bind_Ret_inv in H as (name & w1 & Hname & H).
  unfold mkstemp in Hname. injection Hname as <- _.
  do 12 (apply bind_Ret_inv in H as (? & ? & _ & H)).
  eexists. exact H.
Qed.

Lemma commit_msg_removes_scratch_on_return env self diff_output w w' :
  CvsReleaser._cvs_user_confirm_commit_msg env self diff_output w = (Ret tt, w') ->
  files w' !! mkstemp_name env (trace w) = None.
Proof.
  intros H. apply commit_msg_Ret_inv in H as (w0 & H).
  apply bind_Ret_inv in H as (? & w1 & _ & H).
  unfold unlink in H. destruct (files w1 !! _); [| discriminate H].
  injection H as <-. simpl. apply lookup_delete_eq.
Qed.

(** C8, at the inputs where it fails.  The run is live and the CVS server
    turns the commit down: [run_command] raises, [os.unlink] is never
    reached, and the scratch file is still there with the message in it.
    The same happens before the commit when the operator asks for an editor
    that cannot be started. *)
Theorem failed_commit_leaves_scratch_file :
  let r := CvsReleaser._cvs_user_confirm_commit_msg failing_commit_env demo_self
             "+Patch9: fix.patch" release_world in
  let r' := CvsReleaser._cvs_user_confirm_commit_msg no_editor_env demo_self
              "+Patch9: fix.patch" release_world in
  (outcome_of r = Raise "Error running command"
   /\ "cvs commit -F /tmp/tmpmsg" ∈ commands_run (trace (snd r))
   /\ files (snd r) !! "/tmp/tmpmsg" = Some ("Update pkg to 1.0-1" +:+ PyStr.newline))
  /\ (outcome_of r' = Raise "OSError: subprocess"
      /\ Spawn ["/opt/missing/ed"; "/tmp/tmpmsg"] ∈ trace (snd r')
      /\ files (snd r') !! "/tmp/tmpmsg"
         = Some ("Update pkg to 1.0-1" +:+ PyStr.newline)).
Proof.
  split; (split; [vm_compute; reflexivity | split]).
  - apply (bool_decide_unpack _). vm_compute. exact I.
  - vm_compute. reflexivity.
  - apply (bool_decide_unpack _). vm_compute. exact I.
  - vm_compute. reflexivity.
Qed.

(* ===================================================================== *)
(** * Dry run                                                              *)
(* ===================================================================== *)

(** C6, as the code has it.  Under dry-run, [_git_user_confirm_commit] and
    [_cvs_user_confirm_commit] send no push, no build request and no CVS
    commit to the shell; the git variant prints the dry-run warning for the
    push and for the build, the CVS variant for the commit.  The review is
    not skipped: the diff is printed and the operator is asked.  The git
    variant's own [fedpkg commit] is not gated: on a yes it is run under
    dry-run too. *)
Theorem dry_run_at_the_commit_gates (env : Env) self w :
  dry_run self = true ->
  (forall co,
     emits keeps_private (FedoraGitReleaser._git_user_confirm_commit env self co))
  /\ emits keeps_private (CvsReleaser._cvs_user_confirm_commit env self)
  /\ (forall main,
        let t := trace (snd (FedoraGitReleaser.push_and_build env self main w)) in
        dry_run_warning "fedpkg push" ∈ t
        /\ dry_run_warning "fedpkg build --nowait" ∈ t)
  /\ (forall diff w',
        CvsReleaser._cvs_user_confirm_commit_msg env self diff w = (Ret tt, w') ->
        dry_run_warning ("cvs commit -F " +:+ mkstemp_name env (trace w)) ∈ trace w')
  /\ (forall co main others status diff,
        git_branches self = main :: others ->
        is_Some (dirs w !! co) ->
        shell env (trace w ++ banner_events ("Running 'git diff' in: " +:+ co))
              co "git diff --cached" = (status, diff) ->
        PyStr.strip diff <> "" ->
        let t := trace (snd (FedoraGitReleaser._git_user_confirm_commit env self co w)) in
        let answer :=
          operator env
            (trace w ++ banner_events ("Running 'git diff' in: " +:+ co)
               ++ [Shell co "git diff --cached"; Print diff; Print "";
                   Print review_request])
            proceed_question in
        Print diff ∈ t
        /\ Prompt proceed_question answer ∈ t
        /\ (PyStr.lower answer ∈ affirmative ->
            is_Some (dirs w !! cvs_package_workdir self) ->
            Shell (cvs_package_workdir self) (fedpkg_commit self) ∈ t))
  /\ (forall status diff,
        is_Some (dirs w !! cvs_package_workdir self) ->
        shell env (trace w ++ banner_events ("Running 'cvs diff -u' in: "
                                               +:+ cvs_package_workdir self))
              (cvs_package_workdir self) "cvs diff -u" = (status, diff) ->
        let t := trace (snd (CvsReleaser._cvs_user_confirm_commit env self w)) in
        Print diff ∈ t
        /\ exists answer, Prompt proceed_question answer ∈ t).
Proof.
  intros Hdry.
  assert (Hgated : forall P, gated P self) by (intros P; left; exact Hdry).
  split; [| split; [| split; [| split; [| split]]]].
  - intros co. apply emits_git_user_confirm_commit; try (intros; exact I).
    + intros d cmd Hc. exact Hc.
    + apply Hgated.
  - apply emits_cvs_user_confirm_commit; try (intros; exact I).
    + intros d cmd Hc. exact Hc.
    + apply Hgated.
  - intros main t. subst t.
    unfold FedoraGitReleaser.push_and_build, FedoraGitReleaser._build.
    rewrite Hdry, !warning_step.
    assert (Hmono : emits any_event
                      (FedoraGitReleaser.merge_loop env self main
                         (tail (git_branches self)))).
    { apply emits_merge_loop; try (intros; exact I). apply Hgated. }
    split; apply (emits_elem any_event _ _ _ Hmono); flatten_trace;
      apply elem_of_app; right.
    + apply elem_of_cons. right. apply elem_of_cons. left. reflexivity.
    + do 4 (apply elem_of_cons; right). apply elem_of_cons. left. reflexivity.
  - intros diff w' H. apply commit_msg_Ret_inv in H as (w0 & H).
    rewrite Hdry, warning_step in H.
    unfold unlink in H. cbn [files] in H.
    destruct (files w0 !! _); [| discriminate H].
    injection H as <-. cbn [trace].
    apply elem_of_app. right. apply elem_of_cons. right.
    apply elem_of_cons. left. reflexivity.
  - intros co main others status diff Hbr Hco Hsh Hdiff.
    apply (git_confirm_commit_review env self co main others w status diff);
      assumption.
  - intros status diff Hpkg Hsh t.
    destruct (cvs_confirm_commit_review env self w status diff Hpkg Hsh)
      as [Hshow Hask].
    split; [exact Hshow | eexists; exact Hask].
Qed.

Lemma dry_run_at_the_commit_gates_witness :
  dry_run_warning "fedpkg push"
    ∈ trace (snd (FedoraGitReleaser.push_and_build agreeable_env dry_self "master"
                    release_world))
  /\ Shell "/work/pkg" (fedpkg_commit dry_self)
       ∈ trace (snd (FedoraGitReleaser._git_user_confirm_commit agreeable_env dry_self
                       "/work/pkg" release_world)).
Proof.
  destruct (dry_run_at_the_commit_gates agreeable_env dry_self release_world eq_refl)
    as (_ & _ & Hwarn & _ & Hgit & _).
  split.
  - apply (Hwarn "master").
  - apply (Hgit "/work/pkg" "master" ["f15"] 0 "+Patch9: fix.patch").
    + reflexivity.
    + exists ["F-15"]. vm_compute. reflexivity.
    + vm_compute. reflexivity.
    + vm_compute. intros Habs. discriminate Habs.
    + apply (bool_decide_unpack _). vm_compute. exact I.
    + exists ["F-15"]. vm_compute. reflexivity.
Defined.

(** C6 as stated fails in the git variant: the releaser runs dry, the
    operator agrees, and [fedpkg commit] reaches the shell with no warning
    printed in its place. *)
Lemma dry_run_still_commits_in_git :
  dry_run dry_self = true
  /\ fedpkg_commit dry_self
       ∈ commands_run
           (trace (snd (FedoraGitReleaser._git_user_confirm_commit agreeable_env
                          dry_self "/work/pkg" release_world)))
  /\ (dry_run_warning (fedpkg_commit dry_self)
        ∉ trace (snd (FedoraGitReleaser._git_user_confirm_commit agreeable_env
                        dry_self "/work/pkg" release_world))).
Proof.
  split; [reflexivity | split].
  - apply (bool_decide_unpack _). vm_compute. exact I.
  - apply (bool_decide_eq_false_1 _). vm_compute. reflexivity.
Qed.

(* ===================================================================== *)
(** * Construction of a releaser                                           *)
(* ===================================================================== *)

Lemma append_cons c p s : String c p +:+ s = String c (p +:+ s).
Proof. reflexivity. Qed.

Lemma prefix_split p : forall s,
  String.prefix p s = true -> s = p +:+ PyText.drop (String.length p) s.
Proof.
  induction p as [| c p IH]; intros s H.
  - reflexivity.
  - destruct s as [| x s]; [discriminate H |].
    simpl in H. destruct (ascii_dec c x) as [-> | Hne]; [| discriminate H].
    rewrite append_cons. simpl. f_equal. apply IH. exact H.
Qed.

Lemma prefix_app p s : String.prefix p (p +:+ s) = true.
Proof.
  induction p as [| c p IH].
  - destruct s; reflexivity.
  - rewrite append_cons. simpl.
    destruct (ascii_dec c c) as [_ | Hne]; [exact IH | contradiction].
Qed.

Lemma drop_app p s : PyText.drop (String.length p) (p +:+ s) = s.
Proof.
  induction p as [| c p IH]; [reflexivity |].
  rewrite append_cons. simpl. exact IH.
Qed.

Lemma builder_args_fold k : forall (l : list (string * string)) (acc : gmap string string),
  NoDup l.*1 ->
  fold_left ReleaserInit.builder_arg_step l acc !! k
  = match (list_to_map l : gmap string string) !! ("builder." +:+ k) with
    | Some v => Some v
    | None => acc !! k
    end.
Proof.
  induction l as [| [opt value] l IH]; intros acc Hnd.
  - simpl. rewrite lookup_empty. reflexivity.
  - apply NoDup_cons in Hnd as [Hfresh Hnd].
    cbn [fold_left list_to_map foldr]. rewrite (IH _ Hnd). clear IH.
    destruct (decide (opt = "builder." +:+ k)) as [-> | Hne].
    + rewrite lookup_insert_eq.
      rewrite (not_elem_of_list_to_map_1 l ("builder." +:+ k)) by exact Hfresh.
      unfold ReleaserInit.builder_arg_step, PyStr.startswith.
      rewrite prefix_app, drop_app. apply lookup_insert_eq.
    + rewrite lookup_insert_ne by exact Hne.
      destruct (list_to_map l !! ("builder." +:+ k)); [reflexivity |].
      unfold ReleaserInit.builder_arg_step, PyStr.startswith.
      destruct (String.prefix "builder." opt) eqn:Hp; [| reflexivity].
      apply lookup_insert_ne. intros Hk. apply Hne.
      rewrite (prefix_split _ _ Hp) at 1. rewrite Hk. reflexivity.
Qed.

(** X2.  Builder arguments.  For a target that has a section, the parsed
    arguments hold, under each key [k], exactly what the section holds under
    ["builder." k]: every prefixed option is passed on with the prefix cut
    off, nothing else is, and the world is left alone. *)
Theorem parse_builder_args_lookup releaser_config target section w :
  releaser_config !! target = Some section ->
  exists args,
    ReleaserInit._parse_builder_args releaser_config target w = (Ret args, w)
    /\ forall k, args !! k = section !! ("builder." +:+ k).
Proof.
  intros Hsec. unfold ReleaserInit._parse_builder_args. rewrite Hsec.
  eexists. split; [reflexivity |].
  intros k. rewrite builder_args_fold by apply NoDup_fst_map_to_list.
  rewrite list_to_map_to_list, lookup_empty.
  destruct (section !! ("builder." +:+ k)); reflexivity.
Qed.

Lemma require_options_present cfg target opts w :
  (forall o, o ∈ opts -> has_option cfg target o = true) ->
  ReleaserInit.require_options cfg target opts w = (Ret tt, w).
Proof.
  induction opts as [| o rest IH]; intros Hall.
  - reflexivity.
  - simpl. rewrite (Hall o) by (apply elem_of_cons; left; reflexivity).
    apply IH. intros o' Ho'. apply Hall. apply elem_of_cons. right. exact Ho'.
Qed.

Lemma require_options_missing cfg target pre o post w :
  (forall o', o' ∈ pre -> has_option cfg target o' = true) ->
  has_option cfg target o = false ->
  ReleaserInit.require_options cfg target (pre ++ o :: post) w
  = (Raise ("Release target '" +:+ target
              +:+ "' missing required option '" +:+ o +:+ "'"), w).
Proof.
  induction pre as [| p pre IH]; intros Hall Hmiss.
  - simpl. rewrite Hmiss. reflexivity.
  - simpl. rewrite (Hall p) by (apply elem_of_cons; left; reflexivity).
    apply IH; [| exact Hmiss].
    intros o' Ho'. apply Hall. apply elem_of_cons. right. exact Ho'.
Qed.

(** X1.  Required options.  The check returns, leaving the world alone, when the
    target has every option of the global list and of the class's own list;
    otherwise it raises for the first option that is missing, the global
    list being gone through first. *)
Theorem check_releaser_config_first_missing cfg target required w :
  ((forall o, o ∈ ReleaserInit.GLOBAL_REQUIRED_CONFIG ++ required ->
              has_option cfg target o = true) ->
   ReleaserInit._check_releaser_config cfg target required w = (Ret tt, w))
  /\ (forall pre o post,
        ReleaserInit.GLOBAL_REQUIRED_CONFIG ++ required = pre ++ o :: post ->
        (forall o', o' ∈ pre -> has_option cfg target o' = true) ->
        has_option cfg target o = false ->
        ReleaserInit._check_releaser_config cfg target required w
        = (Raise ("Release target '" +:+ target
                    +:+ "' missing required option '" +:+ o +:+ "'"), w)).
Proof.
  assert (Hcat : forall opts1 opts2 w0,
             bind (ReleaserInit.require_options cfg target opts1)
                  (fun _ => ReleaserInit.require_options cfg target opts2) w0
             = ReleaserInit.require_options cfg target (opts1 ++ opts2) w0).
  { intros opts1 opts2 w0. induction opts1 as [| o1 rest IH]; simpl.
    - reflexivity.
    - destruct (negb (has_option cfg target o1)); [reflexivity | exact IH]. }
  unfold ReleaserInit._check_releaser_config. rewrite Hcat. split.
  - intros Hall. apply require_options_present. exact Hall.
  - intros pre o post -> Hpre Hmiss. apply require_options_missing; assumption.
Qed.

(* ===================================================================== *)
(** * More on file synchronisation                                         *)
(* ===================================================================== *)

Lemma bind_assoc {A B C} (m : M A) (f : A -> M B) (k : B -> M C) w :
  bind (bind m f) k w = bind m (fun a => bind (f a) k) w.
Proof. unfold bind. destruct (m w) as [[a | c | e] w1]; reflexivity. Qed.

Lemma path_exists_step {B} d n (k : bool -> M B) w :
  bind (path_exists d n) k w = k (present w d n) w.
Proof. reflexivity. Qed.

Lemma run_command_step {B} env cmd (k : string -> M B) w :
  bind (run_command env cmd) k w
  = if Nat.ltb 0 (fst (shell env (trace w) (cwd w) cmd))
    then (Raise "Error running command",
          mkWorld (cwd w) (dirs w) (files w)
            (trace w ++ [Shell (cwd w) cmd;
                         Stderr ("Error running command: " +:+ cmd +:+ PyStr.newline
                                   +:+ snd (shell env (trace w) (cwd w) cmd))]))
    else k (snd (shell env (trace w) (cwd w) cmd))
           (mkWorld (cwd w) (dirs w) (files w) (trace w ++ [Shell (cwd w) cmd])).
Proof.
  unfold run_command. rewrite bind_assoc, getstatusoutput_step.
  destruct (shell env (trace w) (cwd w) cmd) as [status output]. cbn [fst snd].
  destruct (Nat.ltb 0 status).
  - unfold bind, stderr_write, log, raise. flatten_trace. reflexivity.
  - reflexivity.
Qed.

Lemma cp_effect_run d n w :
  cp_effect d n w = (Ret tt, snd (cp_effect d n w))
  /\ trace (snd (cp_effect d n w)) = trace w
  /\ cwd (snd (cp_effect d n w)) = cwd w.
Proof.
  unfold cp_effect. destruct (dirs w !! d); [destruct (present w d n) |];
    repeat split; reflexivity.
Qed.

Lemma cp_effect_present d name w :
  is_Some (dirs w !! d) ->
  is_Some (dirs (snd (cp_effect d name w)) !! d)
  /\ forall n, present (snd (cp_effect d name w)) d n
               = present w d n || bool_decide (n = name).
Proof.
  intros [l Hl]. unfold cp_effect. rewrite Hl.
  destruct (present w d name) eqn:Hp; cbn [snd].
  - split; [exists l; exact Hl |].
    intros n. destruct (bool_decide (n = name)) eqn:Hn.
    + apply bool_decide_eq_true in Hn. subst n. rewrite Hp. reflexivity.
    + rewrite orb_false_r. reflexivity.
  - split; [cbn [dirs]; rewrite lookup_insert_eq; eexists; reflexivity |].
    intros n. unfold present. cbn [dirs]. rewrite Hl, lookup_insert_eq.
    rewrite <- orb_assoc. f_equal.
    apply eq_true_iff_eq. rewrite orb_true_iff, !bool_decide_eq_true.
    rewrite elem_of_app, list_elem_of_singleton. reflexivity.
Qed.

Lemma cp_effect_listing d name w l :
  dirs w !! d = Some l ->
  exists l', dirs (snd (cp_effect d name w)) !! d = Some l'
    /\ (forall f, f ∈ l -> f ∈ l')
    /\ (forall f, f ∈ l' -> f ∈ l \/ f = name).
Proof.
  intros Hl. unfold cp_effect. rewrite Hl.
  destruct (present w d name); cbn [snd].
  - exists l. split; [exact Hl | split; intros f Hf; [exact Hf | left; exact Hf]].
  - exists (l ++ [name]). cbn [dirs]. rewrite lookup_insert_eq.
    split; [reflexivity | split; intros f Hf].
    + apply elem_of_app. left. exact Hf.
    + apply elem_of_app in Hf as [Hf | Hf]; [left; exact Hf |].
      right. apply list_elem_of_singleton in Hf. exact Hf.
Qed.

Section MoreSyncFacts.
Context (env : Env).

(** One round of the copy loop, as far as the directory goes. *)
Lemma copy_loop_unfold dest copy_me rest acc w new w' :
  Releaser.copy_loop env dest (copy_me :: rest) acc w = (Ret new, w') ->
  exists w3,
    dirs w3 = dirs w
    /\ Releaser.copy_loop env dest rest
         (if present w dest (PyStr.basename copy_me) then acc
          else acc ++ [PyStr.basename copy_me])
         (snd (cp_effect dest (PyStr.basename copy_me) w3)) = (Ret new, w').
Proof.
  cbn [Releaser.copy_loop]. rewrite path_exists_step. intros H.
  destruct (present w dest (PyStr.basename copy_me)); cbn [negb] in H;
    rewrite bind_assoc, print_step, ret_step, run_command_step in H;
    cbn [cwd dirs files trace] in H;
    destruct (Nat.ltb 0 _); try discriminate H;
    (eexists (mkWorld _ (dirs w) _ _); split; [reflexivity |]);
    rewrite (bind_Ret _ _ _ tt _ (proj1 (cp_effect_run _ _ _))) in H; exact H.
Qed.

Lemma copy_loop_new_exactly dest srcs : forall acc w new w',
  is_Some (dirs w !! dest) ->
  Releaser.copy_loop env dest srcs acc w = (Ret new, w') ->
  forall f, f ∈ new <->
    (f ∈ acc) \/ (f ∈ map PyStr.basename srcs /\ present w dest f = false).
Proof.
  induction srcs as [| copy_me rest IH]; intros acc w new w' Hd H f.
  - injection H as <- _. split; [intros Hf; left; exact Hf |].
    intros [Hf | [Hf _]]; [exact Hf | apply elem_of_nil in Hf; contradiction].
  - apply copy_loop_unfold in H as (w3 & Hw3 & H).
    assert (Hd3 : is_Some (dirs w3 !! dest)) by (rewrite Hw3; exact Hd).
    destruct (cp_effect_present dest (PyStr.basename copy_me) w3 Hd3) as [Hd4 Hp4].
    rewrite (IH _ _ _ _ Hd4 H f), Hp4, (present_same_dirs w w3 dest f Hw3).
    cbn [map]. rewrite elem_of_cons, orb_false_iff, bool_decide_eq_false.
    destruct (present w dest (PyStr.basename copy_me)) eqn:Hhere.
    + split.
      * intros [Hf | (Hf & Hnp & Hne)]; [left; exact Hf |].
        right. split; [right; exact Hf | exact Hnp].
      * intros [Hf | ([-> | Hf] & Hnp)]; [left; exact Hf | |].
        -- rewrite Hhere in Hnp. discriminate Hnp.
        -- right. split; [exact Hf | split; [exact Hnp |]].
           intros ->. rewrite Hhere in Hnp. discriminate Hnp.
    + rewrite elem_of_app, list_elem_of_singleton. split.
      * intros [[Hf | ->] | (Hf & Hnp & Hne)].
        -- left. exact Hf.
        -- right. split; [left; reflexivity | exact Hhere].
        -- right. split; [right; exact Hf | exact Hnp].
      * intros [Hf | ([-> | Hf] & Hnp)].
        -- left. left. exact Hf.
        -- left. right. reflexivity.
        -- destruct (decide (f = PyStr.basename copy_me)) as [-> | Hne].
           ++ left. right. reflexivity.
           ++ right. split; [exact Hf | split; [exact Hnp | exact Hne]].
Qed.

Lemma copy_loop_listing dest srcs : forall acc w new w' l,
  dirs w !! dest = Some l ->
  Releaser.copy_loop env dest srcs acc w = (Ret new, w') ->
  exists l', dirs w' !! dest = Some l'
    /\ (forall f, f ∈ l -> f ∈ l')
    /\ (forall f, f ∈ l' -> f ∈ l \/ f ∈ map PyStr.basename srcs).
Proof.
  induction srcs as [| copy_me rest IH]; intros acc w new w' l Hl H.
  - injection H as _ <-. exists l.
    split; [exact Hl | split; intros f Hf; [exact Hf | left; exact Hf]].
  - apply copy_loop_unfold in H as (w3 & Hw3 & H).
    assert (Hl3 : dirs w3 !! dest = Some l) by (rewrite Hw3; exact Hl).
    destruct (cp_effect_listing dest (PyStr.basename copy_me) w3 l Hl3)
      as (l4 & Hl4 & Hsub & Hsup).
    destruct (IH _ _ _ _ _ Hl4 H) as (l' & Hl' & Hsub' & Hsup').
    exists l'. split; [exact Hl' | split; intros f Hf].
    + apply Hsub', Hsub. exact Hf.
    + cbn [map]. rewrite elem_of_cons.
      destruct (Hsup' f Hf) as [Hf4 | Hrest]; [| right; right; exact Hrest].
      destruct (Hsup f Hf4) as [Hfl | ->]; [left; exact Hfl | right; left; reflexivity].
Qed.

Lemma obsolete_loop_exactly names entries : forall acc w old w',
  Releaser.obsolete_loop names entries acc w = (Ret old, w') ->
  forall f, f ∈ old <->
    (f ∈ acc) \/ (f ∈ entries /\ (f ∉ PROTECTED_BUILD_SYS_FILES) /\ (f ∉ names)).
Proof.
  induction entries as [| filename rest IH]; intros acc w old w' H f.
  - injection H as <- _. split; [intros Hf; left; exact Hf |].
    intros [Hf | [Hf _]]; [exact Hf | apply elem_of_nil in Hf; contradiction].
  - cbn [Releaser.obsolete_loop] in H. rewrite elem_of_cons.
    destruct (bool_decide (filename ∈ PROTECTED_BUILD_SYS_FILES)) eqn:Hp;
    destruct (bool_decide (filename ∈ names)) eqn:Hn; cbn [negb andb] in H;
    try rewrite print_step in H; rewrite (IH _ _ _ _ H f); clear IH H;
    try apply bool_decide_eq_true in Hp; try apply bool_decide_eq_false in Hp;
    try apply bool_decide_eq_true in Hn; try apply bool_decide_eq_false in Hn.
    4: { rewrite elem_of_app, list_elem_of_singleton. split.
         - intros [[Hf | ->] | (Hf & Hnp & Hnn)].
           + left. exact Hf.
           + right. split; [left; reflexivity | split; assumption].
           + right. split; [right; exact Hf | split; assumption].
         - intros [Hf | ([-> | Hf] & Hnp & Hnn)].
           + left. left. exact Hf.
           + left. right. reflexivity.
           + right. split; [exact Hf | split; assumption]. }
    all: split;
      [ intros [Hf | (Hf & Hnp & Hnn)];
        [left; exact Hf | right; split; [right; exact Hf | split; assumption]]
      | intros [Hf | ([-> | Hf] & Hnp & Hnn)];
        [left; exact Hf | contradiction
        | right; split; [exact Hf | split; assumption]] ].
Qed.

(** The pieces of a sync that returned. *)
Lemma sync_files_Ret_inv srcs dest w new copied old w' :
  Releaser._sync_files env srcs dest w = (Ret (new, copied, old), w') ->
  exists l w1 w2 l2,
    dirs w !! dest = Some l
    /\ dirs w1 = dirs w
    /\ Releaser.copy_loop env dest srcs [] w1 = (Ret new, w2)
    /\ dirs w2 !! dest = Some l2
    /\ Releaser.obsolete_loop (map PyStr.basename srcs) l2 [] w2 = (Ret old, w')
    /\ copied = [].
Proof.
  unfold Releaser._sync_files. intros H.
  apply bind_Ret_inv in H as (? & w1 & Hcd & H).
  unfold chdir in Hcd. destruct (dirs w !! dest) as [l |] eqn:Hl; [| discriminate Hcd].
  injection Hcd as _ <-.
  apply bind_Ret_inv in H as (new0 & w2 & Hnew & H).
  apply bind_Ret_inv in H as (l2 & w3 & Hls & H).
  unfold listdir in Hls. destruct (dirs w2 !! dest) as [l2' |] eqn:Hl2; [| discriminate Hls].
  injection Hls as <- <-.
  apply bind_Ret_inv in H as (old0 & w4 & Hold & H).
  injection H as <- <- <- <-.
  exists l, (mkWorld dest (dirs w) (files w) (trace w)), w2, l2'.
  repeat split; try assumption; reflexivity.
Qed.

End MoreSyncFacts.

(** X4.  New files.  After a sync that returned, a name is reported as new
    exactly when it is the base name of a source and was not at the
    destination before the sync. *)
Theorem sync_files_new_exactly (env : Env) srcs dest w new copied old w' :
  Releaser._sync_files env srcs dest w = (Ret (new, copied, old), w') ->
  forall f, f ∈ new <->
    f ∈ map PyStr.basename srcs /\ present w dest f = false.
Proof.
  intros H f.
  apply sync_files_Ret_inv in H as (l & w1 & w2 & l2 & Hl & Hw1 & Hnew & _).
  assert (Hd1 : is_Some (dirs w1 !! dest)) by (rewrite Hw1; exists l; exact Hl).
  rewrite (copy_loop_new_exactly env dest srcs [] w1 new w2 Hd1 Hnew f).
  rewrite (present_same_dirs w w1 dest f Hw1). split.
  - intros [Hnil | Hf]; [apply elem_of_nil in Hnil; contradiction | exact Hf].
  - intros Hf. right. exact Hf.
Qed.

(** X5.  Obsolete files.  After a sync that returned, a name is reported as
    obsolete exactly when it was an entry of the destination before the
    sync, is not protected and is not the base name of a source. *)
Theorem sync_files_old_exactly (env : Env) srcs dest w new copied old w' :
  Releaser._sync_files env srcs dest w = (Ret (new, copied, old), w') ->
  forall f, f ∈ old <->
    f ∈ listing w dest
    /\ (f ∉ PROTECTED_BUILD_SYS_FILES)
    /\ (f ∉ map PyStr.basename srcs).
Proof.
  intros H f.
  apply sync_files_Ret_inv in H
    as (l & w1 & w2 & l2 & Hl & Hw1 & Hnew & Hl2 & Hold & _).
  assert (Hl1 : dirs w1 !! dest = Some l) by (rewrite Hw1; exact Hl).
  destruct (copy_loop_listing env dest srcs [] w1 new w2 l Hl1 Hnew)
    as (l2' & Hl2' & Hsub & Hsup).
  rewrite Hl2 in Hl2'. injection Hl2' as <-.
  rewrite (obsolete_loop_exactly _ _ _ _ _ _ Hold f).
  unfold listing. rewrite Hl. cbn [default]. split.
  - intros [Hnil | (Hf & Hnp & Hnn)]; [apply elem_of_nil in Hnil; contradiction |].
    split; [| split; assumption].
    destruct (Hsup f Hf) as [Hfl | Hsrc]; [exact Hfl | contradiction].
  - intros (Hf & Hnp & Hnn). right. split; [apply Hsub; exact Hf | split; assumption].
Qed.

(** X6.  No overlap.  After a sync that returned, no name is both new and
    obsolete, the list of copied files is empty, and a name reported as new
    is the base name of a source. *)
Theorem sync_files_new_and_old_disjoint (env : Env) srcs dest w new copied old w' :
  Releaser._sync_files env srcs dest w = (Ret (new, copied, old), w') ->
  (forall f, f ∈ new -> f ∉ old)
  /\ (forall f, f ∈ new ++ copied -> f ∈ map PyStr.basename srcs)
  /\ (forall f, f ∈ copied -> f ∉ old).
Proof.
  intros H.
  destruct (sync_files_result env _ _ _ _ _ _ _ H) as (-> & Hnew & Hold).
  split; [| split].
  - intros f Hf Ho. destruct (Hold f Ho) as [_ Hn]. apply Hn, Hnew. exact Hf.
  - intros f Hf. rewrite app_nil_r in Hf. apply Hnew. exact Hf.
  - intros f Hf. apply elem_of_nil in Hf. contradiction.
Qed.

Lemma obsolete_loop_commands names entries : forall acc w,
  commands_run (trace (snd (Releaser.obsolete_loop names entries acc w)))
  = commands_run (trace w).
Proof.
  induction entries as [| filename rest IH]; intros acc w.
  - reflexivity.
  - cbn [Releaser.obsolete_loop].
    destruct (negb _ && negb _); [| apply IH].
    rewrite print_step, IH. cbn [trace].
    rewrite commands_run_app, app_nil_r. reflexivity.
Qed.

Lemma copy_loop_commands env dest srcs : forall acc w,
  exists k,
    k <= length srcs
    /\ commands_run (trace (snd (Releaser.copy_loop env dest srcs acc w)))
       = commands_run (trace w) ++ take k (map (cp_command dest) srcs)
    /\ (forall new, fst (Releaser.copy_loop env dest srcs acc w) = Ret new ->
                    k = length srcs).
Proof.
  induction srcs as [| copy_me rest IH]; intros acc w.
  - exists 0. cbn. rewrite app_nil_r. repeat split. lia.
  - cbn [Releaser.copy_loop]. rewrite path_exists_step.
    assert (Hround : forall line acc',
      exists k,
        k <= length (copy_me :: rest)
        /\ commands_run
             (trace (snd (bind (bind (print line) (fun _ => ret acc'))
                            (fun new_files' =>
                               bind (run_command env
                                       ("cp " +:+ copy_me +:+ " "
                                          +:+ PyStr.path_join dest (PyStr.basename copy_me)))
                                 (fun _ =>
                                    bind (cp_effect dest (PyStr.basename copy_me))
                                      (fun _ => Releaser.copy_loop env dest rest new_files')))
                            w)))
           = commands_run (trace w) ++ take k (map (cp_command dest) (copy_me :: rest))
        /\ (forall new,
              fst (bind (bind (print line) (fun _ => ret acc'))
                     (fun new_files' =>
                        bind (run_command env
                                ("cp " +:+ copy_me +:+ " "
                                   +:+ PyStr.path_join dest (PyStr.basename copy_me)))
                          (fun _ =>
                             bind (cp_effect dest (PyStr.basename copy_me))
                               (fun _ => Releaser.copy_loop env dest rest new_files')))
                     w) = Ret new ->
              k = length (copy_me :: rest))).
    { intros line acc'.
      rewrite bind_assoc, print_step, ret_step, run_command_step.
      cbn [cwd dirs files trace].
      destruct (Nat.ltb 0 _).
      - exists 1. cbn [snd fst trace]. split; [cbn; lia | split].
        + rewrite !commands_run_app. cbn. rewrite app_nil_r. reflexivity.
        + intros new Habs. discriminate Habs.
      - rewrite (bind_Ret _ _ _ tt _ (proj1 (cp_effect_run _ _ _))).
        match goal with
        | |- context [Releaser.copy_loop env dest rest acc' ?w4] =>
            destruct (IH acc' w4) as (k & Hk & Hcmds & Hret);
            exists (S k); split; [cbn; lia | split];
            [ rewrite Hcmds, (proj1 (proj2 (cp_effect_run _ _ _)));
              cbn [trace]; rewrite !commands_run_app; cbn;
              rewrite app_nil_r, <- app_assoc; reflexivity
            | intros new Hnew; rewrite (Hret new Hnew); reflexivity ]
        end. }
    destruct (present w dest (PyStr.basename copy_me)); cbn [negb]; apply Hround.
Qed.

(** Whatever happens, the commands a sync hands to the shell are [cp]
    commands for the first sources of the list, in its order; when the
    sync returns every source has had its [cp]. *)
Lemma sync_files_commands_prefix (env : Env) srcs dest w :
  exists k,
    k <= length srcs
    /\ commands_run (trace (snd (Releaser._sync_files env srcs dest w)))
       = commands_run (trace w) ++ take k (map (cp_command dest) srcs)
    /\ (forall res, fst (Releaser._sync_files env srcs dest w) = Ret res ->
                    k = length srcs).
Proof.
  unfold Releaser._sync_files.
  destruct (dirs w !! dest) as [l |] eqn:Hl.
  - rewrite chdir_step by (exists l; exact Hl).
    set (w1 := mkWorld dest (dirs w) (files w) (trace w)).
    destruct (copy_loop_commands env dest srcs [] w1) as (k & Hk & Hcmds & Hret).
    change (trace w1) with (trace w) in Hcmds.
    exists k. split; [exact Hk |].
    destruct (Releaser.copy_loop env dest srcs [] w1) as [[new | c | e] w2] eqn:Hrun;
      cbn [fst snd] in Hcmds, Hret.
    + rewrite (bind_Ret _ _ _ _ _ Hrun). split; [| intros res _; apply (Hret new); reflexivity].
      unfold listdir, bind at 1.
      destruct (dirs w2 !! dest) as [l2 |]; [| exact Hcmds].
      pose proof (obsolete_loop_commands (map PyStr.basename srcs) l2 [] w2) as Ho.
      unfold bind.
      destruct (Releaser.obsolete_loop _ l2 [] w2) as [[old | c | e] w3];
        cbn [snd] in Ho |- *; rewrite <- Hcmds; exact Ho.
    + rewrite (bind_Exit _ _ _ _ _ Hrun).
      split; [exact Hcmds | intros res Habs; discriminate Habs].
    + rewrite (bind_Raise _ _ _ _ _ Hrun).
      split; [exact Hcmds | intros res Habs; discriminate Habs].
  - exists 0. split; [lia |].
    unfold bind, chdir. rewrite Hl. cbn. rewrite app_nil_r.
    split; [reflexivity | intros res Habs; discriminate Habs].
Qed.

(* ===================================================================== *)
(** * Selection and removal                                                *)
(* ===================================================================== *)

Lemma wanted_extension_existsb filename : forall extensions b,
  fold_left (fun copy_it extension =>
               if PyStr.endswith filename extension then true else copy_it)
            extensions b
  = b || existsb (PyStr.endswith filename) extensions.
Proof.
  induction extensions as [| e rest IH]; intros b; cbn [fold_left existsb].
  - rewrite orb_false_r. reflexivity.
  - rewrite IH. destruct (PyStr.endswith filename e), b; reflexivity.
Qed.

Lemma list_files_loop_filter self entries : forall acc w,
  Releaser.list_files_loop self entries acc w
  = (Ret (acc ++ map (PyStr.path_join (rpmbuild_gitcopy (builder self)))
                     (List.filter (picked_for_copy self w) entries)), w).
Proof.
  induction entries as [| filename rest IH]; intros acc w.
  - cbn. rewrite app_nil_r. reflexivity.
  - cbn [Releaser.list_files_loop List.filter].
    unfold bind at 1, Releaser.isdir at 1. unfold picked_for_copy at 1.
    unfold Releaser.wanted_extension. rewrite wanted_extension_existsb.
    destruct (bool_decide (is_Some _)); cbn [negb andb orb]; [apply IH |].
    destruct (bool_decide (filename ∈ _)); cbn [negb andb]; [apply IH |].
    destruct (PyStr.endswith filename ".spec"); cbn [negb andb]; [apply IH |].
    destruct (existsb _ _); [| apply IH].
    rewrite IH. cbn [map]. rewrite <- app_assoc. reflexivity.
Qed.

(** X3.  Files to copy.  When the project checkout can be listed, the files to
    copy are the builder's spec file followed by the paths of the entries of
    the checkout that are not directories, are not protected, do not end in
    [.spec] and end in one of the releaser's extensions, in the order of the
    listing; the world is left alone.  When it cannot be listed, the call
    raises. *)
Theorem list_files_to_copy_is_a_filter self w :
  (forall entries,
     dirs w !! rpmbuild_gitcopy (builder self) = Some entries ->
     Releaser._list_files_to_copy self w
     = (Ret (spec_file (builder self)
               :: map (PyStr.path_join (rpmbuild_gitcopy (builder self)))
                      (List.filter (picked_for_copy self w) entries)), w))
  /\ (dirs w !! rpmbuild_gitcopy (builder self) = None ->
      Releaser._list_files_to_copy self w = (Raise "OSError: listdir", w)).
Proof.
  unfold Releaser._list_files_to_copy, listdir, bind. split.
  - intros entries ->. apply (list_files_loop_filter self entries [_] w).
  - intros ->. reflexivity.
Qed.

Lemma emits_bind_ret {A B} P (m : M A) (f : A -> M B) :
  emits P m ->
  (forall a w w', m w = (Ret a, w') -> emits P (f a)) ->
  emits P (bind m f).
Proof.
  intros Hm Hf w. destruct (Hm w) as (evs1 & Ht1 & HP1).
  unfold bind. destruct (m w) as [[a | c | e] w1] eqn:Hrun; cbn [snd] in Ht1.
  - destruct (Hf a w w1 Hrun w1) as (evs2 & Ht2 & HP2).
    exists (evs1 ++ evs2). split.
    + rewrite Ht2, Ht1, app_assoc. reflexivity.
    + apply Forall_app. split; assumption.
  - exists evs1. split; assumption.
  - exists evs1. split; assumption.
Qed.

Section SyncTraces.
Context (env : Env) (P : Event -> Prop).
Hypothesis P_print : forall l, P (Print l).
Hypothesis P_stderr : forall t, P (Stderr t).

Lemma emits_list_files_to_copy self : emits P (Releaser._list_files_to_copy self).
Proof.
  apply emits_silent. intros w. unfold Releaser._list_files_to_copy, listdir, bind.
  destruct (dirs w !! _); [| reflexivity].
  rewrite list_files_loop_filter. reflexivity.
Qed.

Lemma emits_copy_loop dest srcs :
  (forall d src, P (Shell d (cp_command dest src))) ->
  forall acc, emits P (Releaser.copy_loop env dest srcs acc).
Proof.
  intros Hcp. induction srcs as [| copy_me rest IH]; intros acc.
  - apply emits_ret.
  - cbn [Releaser.copy_loop].
    apply emits_bind; [apply emits_path_exists | intros here].
    apply emits_bind.
    { destruct (negb here);
        (apply emits_bind; [apply emits_log, P_print | intros _; apply emits_ret]). }
    intros acc'.
    apply emits_bind;
      [apply emits_run_command; [intros d; apply Hcp | apply P_stderr] | intros _].
    apply emits_bind; [apply emits_cp_effect | intros _; apply IH].
Qed.

Lemma emits_obsolete_loop names entries : forall acc,
  emits P (Releaser.obsolete_loop names entries acc).
Proof.
  induction entries as [| filename rest IH]; intros acc.
  - apply emits_ret.
  - cbn [Releaser.obsolete_loop]. destruct (negb _ && negb _); [| apply IH].
    apply emits_bind; [apply emits_log, P_print | intros _; apply IH].
Qed.

Lemma emits_sync_files srcs dest :
  (forall d src, P (Shell d (cp_command dest src))) ->
  emits P (Releaser._sync_files env srcs dest).
Proof.
  intros Hcp. unfold Releaser._sync_files.
  apply emits_bind; [apply emits_chdir | intros _].
  apply emits_bind; [apply emits_copy_loop; exact Hcp | intros new].
  apply emits_bind; [apply emits_listdir | intros entries].
  apply emits_bind; [apply emits_obsolete_loop | intros old; apply emits_ret].
Qed.

End SyncTraces.

(* ===================================================================== *)
(** * CVS checkout                                                         *)
(* ===================================================================== *)

Lemma split_on_nonempty sep s : PyText.split_on sep s <> [].
Proof.
  destruct s as [| c rest]; cbn [PyText.split_on]; [discriminate |].
  destruct (Ascii.eqb c sep); [discriminate |].
  destruct (PyText.split_on sep rest); discriminate.
Qed.

Lemma split_on_clean sep s : forall p,
  p ∈ PyText.split_on sep s -> PyText.has_char sep p = false.
Proof.
  induction s as [| c rest IH]; intros p Hp; cbn [PyText.split_on] in Hp.
  - apply list_elem_of_singleton in Hp. subst p. reflexivity.
  - destruct (Ascii.eqb c sep) eqn:Hc.
    + apply elem_of_cons in Hp as [-> | Hp]; [reflexivity | apply IH; exact Hp].
    + destruct (PyText.split_on sep rest) as [| w0 ws] eqn:Hs.
      * apply list_elem_of_singleton in Hp. subst p. cbn. rewrite Hc. reflexivity.
      * apply elem_of_cons in Hp as [-> | Hp].
        -- cbn [PyText.has_char]. rewrite Hc. apply IH.
           apply elem_of_cons. left. reflexivity.
        -- apply IH. apply elem_of_cons. right. exact Hp.
Qed.

Lemma split_on_single sep s : forall x, PyText.split_on sep s = [x] -> x = s.
Proof.
  induction s as [| c rest IH]; intros x H; cbn [PyText.split_on] in H.
  - injection H as <-. reflexivity.
  - destruct (Ascii.eqb c sep).
    + injection H as _ H. destruct (split_on_nonempty sep rest H).
    + destruct (PyText.split_on sep rest) as [| w0 ws] eqn:Hs.
      * destruct (split_on_nonempty sep rest Hs).
      * injection H as <- ->. f_equal. apply IH. reflexivity.
Qed.

Lemma split_on_two sep s : forall a b,
  PyText.split_on sep s = [a; b] -> s = a +:+ String sep b.
Proof.
  induction s as [| c rest IH]; intros a b H; cbn [PyText.split_on] in H.
  - discriminate H.
  - destruct (Ascii.eqb c sep) eqn:Hc.
    + apply Ascii.eqb_eq in Hc. subst c. injection H as <- H.
      apply split_on_single in H. subst b. reflexivity.
    + destruct (PyText.split_on sep rest) as [| w0 ws] eqn:Hs; [discriminate H |].
      injection H as <- ->. rewrite append_cons. f_equal. apply IH. reflexivity.
Qed.

Lemma basename_from_clean s : forall cand,
  PyText.has_char PyStr.slash s = false -> PyStr.basename_from cand s = cand.
Proof.
  induction s as [| c rest IH]; intros cand H; cbn in H |- *.
  - reflexivity.
  - apply orb_false_iff in H as [Hc Hrest]. rewrite Hc. apply IH. exact Hrest.
Qed.

Lemma basename_after_slash b :
  PyText.has_char PyStr.slash b = false ->
  forall a cand, PyStr.basename_from cand (a +:+ String PyStr.slash b) = b.
Proof.
  intros Hb. induction a as [| c a IH]; intros cand.
  - change (PyStr.basename_from b b = b). apply basename_from_clean. exact Hb.
  - rewrite append_cons. cbn [PyStr.basename_from].
    destruct (Ascii.eqb c PyStr.slash); apply IH.
Qed.

Lemma zstream_loop_result env self branches : forall w result w',
  CvsModule.zstream_loop env self branches w = (Ret result, w') ->
  result = map PyStr.basename branches
  /\ (forall b, b ∈ branches -> length (PyText.split_on PyStr.slash b) <= 2).
Proof.
  induction branches as [| branch rest IH]; intros w result w' H.
  - injection H as <- _. split; [reflexivity |].
    intros b Hb. apply elem_of_nil in Hb. contradiction.
  - cbn [CvsModule.zstream_loop] in H.
    destruct (PyText.has_char PyStr.slash branch) eqn:Hslash.
    + destruct (PyText.split_on PyStr.slash branch) as [| base [| zstream [| x xs]]] eqn:Hs;
        try discriminate H.
      apply bind_Ret_inv in H as (? & w1 & _ & H).
      apply bind_Ret_inv in H as (rest' & w2 & Hrest & H).
      injection H as <- _.
      destruct (IH _ _ _ Hrest) as [-> Hmost].
      split.
      * cbn [map]. f_equal. unfold PyStr.basename.
        rewrite (split_on_two _ _ _ _ Hs). symmetry. apply basename_after_slash.
        apply (split_on_clean PyStr.slash branch). rewrite Hs.
        apply elem_of_cons. right. apply elem_of_cons. left. reflexivity.
      * intros b Hb. apply elem_of_cons in Hb as [-> | Hb]; [| apply Hmost; exact Hb].
        rewrite Hs. cbn. lia.
    + apply bind_Ret_inv in H as (rest' & w2 & Hrest & H).
      injection H as <- _.
      destruct (IH _ _ _ Hrest) as [-> Hmost].
      split.
      * cbn [map]. f_equal. unfold PyStr.basename. symmetry.
        apply basename_from_clean. exact Hslash.
      * intros b Hb. apply elem_of_cons in Hb as [-> | Hb]; [| apply Hmost; exact Hb].
        assert (Hone : exists x, PyText.split_on PyStr.slash branch = [x]).
        { clear -Hslash. induction branch as [| c b IHb]; cbn in Hslash |- *.
          - eexists. reflexivity.
          - apply orb_false_iff in Hslash as [Hc Hb]. rewrite Hc.
            destruct (IHb Hb) as [x ->]. eexists. reflexivity. }
        destruct Hone as [x ->]. cbn. lia.
Qed.

Lemma has_char_app c q p :
  PyText.has_char c (q +:+ p) = PyText.has_char c q || PyText.has_char c p.
Proof.
  induction q as [| x q IH]; [reflexivity |].
  rewrite append_cons. cbn [PyText.has_char]. rewrite IH, orb_assoc. reflexivity.
Qed.

Lemma append_snoc q c p : q +:+ String c p = (q +:+ String c "") +:+ p.
Proof.
  induction q as [| x q IH]; [reflexivity |].
  rewrite !append_cons. f_equal. exact IH.
Qed.

Lemma basename_from_clean_suffix p : forall cand,
  (PyText.has_char PyStr.slash cand = false
   \/ exists q, cand = q +:+ p /\ PyText.has_char PyStr.slash q = false) ->
  PyText.has_char PyStr.slash (PyStr.basename_from cand p) = false.
Proof.
  induction p as [| c p IH]; intros cand Hc; cbn [PyStr.basename_from].
  - destruct Hc as [Hc | (q & -> & Hq)]; [exact Hc |].
    rewrite has_char_app, Hq. reflexivity.
  - destruct (Ascii.eqb c PyStr.slash) eqn:Hslash.
    + apply IH. right. exists "". split; reflexivity.
    + apply IH. destruct Hc as [Hc | (q & -> & Hq)]; [left; exact Hc |].
      right. exists (q +:+ String c ""). split; [apply append_snoc |].
      rewrite has_char_app, Hq. cbn [PyText.has_char orb]. rewrite Hslash. reflexivity.
Qed.

Lemma basename_clean s : PyText.has_char PyStr.slash (PyStr.basename s) = false.
Proof.
  unfold PyStr.basename. apply basename_from_clean_suffix.
  right. exists "". split; reflexivity.
Qed.

(** X14.  Z-stream branches.  When [cvs_checkout_module] returns, each branch of
    the releaser has been replaced by what follows its slash, a branch
    without a slash staying as it is: the branches are left in the same
    number and order, none has a slash any more, and none had more than one
    to begin with (unpacking the split would have raised). *)
Theorem cvs_checkout_module_strips_zstream_bases (env : Env) self cvs_root w
    branches' w' :
  CvsModule.cvs_checkout_module env self cvs_root w = (Ret branches', w') ->
  branches' = map PyStr.basename (cvs_branches self)
  /\ (forall b, b ∈ branches' -> PyText.has_char PyStr.slash b = false)
  /\ (forall b, b ∈ cvs_branches self ->
                length (PyText.split_on PyStr.slash b) <= 2).
Proof.
  unfold CvsModule.cvs_checkout_module. intros H.
  do 3 (apply bind_Ret_inv in H as (? & ? & _ & H)).
  destruct (zstream_loop_result env self _ _ _ _ H) as [-> Hmost].
  split; [reflexivity | split; [| exact Hmost]].
  intros b Hb. apply list_elem_of_fmap in Hb as (b0 & -> & _). apply basename_clean.
Qed.

Lemma verify_branches_loop_present self branches w :
  (forall b, b ∈ branches -> CvsModule.branch_there self w b = true) ->
  CvsModule.verify_branches_loop self branches w = (Ret tt, w).
Proof.
  induction branches as [| branch rest IH]; intros Hall.
  - reflexivity.
  - cbn [CvsModule.verify_branches_loop]. unfold bind at 1, tree_exists.
    fold (CvsModule.branch_there self w branch).
    rewrite (Hall branch) by (apply elem_of_cons; left; reflexivity).
    cbn [negb]. apply IH. intros b Hb. apply Hall. apply elem_of_cons. right. exact Hb.
Qed.

Lemma verify_branches_loop_missing self pre b post w :
  (forall b', b' ∈ pre -> CvsModule.branch_there self w b' = true) ->
  CvsModule.branch_there self w b = false ->
  CvsModule.verify_branches_loop self (pre ++ b :: post) w
  = (Exit 1,
     mkWorld (cwd w) (dirs w) (files w)
       (trace w ++ [Stderr (project_name self
                              +:+ " CVS checkout is missing branch: " +:+ b)])).
Proof.
  induction pre as [| p pre IH]; intros Hall Hmiss.
  - cbn [app CvsModule.verify_branches_loop]. unfold bind at 1, tree_exists.
    fold (CvsModule.branch_there self w b). rewrite Hmiss.
    reflexivity.
  - cbn [app CvsModule.verify_branches_loop]. unfold bind at 1, tree_exists.
    fold (CvsModule.branch_there self w p).
    rewrite (Hall p) by (apply elem_of_cons; left; reflexivity).
    cbn [negb]. apply IH; [| exact Hmiss].
    intros b' Hb'. apply Hall. apply elem_of_cons. right. exact Hb'.
Qed.

(** X15.  Branch directories.  With the package checkout in place,
    [cvs_verify_branches_exist] returns, only changing directory, when the
    path of every branch exists; otherwise it ends the run with exit status
    1 at the first branch, in the order of the list, whose path does not,
    naming it on the error channel and running no command. *)
Theorem cvs_verify_branches_exist_first_missing self w :
  is_Some (dirs w !! cvs_package_workdir self) ->
  ((forall b, b ∈ cvs_branches self -> CvsModule.branch_there self w b = true) ->
   CvsModule.cvs_verify_branches_exist self w
   = (Ret tt, mkWorld (cvs_package_workdir self) (dirs w) (files w) (trace w)))
  /\ (forall pre b post,
        cvs_branches self = pre ++ b :: post ->
        (forall b', b' ∈ pre -> CvsModule.branch_there self w b' = true) ->
        CvsModule.branch_there self w b = false ->
        CvsModule.cvs_verify_branches_exist self w
        = (Exit 1,
           mkWorld (cvs_package_workdir self) (dirs w) (files w)
             (trace w ++ [Stderr (project_name self
                                    +:+ " CVS checkout is missing branch: " +:+ b)]))).
Proof.
  intros Hpkg. unfold CvsModule.cvs_verify_branches_exist.
  rewrite (chdir_step _ _ _ Hpkg). split.
  - intros Hall. apply verify_branches_loop_present. exact Hall.
  - intros pre b post -> Hpre Hmiss.
    apply (verify_branches_loop_missing self pre b post
             (mkWorld (cvs_package_workdir self) (dirs w) (files w) (trace w)));
      assumption.
Qed.

(* ===================================================================== *)
(** * Listing the build tags                                               *)
(* ===================================================================== *)

Lemma list_tags_loop_quiet env self tags : forall w,
  environ env !! "DEBUG" = None ->
  KojiListing.list_tags_loop env self tags w
  = (Ret tt,
     mkWorld (cwd w) (dirs w) (files w)
       (trace w ++ map Print (List.filter (tag_visible self) tags))).
Proof.
  intros w Hdbg. revert w.
  induction tags as [| koji_tag rest IH]; intros w.
  - cbn. rewrite app_nil_r. destruct w; reflexivity.
  - cbn [KojiListing.list_tags_loop List.filter]. unfold tag_visible at 1.
    rewrite Hdbg, bool_decide_eq_false_2 by apply is_Some_None.
    destruct (KojiReleaser.__is_whitelisted self koji_tag); cbn [orb].
    + rewrite print_step, IH. flatten_trace. reflexivity.
    + destruct (KojiReleaser.__is_blacklisted self koji_tag); cbn [negb].
      * apply IH.
      * rewrite print_step, IH. flatten_trace. reflexivity.
Qed.

Lemma list_tags_loop_debug env self tags : forall w,
  is_Some (environ env !! "DEBUG") ->
  KojiListing.list_tags_loop env self tags w
  = (Ret tt,
     mkWorld (cwd w) (dirs w) (files w)
       (trace w ++ map (fun t => Print (tag_annotated self t)) tags)).
Proof.
  intros w Hdbg. revert w.
  induction tags as [| koji_tag rest IH]; intros w.
  - cbn. rewrite app_nil_r. destruct w; reflexivity.
  - cbn [KojiListing.list_tags_loop map]. unfold tag_annotated at 1.
    rewrite (bool_decide_eq_true_2 _ Hdbg).
    destruct (KojiReleaser.__is_whitelisted self koji_tag).
    + rewrite print_step, IH. flatten_trace. reflexivity.
    + destruct (KojiReleaser.__is_blacklisted self koji_tag);
        rewrite print_step, IH; flatten_trace; reflexivity.
Qed.

(** X23.  Listing tags.  With the autobuild tags configured, [list_tags] prints,
    in their order, the tags that are whitelisted or not blacklisted when
    DEBUG is not in the environment, and every tag, marked as whitelisted or
    blacklisted where it is, when DEBUG is there; it does nothing else. *)
Theorem list_tags_prints (env : Env) self autobuild_tags w :
  config_lookup (config (builder self)) "koji" "autobuild_tags" = Some autobuild_tags ->
  let koji_tags := PyStr.split_space (PyStr.strip autobuild_tags) in
  (environ env !! "DEBUG" = None ->
   KojiListing.list_tags env self w
   = (Ret tt,
      mkWorld (cwd w) (dirs w) (files w)
        (trace w ++ map Print (List.filter (tag_visible self) koji_tags))))
  /\ (is_Some (environ env !! "DEBUG") ->
      KojiListing.list_tags env self w
      = (Ret tt,
         mkWorld (cwd w) (dirs w) (files w)
           (trace w ++ map (fun t => Print (tag_annotated self t)) koji_tags))).
Proof.
  intros Hcfg koji_tags. unfold KojiListing.list_tags, config_get.
  rewrite Hcfg, ret_step. fold koji_tags. split; intros Hdbg.
  - apply list_tags_loop_quiet. exact Hdbg.
  - apply list_tags_loop_debug. exact Hdbg.
Qed.


(* ===================================================================== *)
(** * Loops over branches and tags                                         *)
(* ===================================================================== *)

Lemma shell_events_app t1 t2 :
  shell_events (t1 ++ t2) = shell_events t1 ++ shell_events t2.
Proof.
  induction t1 as [| e t1 IH]; cbn [app shell_events]; [reflexivity |].
  destruct e; cbn [app]; rewrite ?IH; reflexivity.
Qed.

Lemma srpm_calls_app t1 t2 :
  srpm_calls (t1 ++ t2) = srpm_calls t1 ++ srpm_calls t2.
Proof.
  induction t1 as [| e t1 IH]; cbn [app srpm_calls]; [reflexivity |].
  destruct e; cbn [app]; rewrite ?IH; reflexivity.
Qed.

Lemma srpm_calls_none evs : Forall not_srpm evs -> srpm_calls evs = [].
Proof.
  induction 1 as [| e evs He _ IH]; [reflexivity |].
  destruct e; cbn [srpm_calls]; try exact IH. destruct He.
Qed.

Section KojiLoop.
Context (env : Env).

Lemma emits_submit_build P self executable koji_opts tag srpm_location :
  (forall l, P (Print l)) -> (forall t, P (Stderr t)) ->
  (dry_run self = true \/ forall d cmd, P (Shell d cmd)) ->
  emits P (KojiReleaser._submit_build env self executable koji_opts tag srpm_location).
Proof.
  intros Hp He Hg. unfold KojiReleaser._submit_build.
  apply emits_bind; [apply emits_log, Hp | intros _].
  destruct (dry_run self) eqn:Hdry.
  - unfold Releaser.print_dry_run_warning.
    repeat (apply emits_bind; [apply emits_log, Hp | intros _]). apply emits_log, Hp.
  - destruct Hg as [Habs | Hall]; [discriminate Habs |].
    apply emits_bind; [| intros out; apply emits_log, Hp].
    apply emits_run_command; [intros d; apply Hall | exact He].
Qed.

Lemma emits_koji_tag_step P self koji_opts koji_tag :
  (forall l, P (Print l)) -> (forall t, P (Stderr t)) ->
  (forall d, P (BuilderSrpm d)) ->
  (dry_run self = true \/ forall d cmd, P (Shell d cmd)) ->
  emits P (KojiReleaser.koji_tag_step env self koji_opts koji_tag).
Proof.
  intros Hp He Hs Hg. unfold KojiReleaser.koji_tag_step.
  assert (Hgo : forall disttag,
             emits P (KojiReleaser.build_and_submit env self koji_opts koji_tag disttag)).
  { intros disttag. unfold KojiReleaser.build_and_submit.
    apply emits_bind; [apply emits_builder_call_srpm, Hs | intros loc].
    apply emits_submit_build; assumption. }
  assert (Hw1 : emits P (KojiReleaser.warn_not_whitelisted self koji_tag)).
  { unfold KojiReleaser.warn_not_whitelisted.
    apply emits_bind; [| intros _]; apply emits_log, Hp. }
  assert (Hw2 : emits P (KojiReleaser.warn_blacklisted self koji_tag)).
  { unfold KojiReleaser.warn_blacklisted.
    apply emits_bind; [| intros _]; apply emits_log, Hp. }
  destruct (negb _ && negb _); [apply emits_ret |].
  apply emits_bind; [apply emits_config_get | intros disttag].
  destruct (has_option _ koji_tag "whitelist").
  - destruct (negb _); [exact Hw1 | apply Hgo].
  - destruct (KojiReleaser.__is_blacklisted self koji_tag); [exact Hw2 | apply Hgo].
Qed.

Lemma emits_koji_tags_loop P self koji_opts koji_tags :
  (forall l, P (Print l)) -> (forall t, P (Stderr t)) ->
  (forall d, P (BuilderSrpm d)) ->
  (dry_run self = true \/ forall d cmd, P (Shell d cmd)) ->
  emits P (KojiReleaser.koji_tags_loop env self koji_opts koji_tags).
Proof.
  intros Hp He Hs Hg.
  induction koji_tags as [| koji_tag rest IH]; cbn [KojiReleaser.koji_tags_loop].
  - apply emits_ret.
  - apply emits_bind; [apply emits_koji_tag_step; assumption | intros _; exact IH].
Qed.

(** What one round of the loop adds to the calls of [builder.srpm]. *)
Lemma koji_tag_step_srpm self koji_opts koji_tag w w' :
  KojiReleaser.koji_tag_step env self koji_opts koji_tag w = (Ret tt, w') ->
  srpm_calls (trace w')
  = srpm_calls (trace w)
      ++ (if tag_allowed self koji_tag then [disttag_of self koji_tag] else []).
Proof.
  unfold KojiReleaser.koji_tag_step, tag_allowed, disttag_of.
  destruct (bool_decide (only_tags (builder self) = []));
  destruct (bool_decide (koji_tag ∈ only_tags (builder self))); cbn [negb andb orb].
  4: { intros H. injection H as <-. rewrite app_nil_r. reflexivity. }
  all: unfold config_get;
    destruct (config_lookup (config (builder self)) koji_tag "disttag") as [d |];
    [rewrite ret_step | intros H; discriminate H]; cbn [default].
  all: assert (Hgo :
         KojiReleaser.build_and_submit env self koji_opts koji_tag d w = (Ret tt, w') ->
         srpm_calls (trace w') = srpm_calls (trace w) ++ [d]);
    [ unfold KojiReleaser.build_and_submit; intros H;
      apply bind_Ret_inv in H as (loc & w1 & Hcall & H);
      unfold builder_call_srpm in Hcall;
      destruct (builder_srpm env (trace w) d); [| discriminate Hcall];
      injection Hcall as _ <-;
      destruct (emits_submit_build not_srpm self "koji" koji_opts koji_tag loc
                  (fun _ => I) (fun _ => I) (or_intror (fun _ _ => I))
                  (mkWorld (cwd w) (dirs w) (files w) (trace w ++ [BuilderSrpm d])))
        as (evs & Hev & Hnone);
      rewrite H in Hev; cbn [snd trace] in Hev; rewrite Hev, !srpm_calls_app;
      rewrite (srpm_calls_none evs Hnone), app_nil_r; reflexivity |].
  all: assert (Hwarn : forall line1,
         bind (print line1) (fun _ => print "   Package *NOT* submitted to Koji.") w
           = (Ret tt, w') ->
         srpm_calls (trace w') = srpm_calls (trace w) ++ []);
    [ intros line1 H; rewrite print_step in H; injection H as <-;
      cbn [trace]; rewrite !srpm_calls_app; cbn; rewrite !app_nil_r; reflexivity |].
  all: destruct (has_option (config (builder self)) koji_tag "whitelist");
    [ destruct (KojiReleaser.__is_whitelisted self koji_tag); cbn [negb];
      [exact Hgo | apply Hwarn]
    | destruct (KojiReleaser.__is_blacklisted self koji_tag); cbn [negb];
      [apply Hwarn | exact Hgo] ].
Qed.

Lemma koji_tags_loop_srpm self koji_opts koji_tags : forall w w',
  KojiReleaser.koji_tags_loop env self koji_opts koji_tags w = (Ret tt, w') ->
  srpm_calls (trace w')
  = srpm_calls (trace w)
      ++ map (disttag_of self) (List.filter (tag_allowed self) koji_tags).
Proof.
  induction koji_tags as [| koji_tag rest IH]; intros w w' H.
  - injection H as <-. cbn. rewrite app_nil_r. reflexivity.
  - cbn [KojiReleaser.koji_tags_loop] in H.
    apply bind_Ret_inv in H as ([] & w1 & Hstep & H).
    rewrite (IH _ _ H), (koji_tag_step_srpm _ _ _ _ _ Hstep), <- app_assoc.
    cbn [List.filter]. destruct (tag_allowed self koji_tag); reflexivity.
Qed.

End KojiLoop.

(** X21.  Source packages per tag.  With the autobuild tags configured, a release
    through the build service that returns has called [builder.srpm] once
    for each tag that passes the only-tags filter and the tag's whitelist
    (or, without one, its blacklist), in the order of the configured tags
    and with the disttag of the tag, and for no other tag. *)
Theorem koji_release_builds_allowed_tags (env : Env) self flag autobuild_tags w w' :
  config_lookup (config (builder self)) "koji" "autobuild_tags" = Some autobuild_tags ->
  KojiReleaser.release env self flag w = (Ret tt, w') ->
  srpm_calls (trace w')
  = srpm_calls (trace w)
      ++ map (disttag_of self)
             (List.filter (tag_allowed self)
                          (PyStr.split_space (PyStr.strip autobuild_tags))).
Proof.
  intros Hcfg. unfold KojiReleaser.release.
  destruct (KojiReleaser._can_build_in_koji (set_dry_run self flag)) eqn:Hcan.
  - unfold KojiReleaser._koji_release, config_get.
    cbn [set_dry_run builder]. rewrite Hcfg, ret_step, print_step.
    intros H. apply koji_tags_loop_srpm in H. cbn [trace] in H.
    rewrite srpm_calls_app in H. cbn [srpm_calls] in H. rewrite app_nil_r in H.
    exact H.
  - unfold KojiReleaser._can_build_in_koji in Hcan. cbn [set_dry_run builder] in Hcan.
    unfold has_section, has_option in Hcan. rewrite Hcfg in Hcan.
    unfold config_lookup in Hcfg.
    destruct (config (builder self) !! "koji") as [sec |]; [| discriminate Hcfg].
    rewrite bool_decide_eq_true_2 in Hcan by (eexists; reflexivity).
    rewrite bool_decide_eq_true_2 in Hcan by (eexists; reflexivity).
    discriminate Hcan.
Qed.

(** X22.  Dry run through the build service.  Under dry-run the whole release
    hands nothing to the shell, however many tags are configured and
    however the builder answers; source packages are still built. *)
Theorem koji_dry_run_release_runs_nothing (env : Env) self :
  emits no_shell (KojiReleaser.release env self true).
Proof.
  unfold KojiReleaser.release.
  destruct (KojiReleaser._can_build_in_koji _); [| apply emits_ret].
  unfold KojiReleaser._koji_release.
  apply emits_bind; [apply emits_config_get | intros tags].
  apply emits_bind; [apply emits_log; exact I | intros _].
  apply emits_koji_tags_loop; try (intros; exact I).
  left. reflexivity.
Qed.

(* ===================================================================== *)
(** * The operator says no                                                 *)
(* ===================================================================== *)

Lemma bind_sys_exit {A B} c (k : A -> M B) w : bind (sys_exit c) k w = (Exit c, w).
Proof. reflexivity. Qed.

(** What is left of a gate once the operator has declined: the cleanup and
    the exit. *)
Lemma declined_tail {B} env (pkg : string) (k : unit -> M B) w :
  let r := bind (bind (print "Fine, you're on your own!")
                   (fun _ => bind (bind (run_command env ("rm -rf " +:+ pkg))
                                     (fun _ => ret tt))
                               (fun _ => sys_exit 1))) k w in
  exit_status (fst r) = 1
  /\ commands_run (trace (snd r)) = commands_run (trace w) ++ ["rm -rf " +:+ pkg]
  /\ files (snd r) = files w.
Proof.
  cbv zeta. rewrite !bind_assoc, print_step, !bind_assoc, run_command_step.
  cbn [cwd dirs files trace].
  destruct (Nat.ltb 0 _); cbn [fst snd exit_status trace files].
  - split; [reflexivity | split; [| reflexivity]].
    rewrite !commands_run_app. cbn. rewrite app_nil_r. reflexivity.
  - cbv beta. rewrite ret_step, bind_sys_exit. cbn [fst snd exit_status trace files].
    split; [reflexivity | split; [| reflexivity]].
    rewrite !commands_run_app. cbn. rewrite app_nil_r. reflexivity.
Qed.

Lemma bind_passes {A B} (m : M A) (k : A -> M B) w :
  (forall a, fst (m w) <> Ret a) ->
  exit_status (fst (bind m k w)) = exit_status (fst (m w))
  /\ snd (bind m k w) = snd (m w).
Proof.
  intros Hno. unfold bind. destruct (m w) as [[a | c | e] w1]; cbn [fst snd].
  - destruct (Hno a). reflexivity.
  - split; reflexivity.
  - split; reflexivity.
Qed.

(** X10.  Declining the git commit.  On a diff that is not blank, when the
    operator's reply is not one of the affirmative words, the run ends with
    exit status 1; the only commands that reached the shell are the diff and
    the removal of the package working directory (which is not held back
    under dry-run): no commit, no push, no build. *)
Theorem git_commit_declined (env : Env) self co main others w status diff :
  git_branches self = main :: others ->
  is_Some (dirs w !! co) ->
  shell env (trace w ++ banner_events ("Running 'git diff' in: " +:+ co))
        co "git diff --cached" = (status, diff) ->
  PyStr.strip diff <> "" ->
  PyStr.lower
    (operator env
       (trace w ++ banner_events ("Running 'git diff' in: " +:+ co)
          ++ [Shell co "git diff --cached"; Print diff; Print ""; Print review_request])
       proceed_question) ∉ affirmative ->
  let r := FedoraGitReleaser._git_user_confirm_commit env self co w in
  exit_status (fst r) = 1
  /\ commands_run (trace (snd r))
     = commands_run (trace w)
         ++ ["git diff --cached"; "rm -rf " +:+ cvs_package_workdir self].
Proof.
  intros Hbr Hco Hsh Hdiff Hno. cbv zeta.
  unfold review_request, proceed_question in Hno.
  unfold FedoraGitReleaser._git_user_confirm_commit.
  rewrite (bind_Ret _ _ w tt _ (banner_run _ w)). rewrite Hbr.
  set (wb := mkWorld (cwd w) (dirs w) (files w)
               (trace w ++ banner_events ("Running 'git diff' in: " +:+ co))).
  assert (Hgate :
    exit_status (fst (FedoraGitReleaser.commit_gate env self co main wb)) = 1
    /\ commands_run (trace (snd (FedoraGitReleaser.commit_gate env self co main wb)))
       = commands_run (trace w)
           ++ ["git diff --cached"; "rm -rf " +:+ cvs_package_workdir self]
    /\ forall a, fst (FedoraGitReleaser.commit_gate env self co main wb) <> Ret a).
  { unfold FedoraGitReleaser.commit_gate.
    rewrite (chdir_step _ _ wb Hco), getstatusoutput_step.
    unfold wb. cbn [cwd dirs files trace]. rewrite Hsh.
    rewrite (bool_decide_eq_false_2 _ Hdiff).
    rewrite !print_step, raw_input_step. flatten_trace.
    rewrite (bool_decide_eq_false_2 _ Hno). cbn [negb].
    unfold FedoraGitReleaser.cleanup.
    match goal with
    | |- context [bind (bind (print "Fine, you're on your own!") _) ?k ?w4] =>
        destruct (declined_tail env (cvs_package_workdir self) k w4)
          as (Hexit & Hcmds & _);
        pose proof (fun a (H : fst (bind (bind (print "Fine, you're on your own!")
                     (fun _ => bind (bind (run_command env
                                             ("rm -rf " +:+ cvs_package_workdir self))
                                       (fun _ => ret tt))
                                 (fun _ => sys_exit 1))) k w4) = Ret a) =>
                      eq_ind 0 (fun n => match n with 0 => True | S _ => False end) I 1
                        (eq_trans (eq_sym (f_equal exit_status H)) Hexit)) as Hnot
    end.
    split; [exact Hexit | split; [| exact Hnot]].
    rewrite Hcmds. cbn [trace]. rewrite !commands_run_app. cbn.
    rewrite <- app_assoc. reflexivity. }
  destruct Hgate as (Hexit & Hcmds & Hnot).
  destruct (bind_passes (FedoraGitReleaser.commit_gate env self co main)
              (fun _ => FedoraGitReleaser.push_and_build env self main) wb Hnot)
    as [He Hs].
  rewrite He, Hs. split; [exact Hexit | exact Hcmds].
Qed.

(** X18.  Declining the CVS commit.  When the operator's reply is not one of the
    affirmative words, the run ends with exit status 1; the only commands
    that reached the shell are the diff and the removal of the package
    working directory, and no scratch file was made. *)
Theorem cvs_commit_declined (env : Env) self w status diff :
  is_Some (dirs w !! cvs_package_workdir self) ->
  shell env (trace w ++ banner_events ("Running 'cvs diff -u' in: "
                                         +:+ cvs_package_workdir self))
        (cvs_package_workdir self) "cvs diff -u" = (status, diff) ->
  PyStr.lower
    (operator env
       (trace w ++ banner_events ("Running 'cvs diff -u' in: "
                                    +:+ cvs_package_workdir self)
          ++ [Shell (cvs_package_workdir self) "cvs diff -u"; Print diff; Print "";
              Print review_request])
       proceed_question) ∉ affirmative ->
  let r := CvsReleaser._cvs_user_confirm_commit env self w in
  exit_status (fst r) = 1
  /\ commands_run (trace (snd r))
     = commands_run (trace w)
         ++ ["cvs diff -u"; "rm -rf " +:+ cvs_package_workdir self]
  /\ files (snd r) = files w.
Proof.
  intros Hpkg Hsh Hno. cbv zeta.
  unfold review_request, proceed_question in Hno.
  unfold CvsReleaser._cvs_user_confirm_commit.
  rewrite (bind_Ret _ _ w tt _ (banner_run _ w)).
  rewrite chdir_step by (cbn [dirs]; exact Hpkg).
  rewrite getstatusoutput_step. cbn [cwd dirs files trace]. rewrite Hsh.
  rewrite !print_step, raw_input_step. flatten_trace.
  rewrite (bool_decide_eq_false_2 _ Hno). cbn [negb].
  unfold CvsReleaser.cleanup.
  match goal with
  | |- context [bind (bind (print "Fine, you're on your own!") _) ?k ?w4] =>
      destruct (declined_tail env (cvs_package_workdir self) k w4)
        as (Hexit & Hcmds & Hfiles)
  end.
  split; [exact Hexit | split; [| exact Hfiles]].
  rewrite Hcmds. cbn [trace]. rewrite !commands_run_app. cbn.
  rewrite <- app_assoc. reflexivity.
Qed.

(* ===================================================================== *)
(** * Push, build and fan-out                                              *)
(* ===================================================================== *)

(** X11.  A fatal build on the primary branch.  Outside dry-run, when the push
    succeeds and the build of the primary branch exits non-zero without the
    "already been built" phrase, the run ends with [sys.exit(1)] and the
    push and that build are the only commands that reached the shell: no
    secondary branch is switched to, merged, pushed or built, however many
    there are. *)
Theorem fatal_primary_build_stops_the_fanout (env : Env) self main w out1 status out2 :
  dry_run self = false ->
  shell env (trace w ++ [Print "fedpkg push"]) (cwd w) "fedpkg push" = (0, out1) ->
  shell env (trace w ++ [Print "fedpkg push"; Shell (cwd w) "fedpkg push";
                         Print "Submitting build: fedpkg build --nowait"])
        (cwd w) "fedpkg build --nowait" = (status, out2) ->
  0 < status ->
  PyStr.contains "already been built" out2 = false ->
  exists w',
    FedoraGitReleaser.push_and_build env self main w = (Exit 1, w')
    /\ commands_run (trace w')
       = commands_run (trace w) ++ ["fedpkg push"; "fedpkg build --nowait"].
Proof.
  intros Hlive Hpush Hbuild Hpos Hmark.
  assert (Hlt : Nat.ltb 0 status = true) by (apply Nat.ltb_lt; exact Hpos).
  unfold FedoraGitReleaser.push_and_build, FedoraGitReleaser._build.
  rewrite Hlive, !bind_assoc, print_step, !bind_assoc, run_command_step.
  cbn [cwd dirs files trace]. rewrite Hpush. cbn [fst snd Nat.ltb Nat.leb].
  cbv beta. rewrite ret_step, !bind_assoc, print_step, !bind_assoc.
  rewrite getstatusoutput_step. flatten_trace.
  change ("Submitting build: " +:+ "fedpkg build --nowait")
    with "Submitting build: fedpkg build --nowait".
  rewrite Hbuild. cbv beta iota.
  destruct status as [| n]; [inversion Hpos |]. rewrite Hmark.
  unfold bind, stderr_write, log, sys_exit. cbn [cwd dirs files trace].
  eexists. split; [reflexivity |].
  cbn [trace]. rewrite !commands_run_app. cbn. rewrite !app_nil_r. reflexivity.
Qed.

Section AllSucceed.
Context (env : Env).
Hypothesis all_succeed : forall t d c, fst (shell env t d c) = 0.

Lemma runs_ret {A} (a : A) : runs (ret a) [].
Proof. intros w. exists a, w. rewrite app_nil_r. split; reflexivity. Qed.

Lemma runs_bind {A B} (m : M A) (f : A -> M B) c1 c2 :
  runs m c1 -> (forall a, runs (f a) c2) -> runs (bind m f) (c1 ++ c2).
Proof.
  intros Hm Hf w. destruct (Hm w) as (a & w1 & Hrun & Hc1).
  destruct (Hf a w1) as (b & w2 & Hrun2 & Hc2).
  exists b, w2. rewrite (bind_Ret _ _ _ _ _ Hrun). split; [exact Hrun2 |].
  rewrite Hc2, Hc1, app_assoc. reflexivity.
Qed.

Lemma runs_print line : runs (print line) [].
Proof.
  intros w. eexists tt, _. split; [reflexivity |].
  cbn [trace]. rewrite commands_run_app. reflexivity.
Qed.

Lemma runs_run_command cmd : runs (run_command env cmd) [cmd].
Proof.
  intros w. pose proof (run_command_step env cmd ret w) as H.
  rewrite all_succeed in H. cbn [Nat.ltb Nat.leb] in H.
  unfold bind in H.
  destruct (run_command env cmd w) as [[out | c | e] w1]; try discriminate H.
  unfold ret in H. injection H as -> ->.
  eexists _, _. split; [reflexivity |].
  cbn [trace]. rewrite commands_run_app. reflexivity.
Qed.

Lemma runs_warning cmd : runs (Releaser.print_dry_run_warning cmd) [].
Proof.
  unfold Releaser.print_dry_run_warning.
  apply (runs_bind _ _ [] []); [apply runs_print | intros _].
  apply (runs_bind _ _ [] []); [apply runs_print | intros _; apply runs_print].
Qed.

Lemma runs_build self :
  runs (FedoraGitReleaser._build env self)
       (if dry_run self then [] else ["fedpkg build --nowait"]).
Proof.
  unfold FedoraGitReleaser._build. destruct (dry_run self).
  - apply runs_warning.
  - apply (runs_bind _ _ [] ["fedpkg build --nowait"]); [apply runs_print | intros _].
    intros w. rewrite getstatusoutput_step.
    pose proof (all_succeed (trace w) (cwd w) "fedpkg build --nowait") as H0.
    destruct (shell env (trace w) (cwd w) "fedpkg build --nowait") as [status output].
    cbn [fst] in H0. subst status. cbn [Nat.ltb Nat.leb].
    eexists tt, _. split; [reflexivity |].
    cbn [trace]. rewrite commands_run_app. reflexivity.
Qed.

Lemma runs_push self cmd :
  runs (if dry_run self then Releaser.print_dry_run_warning cmd
        else bind (print cmd) (fun _ => bind (run_command env cmd) (fun _ => ret tt)))
       (if dry_run self then [] else [cmd]).
Proof.
  destruct (dry_run self).
  - apply runs_warning.
  - apply (runs_bind _ _ [] [cmd]); [apply runs_print | intros _].
    apply (runs_bind _ _ [cmd] []); [apply runs_run_command | intros _; apply runs_ret].
Qed.

Lemma runs_merge_loop self main branches :
  runs (FedoraGitReleaser.merge_loop env self main branches)
       (concat (map (fanout_commands self main) branches)).
Proof.
  induction branches as [| branch rest IH].
  - apply runs_ret.
  - assert (Hlist :
      concat (map (fanout_commands self main) (branch :: rest))
      = [] ++ ["fedpkg switch-branch " +:+ branch] ++ ["git merge " +:+ main]
          ++ (if dry_run self then []
              else ["git push origin " +:+ branch +:+ ":" +:+ branch])
          ++ (if dry_run self then [] else ["fedpkg build --nowait"])
          ++ [] ++ concat (map (fanout_commands self main) rest)).
    { cbn [map concat]. unfold fanout_commands at 1.
      destruct (dry_run self); reflexivity. }
    rewrite Hlist. cbn [FedoraGitReleaser.merge_loop].
    apply runs_bind; [apply runs_print | intros _].
    apply runs_bind; [apply runs_run_command | intros _].
    apply runs_bind; [apply runs_run_command | intros _].
    apply runs_bind; [apply runs_push | intros _].
    apply runs_bind; [apply runs_build | intros _].
    apply runs_bind; [apply runs_print | intros _; exact IH].
Qed.

End AllSucceed.

(** X12.  The order of the fan-out.  When every command succeeds,
    [push_and_build] returns after running, in this order: the push and the
    build of the primary branch, then for each secondary branch in the
    order of the list the switch to it, the merge of the primary branch,
    its push and its build.  Under dry-run the pushes and builds are left
    out, the switches and merges are not. *)
Theorem push_and_build_order (env : Env) self main w :
  (forall t d c, fst (shell env t d c) = 0) ->
  exists w',
    FedoraGitReleaser.push_and_build env self main w = (Ret tt, w')
    /\ commands_run (trace w')
       = commands_run (trace w)
           ++ (if dry_run self then [] else ["fedpkg push"; "fedpkg build --nowait"])
           ++ concat (map (fanout_commands self main) (tail (git_branches self))).
Proof.
  intros Hok.
  assert (Hruns : runs (FedoraGitReleaser.push_and_build env self main)
            ((if dry_run self then [] else ["fedpkg push"])
               ++ (if dry_run self then [] else ["fedpkg build --nowait"])
               ++ concat (map (fanout_commands self main) (tail (git_branches self))))).
  { unfold FedoraGitReleaser.push_and_build.
    apply runs_bind; [apply runs_push; exact Hok | intros _].
    apply runs_bind; [apply runs_build; exact Hok | intros _].
    apply runs_merge_loop. exact Hok. }
  destruct (Hruns w) as ([] & w' & Hrun & Hcmds).
  exists w'. split; [exact Hrun |].
  rewrite Hcmds. destruct (dry_run self); reflexivity.
Qed.

(** X17.  Uploading sources under dry-run.  With sources to upload, the dry-run
    of [cvs_upload_sources] prints one warning for the first branch and
    returns from there: no command is run and the remaining branches are
    not visited. *)
Theorem cvs_upload_sources_dry_run_stops_at_first_branch (env : Env) self
    branch rest w :
  dry_run self = true ->
  sources (builder self) <> [] ->
  cvs_branches self = branch :: rest ->
  is_Some (dirs w !! CvsReleaser.branch_dir self branch) ->
  CvsReleaser.cvs_upload_sources env self w
  = (Ret tt,
     mkWorld (CvsReleaser.branch_dir self branch) (dirs w) (files w)
       (trace w
          ++ [Print "Uploading sources to dist-cvs lookaside:"; Print "";
              dry_run_warning ("make new-sources FILES=" +:+ dquote
                                 +:+ PyStr.join " " (sources (builder self))
                                 +:+ dquote);
              Print ""])).
Proof.
  intros Hdry Hsrc Hbr Hdir. unfold CvsReleaser.cvs_upload_sources.
  destruct (sources (builder self)) as [| s0 ss] eqn:Hs; [contradiction |].
  rewrite print_step, Hbr. cbn [CvsReleaser.upload_loop].
  rewrite chdir_step by (cbn [dirs]; exact Hdir).
  rewrite Hdry. unfold Releaser.print_dry_run_warning, bind, print, log, dry_run_warning.
  flatten_trace. rewrite Hs. reflexivity.
Qed.

(* ===================================================================== *)
(** * Returning                                                           *)
(* ===================================================================== *)

(** X9.  The sync returns.  When the destination directory is there and
    every command handed to the shell exits with status 0, [_sync_files]
    returns its three lists: it neither raises nor ends the run. *)
Theorem sync_files_returns_when_commands_succeed (env : Env) srcs dest w :
  is_Some (dirs w !! dest) ->
  (forall t d c, fst (shell env t d c) = 0) ->
  exists new copied old w',
    Releaser._sync_files env srcs dest w = (Ret (new, copied, old), w').
Proof.
  intros Hdest Hok.
  destruct (sync_files_returns env srcs dest w Hdest Hok) as ([[new copied] old] & w' & H).
  exists new, copied, old, w'. exact H.
Qed.

(** X19.  The scratch file.  Whenever [_cvs_user_confirm_commit_msg]
    returns, the temporary file it made for the commit message has been
    removed again. *)
Theorem cvs_commit_msg_scratch_file_gone_on_return (env : Env) self diff_output w w' :
  CvsReleaser._cvs_user_confirm_commit_msg env self diff_output w = (Ret tt, w') ->
  files w' !! mkstemp_name env (trace w) = None.
Proof.
  intros H. exact (commit_msg_removes_scratch_on_return env self diff_output w w' H).
Qed.

(* ===================================================================== *)
(** * Uploading sources in the git variant                                 *)
(* ===================================================================== *)

(** X24.  One upload command.  Whatever happens, [_git_upload_sources] hands
    the shell at most one command: none when there are no sources, under
    dry-run, or when the checkout cannot be entered, and otherwise the one
    [fedpkg new-sources] command that names every source, run from inside
    the checkout. *)
Theorem git_upload_sources_runs_one_command (env : Env) self project_checkout w :
  shell_events (trace (snd (FedoraGitReleaser._git_upload_sources env self
                              project_checkout w)))
  = shell_events (trace w)
      ++ (if bool_decide (sources (builder self) = []) || dry_run self
             || negb (bool_decide (is_Some (dirs w !! project_checkout)))
          then []
          else [(project_checkout,
                 "fedpkg new-sources " +:+ PyStr.join " " (sources (builder self)))]).
Proof.
  unfold FedoraGitReleaser._git_upload_sources.
  destruct (sources (builder self)) as [| s ss] eqn:Hs.
  - rewrite bool_decide_eq_true_2 by reflexivity. cbn. rewrite app_nil_r. reflexivity.
  - rewrite bool_decide_eq_false_2 by discriminate. cbn [orb].
    rewrite print_step.
    destruct (dirs w !! project_checkout) as [l |] eqn:Hco.
    + rewrite chdir_step by (cbn [dirs]; rewrite Hco; eauto).
      rewrite bool_decide_eq_true_2 by eauto. cbn [negb orb].
      destruct (dry_run self); cbn [orb].
      * unfold Releaser.print_dry_run_warning, bind, print, log.
        cbn [cwd dirs files trace snd]. rewrite !shell_events_app. cbn.
        rewrite !app_nil_r. reflexivity.
      * unfold run_command, bind, getstatusoutput.
        cbn [cwd dirs files trace snd fst].
        destruct (shell env _ _ _) as [status output].
        destruct (Nat.ltb 0 status); cbn; rewrite !shell_events_app; cbn;
          rewrite ?app_nil_r; reflexivity.
    + rewrite bool_decide_eq_false_2 by (apply is_Some_None).
      cbn [negb orb]. rewrite orb_true_r.
      unfold bind, chdir. cbn [dirs]. rewrite Hco. cbn.
      rewrite shell_events_app. reflexivity.
Qed.

(* ===================================================================== *)
(** * Instances                                                            *)
(* ===================================================================== *)

Lemma parse_builder_args_lookup_witness :
  exists args,
    ReleaserInit._parse_builder_args yum_releaser_config "yum-f15" release_world
      = (Ret args, release_world)
    /\ forall k, args !! k = yum_section !! ("builder." +:+ k).
Proof.
  apply (parse_builder_args_lookup yum_releaser_config "yum-f15" yum_section
           release_world).
  vm_compute. reflexivity.
Defined.

Lemma check_releaser_config_first_missing_witness :
  ReleaserInit._check_releaser_config yum_releaser_config "yum-f15"
    ["rsync"; "builder"] release_world = (Ret tt, release_world)
  /\ ReleaserInit._check_releaser_config yum_releaser_config "yum-f15"
       ["cvsroot"; "branches"] release_world
     = (Raise "Release target 'yum-f15' missing required option 'cvsroot'",
        release_world).
Proof.
  split.
  - apply (proj1 (check_releaser_config_first_missing yum_releaser_config "yum-f15"
                    ["rsync"; "builder"] release_world)).
    intros o Ho. apply (bool_decide_unpack _) in Ho || idtac.
    repeat (apply elem_of_cons in Ho as [-> | Ho]; [vm_compute; reflexivity |]).
    apply elem_of_nil in Ho. contradiction.
  - apply (proj2 (check_releaser_config_first_missing yum_releaser_config "yum-f15"
                    ["cvsroot"; "branches"] release_world)
             ["releaser"] "cvsroot" ["branches"]).
    + reflexivity.
    + intros o Ho. apply list_elem_of_singleton in Ho. subst o.
      vm_compute. reflexivity.
    + vm_compute. reflexivity.
Defined.

Lemma sync_files_new_exactly_witness :
  "pkg.patch" ∈ ["pkg.patch"] <->
  "pkg.patch" ∈ map PyStr.basename demo_files
  /\ present stale_checkout "/dest" "pkg.patch" = false.
Proof.
  apply (sync_files_new_exactly quiet_env demo_files "/dest" stale_checkout
           ["pkg.patch"] [] ["old.patch"]
           (snd (Releaser._sync_files quiet_env demo_files "/dest" stale_checkout))).
  vm_compute. reflexivity.
Defined.

Lemma sync_files_old_exactly_witness :
  "old.patch" ∈ ["old.patch"] <->
  "old.patch" ∈ listing stale_checkout "/dest"
  /\ ("old.patch" ∉ PROTECTED_BUILD_SYS_FILES)
  /\ ("old.patch" ∉ map PyStr.basename demo_files).
Proof.
  apply (sync_files_old_exactly quiet_env demo_files "/dest" stale_checkout
           ["pkg.patch"] [] ["old.patch"]
           (snd (Releaser._sync_files quiet_env demo_files "/dest" stale_checkout))).
  vm_compute. reflexivity.
Defined.

Lemma sync_files_new_and_old_disjoint_witness :
  (forall f, f ∈ ["pkg.patch"] -> f ∉ ["old.patch"])
  /\ (forall f, f ∈ ["pkg.patch"] ++ [] -> f ∈ map PyStr.basename demo_files)
  /\ (forall f, f ∈ ([] : list string) -> f ∉ ["old.patch"]).
Proof.
  apply (sync_files_new_and_old_disjoint quiet_env demo_files "/dest" stale_checkout
           ["pkg.patch"] [] ["old.patch"]
           (snd (Releaser._sync_files quiet_env demo_files "/dest" stale_checkout))).
  vm_compute. reflexivity.
Defined.


Lemma sync_files_returns_when_commands_succeed_witness :
  exists new copied old w',
    Releaser._sync_files quiet_env demo_files "/dest" stale_checkout
    = (Ret (new, copied, old), w').
Proof.
  apply (sync_files_returns_when_commands_succeed quiet_env demo_files "/dest"
           stale_checkout).
  - exists ["CVS"; "pkg.spec"; "old.patch"]. vm_compute. reflexivity.
  - intros t d c. reflexivity.
Defined.

Lemma list_files_to_copy_is_a_filter_witness :
  Releaser._list_files_to_copy demo_self project_world
  = (Ret ["/src/pkg.spec"; "/src/gitcopy/pkg.patch"], project_world).
Proof.
  apply (proj1 (list_files_to_copy_is_a_filter demo_self project_world)
           ["pkg.spec"; "pkg.patch"; "Makefile"; "extra.txt"; ".git"]).
  vm_compute. reflexivity.
Defined.

Lemma cvs_checkout_module_strips_zstream_bases_witness :
  ["F-15"; "RHEL-6.1"] = map PyStr.basename (cvs_branches zstream_self)
  /\ (forall b, b ∈ ["F-15"; "RHEL-6.1"] -> PyText.has_char PyStr.slash b = false)
  /\ (forall b, b ∈ cvs_branches zstream_self ->
                length (PyText.split_on PyStr.slash b) <= 2).
Proof.
  apply (cvs_checkout_module_strips_zstream_bases quiet_env zstream_self
           ":pserver:cvs.example.org:/cvs/dist" checkout_world ["F-15"; "RHEL-6.1"]
           (snd (CvsModule.cvs_checkout_module quiet_env zstream_self
                   ":pserver:cvs.example.org:/cvs/dist" checkout_world))).
  vm_compute. reflexivity.
Defined.

Lemma cvs_verify_branches_exist_first_missing_witness :
  CvsModule.cvs_verify_branches_exist demo_self checkout_world
  = (Ret tt, mkWorld "/work/pkg" (dirs checkout_world) ∅ [])
  /\ CvsModule.cvs_verify_branches_exist zstream_self checkout_world
     = (Exit 1,
        mkWorld "/work/pkg" (dirs checkout_world) ∅
          [Stderr "pkg CVS checkout is missing branch: RHEL-6/RHEL-6.1"]).
Proof.
  assert (Hpkg : is_Some (dirs checkout_world !! "/work/pkg"))
    by (exists ["F-15"]; vm_compute; reflexivity).
  split.
  - apply (proj1 (cvs_verify_branches_exist_first_missing demo_self checkout_world Hpkg)).
    intros b Hb. apply list_elem_of_singleton in Hb. subst b.
    vm_compute. reflexivity.
  - apply (proj2 (cvs_verify_branches_exist_first_missing zstream_self checkout_world
                    Hpkg) ["F-15"] "RHEL-6/RHEL-6.1" []).
    + reflexivity.
    + intros b Hb. apply list_elem_of_singleton in Hb. subst b.
      vm_compute. reflexivity.
    + vm_compute. reflexivity.
Defined.

Lemma list_tags_prints_witness :
  KojiListing.list_tags quiet_env (self_with_config blacklist_config) release_world
  = (Ret tt, mkWorld "/" (dirs release_world) ∅ []).
Proof.
  apply (proj1 (list_tags_prints quiet_env (self_with_config blacklist_config)
                  "dist-f15" release_world eq_refl)).
  vm_compute. reflexivity.
Defined.

Lemma koji_release_builds_allowed_tags_witness :
  srpm_calls (trace (snd (KojiReleaser.release quiet_env demo_self false release_world)))
  = srpm_calls (trace release_world)
      ++ map (disttag_of demo_self)
             (List.filter (tag_allowed demo_self)
                          (PyStr.split_space (PyStr.strip "dist-f15"))).
Proof.
  apply (koji_release_builds_allowed_tags quiet_env demo_self false "dist-f15"
           release_world).
  - vm_compute. reflexivity.
  - vm_compute. reflexivity.
Defined.

Lemma git_commit_declined_witness :
  exit_status (fst (FedoraGitReleaser._git_user_confirm_commit declining_env dry_self
                      "/work/pkg" release_world)) = 1
  /\ commands_run (trace (snd (FedoraGitReleaser._git_user_confirm_commit declining_env
                                 dry_self "/work/pkg" release_world)))
     = commands_run (trace release_world)
         ++ ["git diff --cached"; "rm -rf " +:+ cvs_package_workdir dry_self].
Proof.
  apply (git_commit_declined declining_env dry_self "/work/pkg" "master" ["f15"]
           release_world 256 "+Patch9: fix.patch").
  - reflexivity.
  - exists ["F-15"]. vm_compute. reflexivity.
  - vm_compute. reflexivity.
  - vm_compute. intros Habs. discriminate Habs.
  - apply (bool_decide_eq_false_1 _). vm_compute. reflexivity.
Defined.

Lemma cvs_commit_declined_witness :
  exit_status (fst (CvsReleaser._cvs_user_confirm_commit declining_env demo_self
                      release_world)) = 1
  /\ commands_run (trace (snd (CvsReleaser._cvs_user_confirm_commit declining_env
                                 demo_self release_world)))
     = commands_run (trace release_world)
         ++ ["cvs diff -u"; "rm -rf " +:+ cvs_package_workdir demo_self]
  /\ files (snd (CvsReleaser._cvs_user_confirm_commit declining_env demo_self
                   release_world)) = files release_world.
Proof.
  apply (cvs_commit_declined declining_env demo_self release_world 256
           "+Patch9: fix.patch").
  - exists ["F-15"]. vm_compute. reflexivity.
  - vm_compute. reflexivity.
  - apply (bool_decide_eq_false_1 _). vm_compute. reflexivity.
Defined.

Lemma fatal_primary_build_stops_the_fanout_witness :
  exists w',
    FedoraGitReleaser.push_and_build failed_build_env demo_self "master" release_world
      = (Exit 1, w')
    /\ commands_run (trace w')
       = commands_run (trace release_world) ++ ["fedpkg push"; "fedpkg build --nowait"].
Proof.
  apply (fatal_primary_build_stops_the_fanout failed_build_env demo_self "master"
           release_world "" 256 "Could not connect to the hub").
  - reflexivity.
  - vm_compute. reflexivity.
  - vm_compute. reflexivity.
  - lia.
  - vm_compute. reflexivity.
Defined.

Lemma push_and_build_order_witness :
  exists w',
    FedoraGitReleaser.push_and_build quiet_env demo_self "master" release_world
      = (Ret tt, w')
    /\ commands_run (trace w')
       = commands_run (trace release_world)
           ++ (if dry_run demo_self then []
               else ["fedpkg push"; "fedpkg build --nowait"])
           ++ concat (map (fanout_commands demo_self "master")
                          (tail (git_branches demo_self))).
Proof.
  apply (push_and_build_order quiet_env demo_self "master" release_world).
  intros t d c. reflexivity.
Defined.

Lemma cvs_upload_sources_dry_run_stops_at_first_branch_witness :
  CvsReleaser.cvs_upload_sources quiet_env dry_sources_self release_world
  = (Ret tt,
     mkWorld "/work/pkg/F-15" (dirs release_world) ∅
       [Print "Uploading sources to dist-cvs lookaside:"; Print "";
        dry_run_warning ("make new-sources FILES=" +:+ dquote
                           +:+ "/src/pkg-1.0.tar.gz" +:+ dquote);
        Print ""]).
Proof.
  apply (cvs_upload_sources_dry_run_stops_at_first_branch quiet_env dry_sources_self
           "F-15" ["F-14"] release_world).
  - reflexivity.
  - intros Habs. discriminate Habs.
  - reflexivity.
  - exists ["pkg.spec"]. vm_compute. reflexivity.
Defined.

Lemma cvs_commit_msg_scratch_file_gone_on_return_witness :
  files (snd (CvsReleaser._cvs_user_confirm_commit_msg agreeable_env demo_self
                "+Patch9: fix.patch" release_world))
    !! mkstemp_name agreeable_env (trace release_world) = None.
Proof.
  apply (cvs_commit_msg_scratch_file_gone_on_return agreeable_env demo_self
           "+Patch9: fix.patch" release_world).
  vm_compute. reflexivity.
Defined.

(* ===================================================================== *)
(** * Tagging in CVS                                                     *)
(* ===================================================================== *)

(** C9, at the inputs where it fails.  Outside dry-run, when [make tag]
    ends in the first branch with an exit code of 1 or more, the status
    [commands.getstatusoutput] hands back is that code times 256, which is
    above the threshold of 1 whatever the code: the cleanup command is run
    and the run ends with exit status 1, no other branch being tagged.  The
    soft failure with exit code 1 is as fatal as any other. *)
Theorem cvs_tag_soft_failure_is_fatal (env : Env) self branch rest w exit_code output :
  dry_run self = false ->
  cvs_branches self = branch :: rest ->
  is_Some (dirs w !! cvs_package_workdir self) ->
  is_Some (dirs w !! CvsReleaser.branch_dir self branch) ->
  1 <= exit_code ->
  shell env (trace w ++ [Print "Creating CVS tags..."])
        (CvsReleaser.branch_dir self branch) "make tag"
    = (wait_status exit_code, output) ->
  let r := CvsReleaser._cvs_make_tag env self w in
  exit_status (fst r) = 1
  /\ commands_run (trace (snd r))
     = commands_run (trace w)
         ++ ["make tag"; "rm -rf " +:+ cvs_package_workdir self].
Proof.
  intros Hlive Hbr Hpkg Hdir Hcode Hsh r. subst r.
  unfold CvsReleaser._cvs_make_tag.
  rewrite (chdir_step _ _ _ Hpkg), Hlive, print_step, Hbr.
  set (w0 := mkWorld (cvs_package_workdir self) (dirs w) (files w)
               (trace w ++ [Print "Creating CVS tags..."])).
  assert (Hdir0 : is_Some (dirs w0 !! CvsReleaser.branch_dir self branch)) by exact Hdir.
  destruct (tag_loop_status_threshold env self "make tag" branch rest w0
              (wait_status exit_code) output Hdir0 Hsh) as [_ Hhard].
  destruct Hhard as (o & w' & tail & Hrun & Hexit & Htrace & Htail).
  { unfold wait_status. lia. }
  match goal with
  | |- context [CvsReleaser.tag_loop _ _ _ _ ?x] => change x with w0
  end.
  rewrite Hrun. cbn [fst snd]. split; [exact Hexit |].
  rewrite Htrace. cbn [trace w0].
  rewrite !commands_run_app. cbn [commands_run]. rewrite Htail.
  rewrite app_nil_r, <- app_assoc. reflexivity.
Qed.

Lemma cvs_tag_soft_failure_is_fatal_witness :
  exit_status (fst (CvsReleaser._cvs_make_tag nothing_to_tag_env two_branch_self
                      release_world)) = 1
  /\ commands_run (trace (snd (CvsReleaser._cvs_make_tag nothing_to_tag_env
                                 two_branch_self release_world)))
     = commands_run (trace release_world)
         ++ ["make tag"; "rm -rf " +:+ cvs_package_workdir two_branch_self].
Proof.
  apply (cvs_tag_soft_failure_is_fatal nothing_to_tag_env two_branch_self
           "F-15" ["F-14"] release_world 1
           "ERROR: Tag pkg-1_0-1 has been already created.").
  - reflexivity.
  - reflexivity.
  - exists ["F-15"]. vm_compute. reflexivity.
  - exists ["pkg.spec"]. vm_compute. reflexivity.
  - lia.
  - vm_compute. reflexivity.
Defined.

(* ===================================================================== *)
(** * The tag policy of the build service                                *)
(* ===================================================================== *)





(* ===================================================================== *)
(** * The commit gates on a blank diff                                   *)
(* ===================================================================== *)



Lemma emits_commit_msg_any env self diff :
  emits any_event (CvsReleaser._cvs_user_confirm_commit_msg env self diff).
Proof.
  apply emits_cvs_user_confirm_commit_msg; try (intros; exact I).
  right. intros; exact I.
Qed.






(* ===================================================================== *)
(** * Protected files                                                    *)
(* ===================================================================== *)

Lemma last_char_snoc s : forall c,
  PyStr.last_char s = Some c -> exists q, s = q +:+ String c "".
Proof.
  induction s as [| x s IH]; intros c H; [discriminate H |].
  destruct s as [| y s].
  - injection H as <-. exists "". reflexivity.
  - change (PyStr.last_char (String y s) = Some c) in H.
    destruct (IH c H) as (q & Hq). exists (String x q).
    rewrite append_cons, <- Hq. reflexivity.
Qed.

Lemma last_char_none s : PyStr.last_char s = None -> s = "".
Proof.
  induction s as [| x s IH]; intros H; [reflexivity |].
  destruct s as [| y s]; [discriminate H |].
  change (PyStr.last_char (String y s) = None) in H.
  discriminate (IH H).
Qed.

(** Joining a directory and a name without a slash, then taking the base
    name, gives the name back. *)
Lemma basename_path_join d f :
  PyText.has_char PyStr.slash f = false ->
  PyStr.basename (PyStr.path_join d f) = f.
Proof.
  intros Hf. unfold PyStr.basename.
  assert (Hjoin : PyStr.path_join d f
                  = match PyStr.last_char d with
                    | None => d +:+ f
                    | Some l => if Ascii.eqb l PyStr.slash then d +:+ f
                                else d +:+ "/" +:+ f
                    end).
  { unfold PyStr.path_join. destruct f as [| c f]; [reflexivity |].
    cbn [PyText.has_char] in Hf. apply orb_false_iff in Hf as [Hc _].
    rewrite Hc. reflexivity. }
  rewrite Hjoin. destruct (PyStr.last_char d) as [l |] eqn:Hl.
  - destruct (Ascii.eqb l PyStr.slash) eqn:Hs.
    + apply Ascii.eqb_eq in Hs. subst l.
      destruct (last_char_snoc d _ Hl) as (q & ->).
      rewrite <- append_snoc. apply basename_after_slash. exact Hf.
    + apply (basename_after_slash f Hf d).
  - rewrite (last_char_none d Hl). apply basename_from_clean. exact Hf.
Qed.

Lemma picked_for_copy_unprotected self w f :
  picked_for_copy self w f = true -> f ∉ PROTECTED_BUILD_SYS_FILES.
Proof.
  unfold picked_for_copy. intros H.
  apply andb_true_iff in H as [H _]. apply andb_true_iff in H as [H _].
  apply andb_true_iff in H as [_ H]. apply negb_true_iff in H.
  apply bool_decide_eq_false in H. exact H.
Qed.

(** C5, as the code has it.  A sync that returns never lists a protected
    name as obsolete, whatever the source list and the destination hold.
    The scan that builds the source list never picks a protected entry of
    the project checkout: it gives the spec file and then the paths of the
    entries it keeps, none of them protected, and with entries as
    [os.listdir] gives them, without a slash, the base name of each such
    path is an unprotected entry.  The sync itself does not look at the
    protected names when it copies: every source it is given is copied to
    the destination under its base name. *)
Theorem protected_files_obsolete_selected_and_copied (env : Env) :
  (forall srcs dest w new copied old w',
     Releaser._sync_files env srcs dest w = (Ret (new, copied, old), w') ->
     forall f, f ∈ PROTECTED_BUILD_SYS_FILES -> f ∉ old)
  /\ (forall self w entries,
        dirs w !! rpmbuild_gitcopy (builder self) = Some entries ->
        let kept := List.filter (picked_for_copy self w) entries in
        Releaser._list_files_to_copy self w
        = (Ret (spec_file (builder self)
                  :: map (PyStr.path_join (rpmbuild_gitcopy (builder self))) kept), w)
        /\ (forall f, f ∈ kept -> f ∈ entries /\ (f ∉ PROTECTED_BUILD_SYS_FILES))
        /\ ((forall f, f ∈ entries -> PyText.has_char PyStr.slash f = false) ->
            forall p,
              p ∈ map (PyStr.path_join (rpmbuild_gitcopy (builder self))) kept ->
              PyStr.basename p ∈ entries
              /\ (PyStr.basename p ∉ PROTECTED_BUILD_SYS_FILES)))
  /\ (forall srcs dest w res w',
        Releaser._sync_files env srcs dest w = (Ret res, w') ->
        commands_run (trace w')
        = commands_run (trace w) ++ map (cp_command dest) srcs
        /\ forall src, src ∈ srcs -> present w' dest (PyStr.basename src) = true).
Proof.
  split; [| split].
  - intros srcs dest w new copied old w' H f Hprot Hold.
    destruct (sync_files_result env _ _ _ _ _ _ _ H) as (_ & _ & Hobs).
    destruct (Hobs f Hold) as [Hnp _]. apply Hnp. exact Hprot.
  - intros self w entries Hls kept.
    assert (Hkept : forall f, f ∈ kept -> f ∈ entries /\ (f ∉ PROTECTED_BUILD_SYS_FILES)).
    { intros f Hf. apply list_elem_of_In, filter_In in Hf as [Hin Hp].
      split; [apply list_elem_of_In; exact Hin |].
      apply (picked_for_copy_unprotected self w f Hp). }
    split; [| split].
    + unfold Releaser._list_files_to_copy, listdir, bind. rewrite Hls.
      apply (list_files_loop_filter self entries [_] w).
    + exact Hkept.
    + intros Hclean p Hp. apply list_elem_of_fmap in Hp as (f & -> & Hf).
      destruct (Hkept f Hf) as [Hin Hnp].
      rewrite (basename_path_join _ f (Hclean f Hin)). split; assumption.
  - intros srcs dest w res w' H. split.
    + destruct (sync_files_commands_prefix env srcs dest w) as (k & _ & Hcmds & Hk).
      rewrite H in Hcmds, Hk. cbn [fst snd] in Hcmds, Hk.
      rewrite (Hk res eq_refl) in Hcmds. rewrite Hcmds.
      rewrite <- (length_map (cp_command dest) srcs), firstn_all. reflexivity.
    + apply (sync_files_leaves_sources env srcs dest w res w' H).
Qed.

Lemma protected_files_obsolete_selected_and_copied_witness :
  ("CVS" ∉ ["old.patch"])
  /\ Releaser._list_files_to_copy demo_self project_world
     = (Ret ["/src/pkg.spec"; "/src/gitcopy/pkg.patch"], project_world)
  /\ commands_run
       (trace (snd (Releaser._sync_files quiet_env demo_files "/dest" stale_checkout)))
     = ["cp /src/pkg.spec /dest/pkg.spec"; "cp /src/pkg.patch /dest/pkg.patch"].
Proof.
  destruct (protected_files_obsolete_selected_and_copied quiet_env)
    as (Hold & Hsel & Hcp).
  split; [| split].
  - apply (Hold demo_files "/dest" stale_checkout ["pkg.patch"] [] ["old.patch"]
             (snd (Releaser._sync_files quiet_env demo_files "/dest" stale_checkout))).
    + vm_compute. reflexivity.
    + vm_compute. apply elem_of_cons. right. apply elem_of_cons. left. reflexivity.
  - apply (Hsel demo_self project_world
             ["pkg.spec"; "pkg.patch"; "Makefile"; "extra.txt"; ".git"]).
    vm_compute. reflexivity.
  - apply (Hcp demo_files "/dest" stale_checkout (["pkg.patch"], [], ["old.patch"])
             (snd (Releaser._sync_files quiet_env demo_files "/dest" stale_checkout))).
    vm_compute. reflexivity.
Defined.

(** C5 as stated fails where the source list names a protected file: the
    sync copies it over the one in the checkout. *)
Lemma sync_copies_over_a_protected_file :
  "Makefile" ∈ PROTECTED_BUILD_SYS_FILES
  /\ "Makefile" ∈ map PyStr.basename sources_with_makefile
  /\ present checkout_with_makefile "/dest" "Makefile" = true
  /\ outcome_of (Releaser._sync_files quiet_env sources_with_makefile "/dest"
                   checkout_with_makefile)
     = Ret ([], [], [])
  /\ "cp /src/Makefile /dest/Makefile"
       ∈ commands_run
           (trace (snd (Releaser._sync_files quiet_env sources_with_makefile "/dest"
                          checkout_with_makefile))).
Proof.
  split; [| split; [| split; [| split]]].
  - apply (bool_decide_unpack _). vm_compute. exact I.
  - apply (bool_decide_unpack _). vm_compute. exact I.
  - vm_compute. reflexivity.
  - vm_compute. reflexivity.
  - apply (bool_decide_unpack _). vm_compute. exact I.
Qed.

(* ===================================================================== *)
(** * Stopping at the first failure                                      *)
(* ===================================================================== *)

Section CopiesUntilFailure.
Context (env : Env) (status : string -> nat).
Hypothesis shell_status : forall t d c, fst (shell env t d c) = status c.

Lemma copy_loop_until_failure dest srcs : forall acc w,
  let r := Releaser.copy_loop env dest srcs acc w in
  commands_run (trace (snd r))
  = commands_run (trace w) ++ until_failure (fun c => Nat.ltb 0 (status c)) (map (cp_command dest) srcs)
  /\ ((exists new, fst r = Ret new) <->
      forall src, src ∈ srcs -> status (cp_command dest src) = 0)
  /\ ((forall new, fst r <> Ret new) -> fst r = Raise "Error running command").
Proof.
  induction srcs as [| copy_me rest IH]; intros acc w r; subst r.
  - cbn. rewrite app_nil_r. split; [reflexivity | split].
    + split; [intros _ src Hsrc; apply elem_of_nil in Hsrc; contradiction |].
      intros _. eexists. reflexivity.
    + intros Hno. destruct (Hno acc eq_refl).
  - assert (Hround : forall line acc',
      let r := bind (bind (print line) (fun _ => ret acc'))
                 (fun new_files' =>
                    bind (run_command env (cp_command dest copy_me))
                      (fun _ =>
                         bind (cp_effect dest (PyStr.basename copy_me))
                           (fun _ => Releaser.copy_loop env dest rest new_files'))) w in
      commands_run (trace (snd r))
      = commands_run (trace w)
          ++ until_failure (fun c => Nat.ltb 0 (status c)) (map (cp_command dest) (copy_me :: rest))
      /\ ((exists new, fst r = Ret new) <->
          forall src, src ∈ copy_me :: rest -> status (cp_command dest src) = 0)
      /\ ((forall new, fst r <> Ret new) -> fst r = Raise "Error running command")).
    { intros line acc'. cbn zeta.
      rewrite bind_assoc, print_step, ret_step, run_command_step.
      cbn [cwd dirs files trace map until_failure]. rewrite shell_status.
      destruct (Nat.ltb 0 (status (cp_command dest copy_me))) eqn:Hst.
      - cbn [fst snd trace]. split; [| split].
        + rewrite !commands_run_app. cbn. rewrite app_nil_r. reflexivity.
        + split; [intros [new Habs]; discriminate Habs |].
          intros Hall. apply Nat.ltb_lt in Hst.
          rewrite (Hall copy_me) in Hst by (apply elem_of_cons; left; reflexivity).
          lia.
        + intros _. reflexivity.
      - rewrite (bind_Ret _ _ _ tt _ (proj1 (cp_effect_run _ _ _))).
        match goal with
        | |- context [Releaser.copy_loop env dest rest acc' ?w4] =>
            destruct (IH acc' w4) as (Hcmds & Hret & Hraise)
        end.
        split; [| split].
        + rewrite Hcmds, (proj1 (proj2 (cp_effect_run _ _ _))).
          cbn [trace]. rewrite !commands_run_app. cbn.
          rewrite app_nil_r, <- app_assoc. reflexivity.
        + rewrite Hret. apply Nat.ltb_ge in Hst. split.
          * intros Hall src Hsrc. apply elem_of_cons in Hsrc as [-> | Hsrc];
              [lia | apply Hall; exact Hsrc].
          * intros Hall src Hsrc. apply Hall. apply elem_of_cons. right. exact Hsrc.
        + exact Hraise. }
    cbn [Releaser.copy_loop]. rewrite path_exists_step.
    destruct (present w dest (PyStr.basename copy_me)); cbn [negb]; apply Hround.
Qed.

End CopiesUntilFailure.

(** X7.  Copies.  With the destination in place and the exit status of a
    command depending on the command alone, the commands a sync hands to
    the shell are the [cp] commands for the sources, in the order of the
    list, up to and including the first one that fails and none after it;
    the sync returns exactly when every [cp] succeeds, and raises at the
    first one that does not. *)
Theorem sync_files_stops_at_the_first_failed_copy (env : Env) status srcs dest w :
  is_Some (dirs w !! dest) ->
  (forall t d c, fst (shell env t d c) = status c) ->
  let r := Releaser._sync_files env srcs dest w in
  commands_run (trace (snd r))
  = commands_run (trace w)
      ++ until_failure (fun c => Nat.ltb 0 (status c)) (map (cp_command dest) srcs)
  /\ ((exists res, fst r = Ret res) <->
      forall src, src ∈ srcs -> status (cp_command dest src) = 0)
  /\ ((forall res, fst r <> Ret res) -> fst r = Raise "Error running command").
Proof.
  intros Hd Hst r. subst r. unfold Releaser._sync_files.
  rewrite chdir_step by exact Hd.
  set (w1 := mkWorld dest (dirs w) (files w) (trace w)).
  destruct (copy_loop_until_failure env status Hst dest srcs [] w1)
    as (Hcmds & Hret & Hraise).
  change (trace w1) with (trace w) in Hcmds.
  destruct (Releaser.copy_loop env dest srcs [] w1) as [[new | c | e] w2] eqn:Hrun;
    cbn [fst snd] in Hcmds, Hret, Hraise.
  - rewrite (bind_Ret _ _ _ _ _ Hrun).
    destruct (copy_loop_present env dest srcs [] w1 new w2 Hd Hrun) as ([l2 Hl2] & _ & _).
    pose proof (obsolete_loop_commands (map PyStr.basename srcs) l2 [] w2) as Ho.
    destruct (obsolete_loop_returns (map PyStr.basename srcs) l2 [] w2)
      as (old & w3 & Hold).
    rewrite Hold in Ho. cbn [snd] in Ho.
    assert (Hfin : bind (listdir dest)
                     (fun entries =>
                        bind (Releaser.obsolete_loop (map PyStr.basename srcs) entries [])
                          (fun old_files => ret (new, ([] : list string), old_files))) w2
                   = (Ret (new, [], old), w3)).
    { unfold bind at 1, listdir. rewrite Hl2.
      rewrite (bind_Ret _ _ _ _ _ Hold). reflexivity. }
    rewrite Hfin. cbn [fst snd].
    split; [rewrite Ho; exact Hcmds | split].
    + rewrite <- Hret. split; intros _; eexists; reflexivity.
    + intros Hno. destruct (Hno (new, [], old) eq_refl).
  - assert (Habs : @Exit (list string) c = Raise "Error running command")
      by (apply Hraise; intros x Hx; discriminate Hx).
    discriminate Habs.
  - assert (He : @Raise (list string) e = Raise "Error running command")
      by (apply Hraise; intros x Hx; discriminate Hx).
    injection He as ->.
    rewrite (bind_Raise _ _ _ _ _ Hrun). cbn [fst snd].
    split; [exact Hcmds | split].
    + rewrite <- Hret. split; intros [x Habs]; discriminate Habs.
    + intros _. reflexivity.
Qed.

Lemma sync_files_stops_at_the_first_failed_copy_witness :
  commands_run
    (trace (snd (Releaser._sync_files second_copy_fails_env three_sources "/dest"
                   stale_checkout)))
  = ["cp /src/pkg.spec /dest/pkg.spec"; "cp /src/pkg.patch /dest/pkg.patch"]
  /\ fst (Releaser._sync_files second_copy_fails_env three_sources "/dest"
            stale_checkout)
     = Raise "Error running command".
Proof.
  destruct (sync_files_stops_at_the_first_failed_copy second_copy_fails_env
              second_copy_fails three_sources "/dest" stale_checkout)
    as (Hcmds & _ & Hraise).
  - exists ["CVS"; "pkg.spec"; "old.patch"]. vm_compute. reflexivity.
  - intros t d c. reflexivity.
  - split; [exact Hcmds |].
    apply Hraise. intros res Habs. vm_compute in Habs. discriminate Habs.
Defined.

Section BuildsUntilFailure.
Context (env : Env) (status : string -> nat).
Hypothesis build_status :
  forall t d, fst (shell env t d cvs_build_command) = status d.

Lemma build_loop_until_failure self branches : forall w,
  let r := CvsReleaser.build_loop env self cvs_build_command branches w in
  shell_events (trace (snd r))
  = shell_events (trace w)
      ++ map (fun d => (d, cvs_build_command))
           (until_failure (fun d => Nat.ltb 0 (status d))
              (while_possible (fun d => bool_decide (is_Some (dirs w !! d)))
                 (map (CvsReleaser.branch_dir self) branches)))
  /\ (fst r = Ret tt <->
      forall b, b ∈ branches ->
        is_Some (dirs w !! CvsReleaser.branch_dir self b)
        /\ status (CvsReleaser.branch_dir self b) = 0).
Proof.
  induction branches as [| branch rest IH]; intros w r; subst r.
  - cbn. rewrite app_nil_r. split; [reflexivity |].
    split; [intros _ b Hb; apply elem_of_nil in Hb; contradiction | reflexivity].
  - cbn [CvsReleaser.build_loop map while_possible].
    destruct (dirs w !! CvsReleaser.branch_dir self branch) as [l |] eqn:Hl.
    + rewrite bool_decide_eq_true_2 by eauto.
      rewrite chdir_step by (exists l; exact Hl).
      rewrite run_command_step. cbn [cwd dirs files trace until_failure].
      rewrite build_status.
      destruct (Nat.ltb 0 (status (CvsReleaser.branch_dir self branch))) eqn:Hst.
      * cbn [fst snd trace map]. split.
        -- rewrite shell_events_app. cbn. reflexivity.
        -- split; [intros Habs; discriminate Habs |].
           intros Hall. apply Nat.ltb_lt in Hst.
           destruct (Hall branch) as [_ H0]; [apply elem_of_cons; left; reflexivity |].
           lia.
      * rewrite print_step. cbn [cwd dirs files trace].
        match goal with
        | |- context [CvsReleaser.build_loop env self cvs_build_command rest ?w3] =>
            destruct (IH w3) as (Hev & Hret)
        end.
        cbn [dirs] in Hev, Hret. split.
        -- rewrite Hev. cbn [trace map]. rewrite !shell_events_app. cbn.
           rewrite app_nil_r, <- app_assoc. reflexivity.
        -- rewrite Hret. apply Nat.ltb_ge in Hst. split.
           ++ intros Hall b Hb. apply elem_of_cons in Hb as [-> | Hb].
              ** split; [exists l; exact Hl | lia].
              ** apply Hall. exact Hb.
           ++ intros Hall b Hb. apply Hall. apply elem_of_cons. right. exact Hb.
    + rewrite bool_decide_eq_false_2 by (apply is_Some_None).
      unfold bind, chdir. rewrite Hl. cbn. rewrite app_nil_r.
      split; [reflexivity |].
      split; [intros Habs; discriminate Habs |].
      intros Hall.
      destruct (Hall branch) as [[l' Hl'] _]; [apply elem_of_cons; left; reflexivity |].
      rewrite Hl in Hl'. discriminate Hl'.
Qed.

End BuildsUntilFailure.

(** X20.  CVS builds.  Outside dry-run, with the package checkout in place
    and the exit status of the build depending on the directory alone, the
    commands [_cvs_make_build] hands to the shell are the build command,
    once per branch in the order of the branches and each from inside the
    branch's own directory, up to the first branch whose directory is not
    there, which gets none, or whose build fails, which is the last one
    run.  It returns exactly when every branch has its directory and a
    build that succeeds. *)
Theorem cvs_make_build_stops_at_the_first_failure (env : Env) status self w :
  dry_run self = false ->
  is_Some (dirs w !! cvs_package_workdir self) ->
  (forall t d, fst (shell env t d cvs_build_command) = status d) ->
  let r := CvsReleaser._cvs_make_build env self w in
  shell_events (trace (snd r))
  = shell_events (trace w)
      ++ map (fun d => (d, cvs_build_command))
           (until_failure (fun d => Nat.ltb 0 (status d))
              (while_possible (fun d => bool_decide (is_Some (dirs w !! d)))
                 (map (CvsReleaser.branch_dir self) (cvs_branches self))))
  /\ (fst r = Ret tt <->
      forall b, b ∈ cvs_branches self ->
        is_Some (dirs w !! CvsReleaser.branch_dir self b)
        /\ status (CvsReleaser.branch_dir self b) = 0).
Proof.
  intros Hlive Hpkg Hst r. subst r.
  unfold CvsReleaser._cvs_make_build. rewrite Hlive.
  rewrite chdir_step by exact Hpkg. rewrite print_step.
  cbn [cwd dirs files trace].
  change "BUILD_FLAGS=--nowait make build" with cvs_build_command.
  match goal with
  | |- context [CvsReleaser.build_loop env self cvs_build_command _ ?w3] =>
      destruct (build_loop_until_failure env status Hst self (cvs_branches self) w3)
        as (Hev & Hret)
  end.
  cbn [dirs trace] in Hev, Hret. split; [| exact Hret].
  rewrite Hev, shell_events_app. cbn. rewrite app_nil_r. reflexivity.
Qed.

Lemma cvs_make_build_stops_at_the_first_failure_witness :
  shell_events
    (trace (snd (CvsReleaser._cvs_make_build build_fails_in_f14_env three_branch_self
                   three_branch_world)))
  = [("/work/pkg/F-15", cvs_build_command); ("/work/pkg/F-14", cvs_build_command)].
Proof.
  destruct (cvs_make_build_stops_at_the_first_failure build_fails_in_f14_env
              build_fails_in_f14 three_branch_self three_branch_world)
    as (Hev & _).
  - reflexivity.
  - exists ["F-15"; "F-14"; "F-13"]. vm_compute. reflexivity.
  - intros t d. reflexivity.
  - rewrite Hev. vm_compute. reflexivity.
Defined.

(* ===================================================================== *)
(** * The commands of a file sync                                          *)
(* ===================================================================== *)

Lemma emits_at_bind {A B} P (m : M A) (f : A -> M B) w :
  emits_at P m w ->
  (forall a w1, m w = (Ret a, w1) -> emits_at P (f a) w1) ->
  emits_at P (bind m f) w.
Proof.
  intros (evs1 & Ht1 & HP1) Hf. unfold emits_at, bind.
  destruct (m w) as [[a | c | e] w1] eqn:Hrun; cbn [snd] in Ht1.
  - destruct (Hf a w1 eq_refl) as (evs2 & Ht2 & HP2).
    exists (evs1 ++ evs2). split.
    + rewrite Ht2, Ht1, app_assoc. reflexivity.
    + apply Forall_app. split; assumption.
  - exists evs1. split; assumption.
  - exists evs1. split; assumption.
Qed.

Lemma emits_at_emits {A} P (m : M A) w : emits P m -> emits_at P m w.
Proof. intros H. apply H. Qed.

Lemma emits_at_nothing {A} P (m : M A) w :
  trace (snd (m w)) = trace w -> emits_at P m w.
Proof.
  intros H. exists []. rewrite H, app_nil_r. split; [reflexivity | constructor].
Qed.

Lemma cp_effect_growth dest name w d f :
  f ∈ listing (snd (cp_effect dest name w)) d -> f ∈ listing w d \/ f = name.
Proof.
  unfold cp_effect, listing.
  destruct (dirs w !! dest) as [l |] eqn:Hl; [| intros Hf; left; exact Hf].
  destruct (present w dest name); [intros Hf; left; exact Hf |].
  cbn [snd dirs]. destruct (decide (d = dest)) as [-> | Hne].
  - rewrite lookup_insert_eq, Hl. cbn [default]. intros Hf.
    apply elem_of_app in Hf as [Hf | Hf]; [left; exact Hf |].
    right. apply list_elem_of_singleton in Hf. exact Hf.
  - rewrite lookup_insert_ne by (intros Heq; apply Hne; symmetry; exact Heq).
    intros Hf. left. exact Hf.
Qed.

Section SyncCommands.
Context (env : Env) (P : Event -> Prop).
Hypothesis P_print : forall l, P (Print l).
Hypothesis P_stderr : forall t, P (Stderr t).

Lemma copy_loop_emits_at dest srcs : forall acc w,
  (forall src, src ∈ srcs -> P (Shell (cwd w) (cp_command dest src))) ->
  emits_at P (Releaser.copy_loop env dest srcs acc) w.
Proof.
  induction srcs as [| copy_me rest IH]; intros acc w Hcp.
  - apply emits_at_nothing. reflexivity.
  - assert (Hround : forall line acc',
      emits_at P
        (bind (bind (print line) (fun _ => ret acc'))
           (fun new_files' =>
              bind (run_command env (cp_command dest copy_me))
                (fun _ =>
                   bind (cp_effect dest (PyStr.basename copy_me))
                     (fun _ => Releaser.copy_loop env dest rest new_files')))) w).
    { intros line acc'. unfold emits_at.
      rewrite bind_assoc, print_step, ret_step, run_command_step.
      cbn [cwd dirs files trace].
      assert (Hme : P (Shell (cwd w) (cp_command dest copy_me)))
        by (apply Hcp; apply elem_of_cons; left; reflexivity).
      destruct (Nat.ltb 0 _).
      - cbn [snd trace]. eexists. rewrite <- !app_assoc. split; [reflexivity |].
        cbn [app]. repeat constructor; [apply P_print | exact Hme | apply P_stderr].
      - rewrite (bind_Ret _ _ _ tt _ (proj1 (cp_effect_run _ _ _))).
        match goal with
        | |- context [Releaser.copy_loop env dest rest acc' ?w4] =>
            destruct (IH acc' w4) as (evs & Hevs & HP)
        end.
        { intros src Hsrc. rewrite (proj2 (proj2 (cp_effect_run _ _ _))). cbn [cwd].
          apply Hcp. apply elem_of_cons. right. exact Hsrc. }
        rewrite Hevs, (proj1 (proj2 (cp_effect_run _ _ _))). cbn [trace].
        eexists. rewrite <- !app_assoc. split; [reflexivity |].
        cbn [app]. constructor; [apply P_print |]. constructor; [exact Hme | exact HP]. }
    cbn [Releaser.copy_loop]. unfold emits_at. rewrite path_exists_step.
    destruct (present w dest (PyStr.basename copy_me)); cbn [negb]; apply Hround.
Qed.

Lemma sync_files_emits_at srcs dest w :
  (forall src, src ∈ srcs -> P (Shell dest (cp_command dest src))) ->
  emits_at P (Releaser._sync_files env srcs dest) w.
Proof.
  intros Hcp. unfold Releaser._sync_files.
  apply emits_at_bind; [apply emits_at_emits, emits_chdir |].
  intros [] w1 Hcd. unfold chdir in Hcd.
  destruct (dirs w !! dest); [| discriminate Hcd]. injection Hcd as <-.
  apply emits_at_bind; [apply copy_loop_emits_at; exact Hcp |].
  intros new w2 _. apply emits_at_emits.
  apply emits_bind; [apply emits_listdir | intros entries].
  apply emits_bind; [apply emits_obsolete_loop; exact P_print | intros old].
  apply emits_ret.
Qed.

Lemma copy_loop_growth dest srcs : forall acc w new w',
  Releaser.copy_loop env dest srcs acc w = (Ret new, w') ->
  forall d f, f ∈ listing w' d -> f ∈ listing w d \/ f ∈ map PyStr.basename srcs.
Proof.
  induction srcs as [| copy_me rest IH]; intros acc w new w' H d f Hf.
  - injection H as _ <-. left. exact Hf.
  - apply copy_loop_unfold in H as (w3 & Hw3 & H).
    destruct (IH _ _ _ _ H d f Hf) as [Hf4 | Hrest].
    + apply cp_effect_growth in Hf4 as [Hf3 | ->].
      * left. unfold listing in Hf3 |- *. rewrite <- Hw3. exact Hf3.
      * right. cbn [map]. apply elem_of_cons. left. reflexivity.
    + right. cbn [map]. apply elem_of_cons. right. exact Hrest.
Qed.

(** What a sync that returned has found and left: the obsolete names were
    entries of the destination before it, and nothing has been added to
    any directory but base names of sources. *)
Lemma sync_files_found_and_left srcs dest w new copied old w' :
  Releaser._sync_files env srcs dest w = (Ret (new, copied, old), w') ->
  copied = []
  /\ (forall f, f ∈ new -> f ∈ map PyStr.basename srcs)
  /\ (forall f, f ∈ old ->
        f ∈ listing w dest
        /\ (f ∉ PROTECTED_BUILD_SYS_FILES) /\ (f ∉ map PyStr.basename srcs))
  /\ (forall d f, f ∈ listing w' d ->
        f ∈ listing w d \/ f ∈ map PyStr.basename srcs).
Proof.
  intros H.
  destruct (sync_files_result env _ _ _ _ _ _ _ H) as (Hcopied & Hnew & Hold).
  apply sync_files_Ret_inv in H
    as (l & w1 & w2 & l2 & Hl & Hw1 & Hrun & Hl2 & Hobs & _).
  pose proof (copy_loop_growth dest srcs [] w1 new w2 Hrun) as Hgrow.
  pose proof (obsolete_loop_dirs _ _ _ _ _ _ Hobs) as Hw'.
  split; [exact Hcopied | split; [exact Hnew | split]].
  - intros f Hf. destruct (Hold f Hf) as [Hnp Hns].
    split; [| split; assumption].
    destruct (obsolete_loop_sound _ _ _ _ _ _ Hobs f Hf) as [Hnil | (Hin & _)];
      [apply elem_of_nil in Hnil; contradiction |].
    destruct (Hgrow dest f) as [Hf1 | Hsrc].
    + unfold listing. rewrite Hl2. exact Hin.
    + unfold listing in Hf1 |- *. rewrite <- Hw1. exact Hf1.
    + contradiction.
  - intros d f Hf. unfold listing in Hf. rewrite Hw' in Hf.
    destruct (Hgrow d f Hf) as [Hf1 | Hsrc]; [| right; exact Hsrc].
    left. unfold listing in Hf1 |- *. rewrite <- Hw1. exact Hf1.
Qed.

Lemma git_add_loop_emits_at names : forall w,
  (forall f, f ∈ names -> P (Shell (cwd w) ("git add " +:+ f))) ->
  exists evs,
    FedoraGitReleaser.git_add_loop env names w
    = (Ret tt, mkWorld (cwd w) (dirs w) (files w) (trace w ++ evs))
    /\ Forall P evs.
Proof.
  induction names as [| add_file rest IH]; intros w Hadd;
    cbn [FedoraGitReleaser.git_add_loop].
  - exists []. rewrite app_nil_r. split; [destruct w; reflexivity | constructor].
  - rewrite getstatusoutput_step.
    match goal with
    | |- context [FedoraGitReleaser.git_add_loop env rest ?w1] =>
        destruct (IH w1) as (evs & Hrun & HP)
    end.
    { intros f Hf. apply Hadd. apply elem_of_cons. right. exact Hf. }
    rewrite Hrun. cbn [cwd dirs files trace]. eexists. rewrite <- app_assoc.
    split; [reflexivity |]. cbn [app]. constructor; [| exact HP].
    apply Hadd. apply elem_of_cons. left. reflexivity.
Qed.

Lemma cvs_add_loop_emits_at names : forall w,
  (forall f, f ∈ names -> P (Shell (cwd w) ("cvs add " +:+ f))) ->
  exists evs,
    CvsReleaser.cvs_add_loop env names w
    = (Ret tt, mkWorld (cwd w) (dirs w) (files w) (trace w ++ evs))
    /\ Forall P evs.
Proof.
  induction names as [| add_file rest IH]; intros w Hadd;
    cbn [CvsReleaser.cvs_add_loop].
  - exists []. rewrite app_nil_r. split; [destruct w; reflexivity | constructor].
  - rewrite getstatusoutput_step.
    match goal with
    | |- context [CvsReleaser.cvs_add_loop env rest ?w1] =>
        destruct (IH w1) as (evs & Hrun & HP)
    end.
    { intros f Hf. apply Hadd. apply elem_of_cons. right. exact Hf. }
    rewrite Hrun. cbn [cwd dirs files trace]. eexists. rewrite <- app_assoc.
    split; [reflexivity |]. cbn [app]. constructor; [| exact HP].
    apply Hadd. apply elem_of_cons. left. reflexivity.
Qed.

Lemma git_rm_loop_emits_at names : forall w,
  (forall f, f ∈ names -> P (Shell (cwd w) ("git rm " +:+ f))) ->
  emits_at P (FedoraGitReleaser.git_rm_loop env names) w.
Proof.
  induction names as [| cleanup_file rest IH]; intros w Hrm;
    cbn [FedoraGitReleaser.git_rm_loop].
  - apply emits_at_nothing. reflexivity.
  - assert (Hme : P (Shell (cwd w) ("git rm " +:+ cleanup_file)))
      by (apply Hrm; apply elem_of_cons; left; reflexivity).
    unfold emits_at. rewrite run_command_step. destruct (Nat.ltb 0 _).
    + cbn [snd trace]. eexists. split; [reflexivity |].
      repeat constructor; [exact Hme | apply P_stderr].
    + match goal with
      | |- context [FedoraGitReleaser.git_rm_loop env rest ?w1] =>
          destruct (IH w1) as (evs & Hevs & HP)
      end.
      { intros f Hf. apply Hrm. apply elem_of_cons. right. exact Hf. }
      rewrite Hevs. cbn [trace]. eexists. rewrite <- app_assoc.
      split; [reflexivity |]. cbn [app]. constructor; [exact Hme | exact HP].
Qed.

Lemma cvs_rm_loop_emits_at names : forall w,
  (forall f, f ∈ names -> P (Shell (cwd w) ("cvs rm -Rf " +:+ f))) ->
  emits_at P (CvsReleaser.cvs_rm_loop env names) w
  /\ forall w', CvsReleaser.cvs_rm_loop env names w = (Ret tt, w') ->
                dirs w' = dirs w.
Proof.
  induction names as [| cleanup_file rest IH]; intros w Hrm;
    cbn [CvsReleaser.cvs_rm_loop].
  - split; [apply emits_at_nothing; reflexivity |].
    intros w' H. injection H as <-. reflexivity.
  - assert (Hme : P (Shell (cwd w) ("cvs rm -Rf " +:+ cleanup_file)))
      by (apply Hrm; apply elem_of_cons; left; reflexivity).
    unfold emits_at. rewrite run_command_step. destruct (Nat.ltb 0 _).
    + cbn [snd trace]. split; [| intros w' Habs; discriminate Habs].
      eexists. split; [reflexivity |].
      repeat constructor; [exact Hme | apply P_stderr].
    + match goal with
      | |- context [CvsReleaser.cvs_rm_loop env rest ?w1] =>
          destruct (IH w1) as ((evs & Hevs & HP) & Hdirs)
      end.
      { intros f Hf. apply Hrm. apply elem_of_cons. right. exact Hf. }
      split; [| intros w' H; apply Hdirs in H; exact H].
      rewrite Hevs. cbn [trace]. eexists. rewrite <- app_assoc.
      split; [reflexivity |]. cbn [app]. constructor; [exact Hme | exact HP].
Qed.

End SyncCommands.

Lemma list_files_to_copy_selected self w :
  Releaser._list_files_to_copy self w = (Ret (selected self w), w)
  \/ Releaser._list_files_to_copy self w = (Raise "OSError: listdir", w).
Proof.
  unfold Releaser._list_files_to_copy, listdir, bind, selected, listing.
  destruct (dirs w !! rpmbuild_gitcopy (builder self)) as [entries |];
    [left | right; reflexivity].
  apply (list_files_loop_filter self entries [_] w).
Qed.

(** With plain names in the directories, a command of the shape of a file
    sync that begins with [rm] removes one plain, unprotected name. *)
Lemma sync_command_removes_plainly add rm srcs w dests e :
  (forall d src, PyStr.startswith (cp_command d src) rm = false) ->
  (forall x, PyStr.startswith (add +:+ x) rm = false) ->
  (forall d f, d ∈ dests -> f ∈ listing w d -> plain_name f = true) ->
  sync_command add rm srcs w dests e -> removes_plainly rm e.
Proof.
  intros Hcp Hadd Hplain. destruct e as [| | d cmd | | |]; try (intros; exact I).
  intros [Hd [(src & _ & ->) | [(src & _ & ->) | (f & Hf & -> & Hnp & _)]]] Hrm.
  - rewrite Hcp in Hrm. discriminate Hrm.
  - rewrite Hadd in Hrm. discriminate Hrm.
  - exists f. split; [reflexivity | split; [| exact Hnp]].
    apply (Hplain d f Hd Hf).
Qed.

Lemma cp_starts_no_git_rm d src : PyStr.startswith (cp_command d src) "git rm " = false.
Proof. unfold cp_command. rewrite !append_cons. reflexivity. Qed.

Lemma git_add_starts_no_git_rm x : PyStr.startswith ("git add " +:+ x) "git rm " = false.
Proof. rewrite !append_cons. reflexivity. Qed.

Lemma cp_starts_no_cvs_rm d src :
  PyStr.startswith (cp_command d src) "cvs rm -Rf " = false.
Proof. unfold cp_command. rewrite !append_cons. reflexivity. Qed.

Lemma cvs_add_starts_no_cvs_rm x :
  PyStr.startswith ("cvs add " +:+ x) "cvs rm -Rf " = false.
Proof. rewrite !append_cons. reflexivity. Qed.

(** X13.  The commands of the git file sync.  Whatever the project and the
    checkout hold and however the commands end, every command
    [_git_sync_files] hands to the shell is run from inside the checkout
    and is the [cp] of a selected file into it, the [git add] of the base
    name of a selected file, or a [git rm] of an entry the checkout had
    that is neither protected nor the base name of a selected file.  So
    when the entries of the checkout are plain file names, every command
    line that begins with [git rm] removes one plain name, and never a
    protected one. *)
Theorem git_sync_files_commands (env : Env) self project_checkout w :
  exists evs,
    trace (snd (FedoraGitReleaser._git_sync_files env self project_checkout w))
    = trace w ++ evs
    /\ Forall (sync_command "git add " "git rm " (selected self w) w
                 [project_checkout]) evs
    /\ ((forall f, f ∈ listing w project_checkout -> plain_name f = true) ->
        Forall (removes_plainly "git rm ") evs).
Proof.
  set (Q := sync_command "git add " "git rm " (selected self w) w [project_checkout]).
  assert (Hrun : emits_at Q
            (FedoraGitReleaser._git_sync_files env self project_checkout) w).
  { unfold FedoraGitReleaser._git_sync_files.
    destruct (list_files_to_copy_selected self w) as [Hsel | Hsel].
    2: { apply emits_at_nothing. unfold bind. rewrite Hsel. reflexivity. }
    unfold emits_at. rewrite (bind_Ret _ _ _ _ _ Hsel).
    destruct (dirs w !! project_checkout) as [l |] eqn:Hl.
    2: { apply emits_at_nothing. unfold bind, chdir. rewrite Hl. reflexivity. }
    rewrite chdir_step by (exists l; exact Hl).
    set (w1 := mkWorld project_checkout (dirs w) (files w) (trace w)).
    change (emits_at Q
              (bind (Releaser._sync_files env (selected self w) project_checkout)
                 (fun r => let '(new, copied, old) := r in
                           bind (chdir project_checkout)
                             (fun _ => bind (FedoraGitReleaser.git_add_loop env
                                               (new ++ copied))
                                (fun _ => FedoraGitReleaser.git_rm_loop env old))))
              w1).
    apply emits_at_bind.
    - apply sync_files_emits_at; try (intros; exact I).
      intros src Hsrc. split; [apply list_elem_of_singleton; reflexivity |].
      left. exists src. split; [exact Hsrc | reflexivity].
    - intros [[new copied] old] w2 Hsync.
      destruct (sync_files_found_and_left env _ _ _ _ _ _ _ Hsync)
        as (-> & Hnew & Hold & _).
      rewrite app_nil_r.
      apply emits_at_bind; [apply emits_at_emits, emits_chdir |].
      intros [] w3 Hcd. unfold chdir in Hcd.
      destruct (dirs w2 !! project_checkout); [| discriminate Hcd].
      injection Hcd as <-.
      destruct (git_add_loop_emits_at env Q new
                  (mkWorld project_checkout (dirs w2) (files w2) (trace w2)))
        as (evs & Hadd & HP).
      { intros f Hf. cbn [cwd]. split; [apply list_elem_of_singleton; reflexivity |].
        right. left. apply Hnew, list_elem_of_fmap in Hf as (src & -> & Hsrc).
        exists src. split; [exact Hsrc | reflexivity]. }
      apply emits_at_bind.
      + exists evs. rewrite Hadd. split; [reflexivity | exact HP].
      + intros [] w4 Hw4. rewrite Hadd in Hw4. injection Hw4 as <-.
        apply git_rm_loop_emits_at; try (intros; exact I).
        intros f Hf. cbn [cwd]. split; [apply list_elem_of_singleton; reflexivity |].
        right. right. destruct (Hold f Hf) as (Hin & Hnp & Hns).
        exists f. repeat split; assumption. }
  destruct Hrun as (evs & Hevs & HQ). exists evs.
  split; [exact Hevs | split; [exact HQ |]].
  intros Hplain. apply (Forall_impl _ _ _ HQ). intros e He.
  apply (sync_command_removes_plainly "git add " "git rm " (selected self w) w
           [project_checkout]); try exact He.
  - apply cp_starts_no_git_rm.
  - apply git_add_starts_no_git_rm.
  - intros d f Hd Hf. apply list_elem_of_singleton in Hd. subst d.
    apply Hplain. exact Hf.
Qed.

Lemma sync_branches_loop_commands env self srcs w0 dests branches : forall w,
  (forall b, b ∈ branches -> CvsReleaser.branch_dir self b ∈ dests) ->
  (forall d f, f ∈ listing w d ->
     f ∈ listing w0 d \/ f ∈ map PyStr.basename srcs) ->
  emits_at (sync_command "cvs add " "cvs rm -Rf " srcs w0 dests)
           (CvsReleaser.sync_branches_loop env self srcs branches) w.
Proof.
  set (Q := sync_command "cvs add " "cvs rm -Rf " srcs w0 dests).
  induction branches as [| branch rest IH]; intros w Hdests Hinv;
    cbn [CvsReleaser.sync_branches_loop].
  - apply emits_at_nothing. reflexivity.
  - set (here := CvsReleaser.branch_dir self branch).
    assert (Hhere : here ∈ dests)
      by (apply Hdests; apply elem_of_cons; left; reflexivity).
    apply emits_at_bind; [apply emits_at_emits, emits_log; exact I |].
    intros [] w1 Hw1. injection Hw1 as <-.
    apply emits_at_bind.
    { apply sync_files_emits_at; try (intros; exact I).
      intros src Hsrc. split; [exact Hhere |].
      left. exists src. split; [exact Hsrc | reflexivity]. }
    intros [[new copied] old] w2 Hsync.
    destruct (sync_files_found_and_left env _ _ _ _ _ _ _ Hsync)
      as (_ & Hnew & Hold & Hgrow).
    apply emits_at_bind; [apply emits_at_emits, emits_chdir |].
    intros [] w3 Hcd. unfold chdir in Hcd.
    destruct (dirs w2 !! here); [| discriminate Hcd].
    injection Hcd as <-.
    destruct (cvs_add_loop_emits_at env Q new
                (mkWorld here (dirs w2) (files w2) (trace w2)))
      as (evs & Hadd & HP).
    { intros f Hf. cbn [cwd]. split; [exact Hhere |].
      right. left. apply Hnew, list_elem_of_fmap in Hf as (src & -> & Hsrc).
      exists src. split; [exact Hsrc | reflexivity]. }
    apply emits_at_bind.
    { exists evs. rewrite Hadd. split; [reflexivity | exact HP]. }
    intros [] w4 Hw4. rewrite Hadd in Hw4. injection Hw4 as <-.
    assert (Hinv2 : forall d f,
              f ∈ listing w2 d -> f ∈ listing w0 d \/ f ∈ map PyStr.basename srcs).
    { intros d f Hf. destruct (Hgrow d f Hf) as [Hf1 | Hsrc]; [| right; exact Hsrc].
      apply Hinv. exact Hf1. }
    match goal with
    | |- emits_at _ _ ?w5 =>
        destruct (cvs_rm_loop_emits_at env Q (fun _ => I) old w5) as [Hrm Hdirs]
    end.
    { intros f Hf. cbn [cwd]. split; [exact Hhere |].
      right. right. destruct (Hold f Hf) as (Hin & Hnp & Hns).
      exists f. split; [| repeat split; assumption].
      destruct (Hinv here f Hin) as [Hf0 | Hsrc]; [exact Hf0 | contradiction]. }
    apply emits_at_bind; [exact Hrm |].
    intros [] w6 Hw6. apply Hdirs in Hw6. cbn [dirs] in Hw6.
    apply IH.
    + intros b Hb. apply Hdests. apply elem_of_cons. right. exact Hb.
    + intros d f Hf. apply Hinv2. unfold listing in Hf |- *.
      rewrite <- Hw6. exact Hf.
Qed.

(** X16.  The commands of the CVS file sync.  Over all the branches, and
    however the commands end, every command [cvs_sync_files] hands to the
    shell is run from inside the directory of a branch and is the [cp] of a
    selected file into it, the [cvs add] of the base name of a selected
    file, or a [cvs rm -Rf] of an entry the directory had that is neither
    protected nor the base name of a selected file.  So when the entries of
    the branch directories are plain file names, every command line that
    begins with [cvs rm -Rf] removes one plain name, and never a protected
    one. *)
Theorem cvs_sync_files_commands (env : Env) self w :
  exists evs,
    trace (snd (CvsReleaser.cvs_sync_files env self w)) = trace w ++ evs
    /\ Forall (sync_command "cvs add " "cvs rm -Rf " (selected self w) w
                 (map (CvsReleaser.branch_dir self) (cvs_branches self))) evs
    /\ ((forall b f, b ∈ cvs_branches self ->
           f ∈ listing w (CvsReleaser.branch_dir self b) -> plain_name f = true) ->
        Forall (removes_plainly "cvs rm -Rf ") evs).
Proof.
  set (dests := map (CvsReleaser.branch_dir self) (cvs_branches self)).
  set (Q := sync_command "cvs add " "cvs rm -Rf " (selected self w) w dests).
  assert (Hrun : emits_at Q (CvsReleaser.cvs_sync_files env self) w).
  { unfold CvsReleaser.cvs_sync_files.
    destruct (list_files_to_copy_selected self w) as [Hsel | Hsel].
    2: { apply emits_at_nothing. unfold bind. rewrite Hsel. reflexivity. }
    unfold emits_at. rewrite (bind_Ret _ _ _ _ _ Hsel).
    apply sync_branches_loop_commands.
    - intros b Hb. apply list_elem_of_fmap. exists b. split; [reflexivity | exact Hb].
    - intros d f Hf. left. exact Hf. }
  destruct Hrun as (evs & Hevs & HQ). exists evs.
  split; [exact Hevs | split; [exact HQ |]].
  intros Hplain. apply (Forall_impl _ _ _ HQ). intros e He.
  apply (sync_command_removes_plainly "cvs add " "cvs rm -Rf " (selected self w) w
           dests); try exact He.
  - apply cp_starts_no_cvs_rm.
  - apply cvs_add_starts_no_cvs_rm.
  - intros d f Hd Hf. apply list_elem_of_fmap in Hd as (b & -> & Hb).
    apply (Hplain b f Hb Hf).
Qed.

Lemma git_sync_files_commands_witness :
  exists evs,
    trace (snd (FedoraGitReleaser._git_sync_files quiet_env demo_self "/co" sync_world))
    = trace sync_world ++ evs
    /\ Forall (removes_plainly "git rm ") evs.
Proof.
  destruct (git_sync_files_commands quiet_env demo_self "/co" sync_world)
    as (evs & Hevs & _ & Hplain).
  exists evs. split; [exact Hevs |]. apply Hplain.
  intros f Hf. change (f ∈ [".git"; "Makefile"; "pkg.spec"; "old.patch"]) in Hf.
  repeat (apply elem_of_cons in Hf as [-> | Hf]; [reflexivity |]).
  apply elem_of_nil in Hf. contradiction.
Defined.

Lemma cvs_sync_files_commands_witness :
  exists evs,
    trace (snd (CvsReleaser.cvs_sync_files quiet_env demo_self sync_world))
    = trace sync_world ++ evs
    /\ Forall (removes_plainly "cvs rm -Rf ") evs.
Proof.
  destruct (cvs_sync_files_commands quiet_env demo_self sync_world)
    as (evs & Hevs & _ & Hplain).
  exists evs. split; [exact Hevs |]. apply Hplain.
  intros b f Hb Hf. apply list_elem_of_singleton in Hb. subst b.
  change (f ∈ ["CVS"; "Makefile"; "pkg.spec"; "old.patch"]) in Hf.
  repeat (apply elem_of_cons in Hf as [-> | Hf]; [reflexivity |]).
  apply elem_of_nil in Hf. contradiction.
Defined.
